(** * NetBox core data sources: a shallow embedding of [core/models/data.py]

    The development follows [netbox/core/models/data.py]: the [DataSource] and
    [DataFile] models, [DataSource.sync] with its helpers [_walk] and
    [_ignore], and [DataFile.refresh_from_disk] / [DataFile.get_data]; and
    the backend parameters of [DataSourceForm] in
    [netbox/core/forms/model_forms.py].

    Text is modelled by [string]; a character stands for a code point below
    256.  Binary content is [list byte].  Python sets are [gset]s, database
    tables are [gmap]s from primary keys to rows.  Timestamps are readings
    of a clock, signals are recorded in the order they are sent, and the
    [logger.debug] calls are left out.  A receiver of a signal may raise,
    a statement sent to the database may fail, and the size reported for a
    file is read apart from its bytes. *)

From Stdlib Require Import ZArith NArith Ascii.
From Stdlib.Strings Require Import Byte.
From stdpp Require Import gmap strings list fin_maps infinite sorting.

Local Open Scope Z_scope.

(** ** Python's [str] methods used by the module *)

Module Py.

(** [s.startswith(p)] *)
Definition startswith (s p : string) : bool := String.prefix p s.

(** [s.endswith(c)] for a one-character [c]. *)
Fixpoint endswith_char (s : string) (c : ascii) : bool :=
  match s with
  | EmptyString => false
  | String a EmptyString => Ascii.eqb a c
  | String _ s' => endswith_char s' c
  end.

Fixpoint mem_char (c : ascii) (chars : string) : bool :=
  match chars with
  | EmptyString => false
  | String a chars' => Ascii.eqb a c || mem_char c chars'
  end.

(** [s.lstrip(chars)]: drop the leading characters that occur in [chars]. *)
Fixpoint lstrip (chars s : string) : string :=
  match s with
  | EmptyString => EmptyString
  | String a s' => if mem_char a chars then lstrip chars s' else s
  end.

Definition snoc (s : string) (c : ascii) : string :=
  s +:+ String c EmptyString.

(** The scan of [s.split(sep)] for a non-empty [sep]: [cur] is the piece
    being collected, [skip] counts the characters of a separator just
    matched that are still to be stepped over.  Occurrences are taken
    leftmost first and do not overlap. *)
Fixpoint split_scan (sep s : string) (skip : nat) (cur : string)
  : list string :=
  match s with
  | EmptyString => [cur]
  | String a s' =>
      match skip with
      | S k => split_scan sep s' k cur
      | O =>
          if String.prefix sep s
          then cur :: split_scan sep s' (String.length sep - 1) EmptyString
          else split_scan sep s' O (snoc cur a)
      end
  end.

(** [s.split(sep)]; [None] is the [ValueError] Python raises for an empty
    separator. *)
Definition split (s sep : string) : option (list string) :=
  match sep with
  | EmptyString => None
  | _ => Some (split_scan sep s O EmptyString)
  end.

(** Line boundaries of [str.splitlines] among the code points below 256:
    LF, VT, FF, CR, FS, GS, RS and NEL. *)
Definition is_linebreak (c : ascii) : bool :=
  let n := N_of_ascii c in
  (n =? 10)%N || (n =? 11)%N || (n =? 12)%N || (n =? 13)%N ||
  (n =? 28)%N || (n =? 29)%N || (n =? 30)%N || (n =? 133)%N.

Definition is_cr (c : ascii) : bool := (N_of_ascii c =? 13)%N.
Definition is_lf (c : ascii) : bool := (N_of_ascii c =? 10)%N.

(** [s.splitlines()]: a line ends at each boundary (CR LF is one boundary);
    what follows the last boundary is a line only when it is not empty. *)
Fixpoint splitlines_scan (s : string) (cur : string) (after_cr : bool)
  : list string :=
  match s with
  | EmptyString =>
      match cur with EmptyString => [] | _ => [cur] end
  | String a s' =>
      if after_cr && is_lf a then splitlines_scan s' cur false
      else if is_linebreak a
           then cur :: splitlines_scan s' EmptyString (is_cr a)
           else splitlines_scan s' (snoc cur a) false
  end.

Definition splitlines (s : string) : list string :=
  splitlines_scan s EmptyString false.

(** [os.path.join(a, b)] of [posixpath]. *)
Definition os_path_join (a b : string) : string :=
  if startswith b "/" then b
  else match a with
       | EmptyString => b
       | _ => if endswith_char a "/" then a +:+ b else a +:+ "/" +:+ b
       end.

End Py.

(** ** [fnmatch.fnmatchcase]

    The pattern language of Python's [fnmatch]: [*] matches any run of
    characters, [?] one character, [[seq]] one character of [seq] and
    [[!seq]] one character outside it; a [[] that is never closed stands for
    itself.  Inside the brackets [lo-hi] is a range of code points, and a
    closing bracket placed first belongs to the set. *)

Module Fnmatch.

Inductive item :=
| Star
| AnyChar
| Lit (c : ascii)
| Class (negated : bool) (ranges : list (ascii * ascii)).

(** The text between the brackets up to the closing one, after the
    optional [!] and an optional leading [\]]. *)
Fixpoint until_close (s : string) : option string :=
  match s with
  | EmptyString => None
  | String a s' =>
      if Ascii.eqb a "]" then Some EmptyString
      else String a <$> until_close s'
  end.

Definition bracket_body (s : string) : option string :=
  let lead_bang (k : string -> option string) (s : string) :=
    match s with
    | String a s' =>
        if Ascii.eqb a "!" then String a <$> k s' else k s
    | EmptyString => k s
    end in
  let lead_close (s : string) :=
    match s with
    | String a s' =>
        if Ascii.eqb a "]" then String a <$> until_close s'
        else until_close s
    | EmptyString => until_close s
    end in
  lead_bang lead_close s.

(** The members of a bracket expression: [lo-hi] when a hyphen stands
    between two characters, single characters otherwise. *)
Fixpoint ranges_of (s : string) : list (ascii * ascii) :=
  match s with
  | EmptyString => []
  | String lo s' =>
      match s' with
      | String dash (String hi s'') =>
          if Ascii.eqb dash "-" then (lo, hi) :: ranges_of s''
          else (lo, lo) :: ranges_of s'
      | _ => (lo, lo) :: ranges_of s'
      end
  end.

Definition class_of (stuff : string) : item :=
  match stuff with
  | String a rest =>
      if Ascii.eqb a "!" then Class true (ranges_of rest)
      else Class false (ranges_of stuff)
  | EmptyString => Class false []
  end.

(** [fnmatch.translate]: the pattern read left to right; [skip] counts the
    characters of a bracket expression already turned into a [Class]. *)
Fixpoint translate (pat : string) (skip : nat) : list item :=
  match pat with
  | EmptyString => []
  | String c pat' =>
      match skip with
      | S k => translate pat' k
      | O =>
          if Ascii.eqb c "*" then Star :: translate pat' O
          else if Ascii.eqb c "?" then AnyChar :: translate pat' O
          else if Ascii.eqb c "[" then
            match bracket_body pat' with
            | None => Lit c :: translate pat' O
            | Some stuff =>
                class_of stuff :: translate pat' (S (String.length stuff))
            end
          else Lit c :: translate pat' O
      end
  end.

Definition in_range (c : ascii) (r : ascii * ascii) : bool :=
  (N_of_ascii r.1 <=? N_of_ascii c)%N && (N_of_ascii c <=? N_of_ascii r.2)%N.

Definition class_matches (negated : bool) (ranges : list (ascii * ascii))
    (c : ascii) : bool :=
  xorb negated (existsb (in_range c) ranges).

(** Matching is anchored at both ends and compares characters exactly
    (no case folding). *)
Fixpoint matches (pat : list item) (s : string) : bool :=
  match pat with
  | [] => match s with EmptyString => true | _ => false end
  | Star :: pat' =>
      (fix star (s : string) : bool :=
         matches pat' s ||
         match s with
         | EmptyString => false
         | String _ s' => star s'
         end) s
  | AnyChar :: pat' =>
      match s with
      | String _ s' => matches pat' s'
      | EmptyString => false
      end
  | Lit c :: pat' =>
      match s with
      | String a s' => Ascii.eqb a c && matches pat' s'
      | EmptyString => false
      end
  | Class negated ranges :: pat' =>
      match s with
      | String a s' => class_matches negated ranges a && matches pat' s'
      | EmptyString => false
      end
  end.

(** [fnmatchcase(name, pat)] *)
Definition fnmatchcase (name pat : string) : bool :=
  matches (translate pat O) name.

End Fnmatch.

(** ** SHA-256

    [hashlib.sha256(...).hexdigest()] as FIPS 180-4 defines it, on 32-bit
    words kept in [N] with the wrap-around written out. *)

Module Sha256.
Local Open Scope N_scope.

Definition wrap (x : N) : N := x mod 4294967296.
Definition add32 (a b : N) : N := wrap (a + b).
Definition rotr (n x : N) : N :=
  N.lor (N.shiftr x n) (wrap (N.shiftl x (32 - n))).
Definition shr (n x : N) : N := N.shiftr x n.
Definition not32 (x : N) : N := N.lxor x 4294967295.

Definition ch (x y z : N) : N := N.lxor (N.land x y) (N.land (not32 x) z).
Definition maj (x y z : N) : N :=
  N.lxor (N.lxor (N.land x y) (N.land x z)) (N.land y z).
Definition bsig0 (x : N) : N := N.lxor (N.lxor (rotr 2 x) (rotr 13 x)) (rotr 22 x).
Definition bsig1 (x : N) : N := N.lxor (N.lxor (rotr 6 x) (rotr 11 x)) (rotr 25 x).
Definition ssig0 (x : N) : N := N.lxor (N.lxor (rotr 7 x) (rotr 18 x)) (shr 3 x).
Definition ssig1 (x : N) : N := N.lxor (N.lxor (rotr 17 x) (rotr 19 x)) (shr 10 x).

Definition K : list N :=
  [
    1116352408; 1899447441; 3049323471; 3921009573;
    961987163; 1508970993; 2453635748; 2870763221;
    3624381080; 310598401; 607225278; 1426881987;
    1925078388; 2162078206; 2614888103; 3248222580;
    3835390401; 4022224774; 264347078; 604807628;
    770255983; 1249150122; 1555081692; 1996064986;
    2554220882; 2821834349; 2952996808; 3210313671;
    3336571891; 3584528711; 113926993; 338241895;
    666307205; 773529912; 1294757372; 1396182291;
    1695183700; 1986661051; 2177026350; 2456956037;
    2730485921; 2820302411; 3259730800; 3345764771;
    3516065817; 3600352804; 4094571909; 275423344;
    430227734; 506948616; 659060556; 883997877;
    958139571; 1322822218; 1537002063; 1747873779;
    1955562222; 2024104815; 2227730452; 2361852424;
    2428436474; 2756734187; 3204031479; 3329325298
  ].

Record state := State { ha : N; hb : N; hc : N; hd : N;
                        he : N; hf : N; hg : N; hh : N }.

Definition init : state :=
  State 1779033703 3144134277 1013904242 2773480762 1359893119 2600822924 528734635 1541459225.

(** One round: [w] holds the sixteen schedule words W(i) .. W(i+15); the
    round consumes W(i) and the window moves on by one word. *)
Definition round (acc : state * list N) (k : N) : state * list N :=
  let (s, w) := acc in
  let wi := nth 0 w 0 in
  let t1 := add32 (add32 (add32 (add32 (hh s) (bsig1 (he s)))
                                (ch (he s) (hf s) (hg s))) k) wi in
  let t2 := add32 (bsig0 (ha s)) (maj (ha s) (hb s) (hc s)) in
  let next := add32 (add32 (add32 (ssig1 (nth 14 w 0)) (nth 9 w 0))
                           (ssig0 (nth 1 w 0))) wi in
  (State (add32 t1 t2) (ha s) (hb s) (hc s)
         (add32 (hd s) t1) (he s) (hf s) (hg s),
   tail w ++ [next]).

Fixpoint words (bytes : list N) : list N :=
  match bytes with
  | b0 :: b1 :: b2 :: b3 :: rest =>
      (b0 * 16777216 + b1 * 65536 + b2 * 256 + b3) :: words rest
  | _ => []
  end.

Definition compress (s : state) (block : list N) : state :=
  let s' := fst (fold_left round K (s, words block)) in
  State (add32 (ha s) (ha s')) (add32 (hb s) (hb s'))
        (add32 (hc s) (hc s')) (add32 (hd s) (hd s'))
        (add32 (he s) (he s')) (add32 (hf s) (hf s'))
        (add32 (hg s) (hg s')) (add32 (hh s) (hh s')).

Definition be64 (n : N) : list N :=
  map (fun i => (n / 256 ^ i) mod 256) [7; 6; 5; 4; 3; 2; 1; 0].

Definition pad (msg : list N) : list N :=
  let len := N.of_nat (length msg) in
  msg ++ [128] ++ repeat 0 (N.to_nat ((119 - len mod 64) mod 64))
      ++ be64 (8 * len).

Fixpoint process (nblocks : nat) (bytes : list N) (s : state) : state :=
  match nblocks with
  | O => s
  | S n => process n (skipn 64 bytes) (compress s (firstn 64 bytes))
  end.

Definition digest (msg : list byte) : state :=
  let padded := pad (map Byte.to_N msg) in
  process (Nat.div (length padded) 64) padded init.

Definition hexdigit (n : N) : ascii :=
  match n with
  | 0 => "0" | 1 => "1" | 2 => "2" | 3 => "3" | 4 => "4" | 5 => "5"
  | 6 => "6" | 7 => "7" | 8 => "8" | 9 => "9" | 10 => "a" | 11 => "b"
  | 12 => "c" | 13 => "d" | 14 => "e" | _ => "f"
  end%char.

Definition hexword (w : N) (rest : string) : string :=
  String (hexdigit ((w / 268435456) mod 16))
 (String (hexdigit ((w / 16777216) mod 16))
 (String (hexdigit ((w / 1048576) mod 16))
 (String (hexdigit ((w / 65536) mod 16))
 (String (hexdigit ((w / 4096) mod 16))
 (String (hexdigit ((w / 256) mod 16))
 (String (hexdigit ((w / 16) mod 16))
 (String (hexdigit (w mod 16)) rest))))))).

(** [hashlib.sha256(data).hexdigest()] *)
Definition hexdigest (msg : list byte) : string :=
  let s := digest msg in
  hexword (ha s) (hexword (hb s) (hexword (hc s) (hexword (hd s)
 (hexword (he s) (hexword (hf s) (hexword (hg s) (hexword (hh s)
  EmptyString))))))).

Definition is_hex (c : ascii) : bool :=
  let n := N_of_ascii c in
  ((48 <=? n) && (n <=? 57)) || ((97 <=? n) && (n <=? 102)).

Fixpoint all_hex (s : string) : bool :=
  match s with
  | EmptyString => true
  | String c s' => is_hex c && all_hex s'
  end.

End Sha256.

Arguments Sha256.hexdigest : simpl never.

(** ** Exceptions, results and the world the models live in *)

Inductive exn :=
| SyncError (msg : string)
| FileNotFoundError
| ValidationError
| ValueError
| IndexError
| OtherError (name : string).

Inductive result (A : Type) :=
| Return (a : A)
| Raise (e : exn).
Arguments Return {A} a.
Arguments Raise {A} e.

(** Modelled from the spec: [core.choices.DataSourceStatusChoices] is not
    among the sources; the spec lists the status values new, queued, syncing,
    completed and failed. *)
Inductive DataSourceStatusChoices := NEW | QUEUED | SYNCING | COMPLETED | FAILED.

Module DataFile.

(** An instance of the model; [pk] and [created] are [None] until the row
    is inserted, [size], [last_updated] and [data] until they are set. *)
Record t := Build {
  pk : option Z;
  created : option Z;
  last_updated : option Z;
  source : Z;
  path : string;
  size : option Z;
  hash : string;
  data : option (list byte);
}.

(** [DataFile(source=..., path=...)]: every other field at its default. *)
Definition new (source : Z) (path : string) : t :=
  Build None None None source path None EmptyString None.

Definition set_pk (k : option Z) (df : t) : t :=
  Build k (created df) (last_updated df) (source df) (path df)
        (size df) (hash df) (data df).

Definition set_created (c : option Z) (df : t) : t :=
  Build (pk df) c (last_updated df) (source df) (path df)
        (size df) (hash df) (data df).

(** The four attributes [refresh_from_disk] assigns, which are also the
    four columns [bulk_update] writes. *)
Definition set_file_attrs (lu : option Z) (sz : option Z) (h : string)
    (d : option (list byte)) (df : t) : t :=
  Build (pk df) (created df) lu (source df) (path df) sz h d.

End DataFile.

Module DataSource.

Record t := Build {
  pk : Z;
  name : string;
  type : string;
  source_url : string;
  status : DataSourceStatusChoices;
  enabled : bool;
  ignore_rules : string;
  parameters : option (list (string * string));
  last_synced : option Z;
}.

Definition set_status (s : DataSourceStatusChoices) (ds : t) : t :=
  Build (pk ds) (name ds) (type ds) (source_url ds) s (enabled ds)
        (ignore_rules ds) (parameters ds) (last_synced ds).

Definition set_last_synced (ts : option Z) (ds : t) : t :=
  Build (pk ds) (name ds) (type ds) (source_url ds) (status ds) (enabled ds)
        (ignore_rules ds) (parameters ds) ts.

End DataSource.

(** Signals sent to listeners. *)
Inductive event :=
| pre_sync (instance : Z)
| post_sync (instance : Z).

(** The mutable world: both tables, the number of clock readings taken so
    far and the signals sent so far. *)
Record World := mkWorld {
  sources : gmap Z DataSource.t;
  files : gmap Z DataFile.t;
  ticks : nat;
  events : list event;
}.

(** The statements [sync] sends to the database, by the place of the call. *)
Inductive db_call :=
| Update_status
| Select_files
| Bulk_update
| Delete
| Validate
| Bulk_create
| Update_completed.

(** What a run reads but does not change: the registered backends (type,
    URL and parameters to the local path their [fetch()] yields, or the
    exception it raises); the file system ([os.walk], opening a file for
    reading, and the size [os.stat] reports, which need not be the number of
    bytes a read returns); the readings of the clock; the receivers
    connected to the signals (the exception one of them raises, if any);
    and the database (the exception a statement fails with, if any; a
    statement that fails changes no row).  The file system does not change
    during a run, so a file that opens can be stat'ed. *)
Record Env := mkEnv {
  data_backends : string -> string -> list (string * string) -> exn + string;
  os_walk : string -> list (string * list string * list string);
  open_rb : string -> exn + list byte;
  getsize : string -> exn + Z;
  clock : nat -> Z;
  receivers : event -> option exn;
  db_error : db_call -> option exn;
  stat_after_open :
    forall filepath content,
      open_rb filepath = inr content -> exists sz, getsize filepath = inr sz;
}.

(** State and exceptions: a computation returns or raises, and the world it
    leaves behind is kept in both cases (nothing is rolled back). *)
Definition M (A : Type) : Type := World -> result A * World.

Definition ret {A} (a : A) : M A := fun w => (Return a, w).
Definition raise {A} (e : exn) : M A := fun w => (Raise e, w).
Definition bind {A B} (m : M A) (k : A -> M B) : M B :=
  fun w => match m w with
           | (Return a, w') => k a w'
           | (Raise e, w') => (Raise e, w')
           end.
Definition lift {A} (r : exn + A) : M A :=
  match r with inl e => raise e | inr a => ret a end.
Definition modify (f : World -> World) : M unit := fun w => (Return tt, f w).
Definition get : M World := fun w => (Return w, w).

Notation "'let*' x := m 'in' k" := (bind m (fun x => k))
  (at level 10, x name, m at level 100, k at level 200).

(** [timezone.now()]: the next reading of the clock. *)
Definition timezone_now (env : Env) : M Z :=
  fun w => (Return (clock env (ticks w)),
            mkWorld (sources w) (files w) (S (ticks w)) (events w)).

(** [Signal.send]: the receivers are called, and an exception of one of
    them propagates. *)
Definition send (env : Env) (ev : event) : M unit :=
  fun w =>
    (match receivers env ev with
     | Some e => Raise e
     | None => Return tt
     end,
     mkWorld (sources w) (files w) (ticks w) (events w ++ [ev])).

(** A statement sent to the database fails or goes through. *)
Definition db_statement (env : Env) (call : db_call) : M unit :=
  match db_error env call with
  | Some e => raise e
  | None => ret tt
  end.

Definition set_sources (f : gmap Z DataSource.t -> gmap Z DataSource.t) : M unit :=
  modify (fun w => mkWorld (f (sources w)) (files w) (ticks w) (events w)).

Definition set_files (f : gmap Z DataFile.t -> gmap Z DataFile.t) : M unit :=
  modify (fun w => mkWorld (sources w) (f (files w)) (ticks w) (events w)).

(** Modelled from the spec: [utilities.files.sha256_hash] is not among the
    sources; it opens the file at the path (a missing file is a not-found
    error) and returns the SHA-256 hash object of its bytes, of which the
    caller takes [hexdigest()]. *)
Definition sha256_hash (env : Env) (filepath : string) : M string :=
  let* content := lift (open_rb env filepath) in
  ret (Sha256.hexdigest content).

(** [os.path.getsize] and [open(path, 'rb').read()] *)
Definition os_path_getsize (env : Env) (filepath : string) : M Z :=
  lift (getsize env filepath).

(** The size [os.stat] reports for a file that is there. *)
Definition stat_size (env : Env) (filepath : string) : Z :=
  match getsize env filepath with
  | inr sz => sz
  | inl _ => 0
  end.

Definition read_bytes (env : Env) (filepath : string) : M (list byte) :=
  lift (open_rb env filepath).

(** [bulk_update], [delete] and [bulk_create] send no statement for an empty
    list. *)
Definition db_fails {A} (env : Env) (call : db_call) (objs : list A)
  : option exn :=
  match objs with
  | [] => None
  | _ :: _ => db_error env call
  end.

Definition db_statement_for {A} (env : Env) (call : db_call) (objs : list A)
  : M unit :=
  match db_fails env call objs with
  | Some e => raise e
  | None => ret tt
  end.

(** ** [DataFile] methods *)

Module DataFileMethods.
Import DataFile.

(** [DataFile.refresh_from_disk(self, source_root)]: the instance as the
    call leaves it, and the returned [is_modified]. *)
Definition refresh_from_disk (env : Env) (self : DataFile.t)
    (source_root : string) : M (DataFile.t * bool) :=
  let file_path := Py.os_path_join source_root (path self) in
  let* file_hash := sha256_hash env file_path in
  let is_modified := negb (String.eqb file_hash (hash self)) in
  if is_modified then
    let* now := timezone_now env in
    let* sz := os_path_getsize env file_path in
    let* content := read_bytes env file_path in
    ret (set_file_attrs (Some now) (Some sz) file_hash (Some content) self,
         true)
  else ret (self, false).

(** [RegexValidator(regex='^[0-9a-f]{64}$')], applied with [re.search]:
    [$] also matches just before a final newline. *)
Definition hash_regex (h : string) : bool :=
  let body :=
    if Py.endswith_char h "010"
    then String.substring 0 (String.length h - 1) h
    else h in
  (String.length body =? 64)%nat && Sha256.all_hex body.

Definition max_length (n : nat) (s : string) : bool :=
  (String.length s <=? n)%nat.

(** The range a [PositiveIntegerField] validates against. *)
Definition positive_integer_max : Z := 2147483647.

Definition is_empty (s : string) : bool :=
  match s with EmptyString => true | _ => false end.

(** The validators of the fields as declared; Django runs a field's
    validators only on a non-empty value. *)
Definition clean_fields (self : DataFile.t) : bool :=
  (is_empty (path self) || max_length 1000 (path self))
  && (is_empty (hash self)
      || (hash_regex (hash self) && max_length 64 (hash self)))
  && match size self with
     | Some n => (0 <=? n) && (n <=? positive_integer_max)
     | None => true
     end.

(** The foreign key must name a stored [DataSource]. *)
Definition source_exists (self : DataFile.t) (w : World) : bool :=
  bool_decide (is_Some (sources w !! source self)).

(** The [UniqueConstraint] on [(source, path)], checked for an instance
    that is being added. *)
Definition unique_source_path (self : DataFile.t) (w : World) : bool :=
  bool_decide (map_Forall
    (fun _ row => ~ (source row = source self /\ path row = path self))
    (files w)).

(** [Model.full_clean()] for a [DataFile] that is being added; the
    foreign key and the constraint are checked by queries. *)
Definition full_clean (env : Env) (self : DataFile.t) : M unit :=
  let* _ := db_statement env Validate in
  fun w =>
    if clean_fields self && source_exists self w && unique_source_path self w
    then (Return tt, w)
    else (Raise ValidationError, w).

Section Decoding.
(** [bytes.decode('utf-8')] and [yaml.safe_load] are library functions:
    the decoder returns the text or fails with [UnicodeDecodeError]
    ([None]); the loader is given what [data_as_string] returned. *)
Context {Text Value : Type}.
Variable utf8_decode : list byte -> option Text.
Variable yaml_safe_load : option Text -> result Value.

(** The property [data_as_string]; a row read from the database holds
    its [data] as a [memoryview], whose [tobytes()] are the bytes. *)
Definition data_as_string (self : DataFile.t) : result (option Text) :=
  match data self with
  | Some content => Return (utf8_decode content)
  | None => Raise (OtherError "AttributeError")
  end.

Definition get_data (self : DataFile.t) : result Value :=
  match data_as_string self with
  | Return text => yaml_safe_load text
  | Raise e => Raise e
  end.
End Decoding.

End DataFileMethods.

(** ** [DataSource] methods *)

Module DataSourceMethods.
Import DataSource DataFileMethods.

(** The property [ready_for_sync] *)
Definition ready_for_sync (self : DataSource.t) : bool :=
  enabled self &&
  negb match status self with
       | QUEUED | SYNCING => true
       | _ => false
       end.

(** [DataSource._ignore(self, filename)] *)
Definition _ignore (self : DataSource.t) (filename : string) : bool :=
  if Py.startswith filename "." then true
  else existsb (fun rule => Fnmatch.fnmatchcase filename rule)
               (Py.splitlines (ignore_rules self)).

(** The inner loop of [_walk] over the file names of one directory. *)
Definition add_files (self : DataSource.t) (path : string)
    (file_names : list string) (paths : gset string) : gset string :=
  foldl (fun paths file_name =>
           if _ignore self file_name then paths
           else paths ∪ {[ Py.os_path_join path file_name ]})
        paths file_names.

(** The outer loop of [_walk] over what [os.walk(root)] yields. *)
Fixpoint walk_loop (self : DataSource.t) (root : string)
    (yielded : list (string * list string * list string))
    (paths : gset string) : result (gset string) :=
  match yielded with
  | [] => Return paths
  | (path, dir_names, file_names) :: rest =>
      match Py.split path root with
      | None => Raise ValueError
      | Some pieces =>
          match pieces !! 1%nat with
          | None => Raise IndexError
          | Some piece =>
              let path := Py.lstrip "/" piece in
              if Py.startswith path "." then walk_loop self root rest paths
              else walk_loop self root rest
                     (add_files self path file_names paths)
          end
      end
  end.

(** [DataSource._walk(self, root)] *)
Definition _walk (env : Env) (self : DataSource.t) (root : string)
  : result (gset string) :=
  walk_loop self root (os_walk env root) ∅.

(** [get_backend()] followed by the backend's [fetch()]. *)
Definition get_backend (env : Env) (self : DataSource.t) : exn + string :=
  let backend_params := default [] (parameters self) in
  data_backends env (type self) (source_url self) backend_params.

(** [self.datafiles.all()]: the stored rows whose foreign key is this
    source, as instances, in the order of [Meta.ordering], which for one
    source is the order of the paths (compared here by code point; in
    general the collation of the database decides). *)
Definition by_path (a b : DataFile.t) : Prop :=
  Is_true (String.leb (DataFile.path a) (DataFile.path b)).

Definition datafiles (self : DataSource.t) (w : World) : list DataFile.t :=
  merge_sort by_path
    ((fun kv => DataFile.set_pk (Some kv.1) kv.2) <$>
     filter (fun kv => DataFile.source kv.2 = pk self)
            (map_to_list (files w))).

(** The loop over the known files: the instances staged for update and
    the primary keys staged for deletion.  Only [FileNotFoundError] is
    caught. *)
Fixpoint refresh_known (env : Env) (local_path : string)
    (data_files : list DataFile.t)
  : M (list DataFile.t * list (option Z)) :=
  match data_files with
  | [] => ret ([], [])
  | datafile :: rest =>
      fun w =>
        match refresh_from_disk env datafile local_path w with
        | (Return (datafile', is_modified), w') =>
            (let* staged := refresh_known env local_path rest in
             ret (if is_modified : bool
                  then (datafile' :: staged.1, staged.2)
                  else staged)) w'
        | (Raise FileNotFoundError, w') =>
            (let* staged := refresh_known env local_path rest in
             ret (staged.1, DataFile.pk datafile :: staged.2)) w'
        | (Raise e, w') => (Raise e, w')
        end
  end.

(** [DataFile.objects.bulk_update(objs, ('last_updated', 'size', 'hash',
    'data'))] *)
Definition bulk_update (objs : list DataFile.t)
    (table : gmap Z DataFile.t) : gmap Z DataFile.t :=
  foldl (fun table obj =>
           match DataFile.pk obj with
           | Some k =>
               alter (DataFile.set_file_attrs
                        (DataFile.last_updated obj) (DataFile.size obj)
                        (DataFile.hash obj) (DataFile.data obj)) k table
           | None => table
           end)
        table objs.

(** [DataFile.objects.filter(pk__in=ids).delete()] *)
Definition delete_pk_in (ids : list (option Z))
    (table : gmap Z DataFile.t) : gmap Z DataFile.t :=
  filter (fun kv => Some kv.1 ∉ ids) table.

(** The loop that builds the new instances. *)
Fixpoint build_new (env : Env) (self : DataSource.t) (local_path : string)
    (new_paths : list string) : M (list DataFile.t) :=
  match new_paths with
  | [] => ret []
  | path :: rest =>
      let datafile := DataFile.new (pk self) path in
      let* refreshed := refresh_from_disk env datafile local_path in
      let* _ := full_clean env refreshed.1 in
      let* others := build_new env self local_path rest in
      ret (refreshed.1 :: others)
  end.

(** [DataFile.objects.bulk_create(objs)]: each row is inserted under a
    primary key not in use, with [created] stamped ([auto_now_add]). *)
Fixpoint bulk_create (env : Env) (objs : list DataFile.t)
  : M (list DataFile.t) :=
  match objs with
  | [] => ret []
  | obj :: rest =>
      let* now := timezone_now env in
      let* w := get in
      let k := fresh (dom (files w)) in
      let row := DataFile.set_pk (Some k)
                   (DataFile.set_created (Some now) obj) in
      let* _ := set_files (insert k row) in
      let* others := bulk_create env rest in
      ret (row :: others)
  end.

(** What the body of [sync] has staged when it is done. *)
Record Staged := mkStaged {
  updated_files : list DataFile.t;
  deleted_file_ids : list (option Z);
  new_datafiles : list DataFile.t;
}.

(** The body of the [with backend.fetch() as local_path] block; leaving
    the block releases what the backend holds and changes nothing here.
    The query of [self.datafiles.all()] is sent where the known paths are
    collected, before the loop. *)
Definition sync_files (env : Env) (self : DataSource.t)
    (local_path : string) : M Staged :=
  let* _ := db_statement env Select_files in
  let* w := get in
  let data_files := datafiles self w in
  let known_paths : gset string :=
    list_to_set (DataFile.path <$> data_files) in
  let* staged := refresh_known env local_path data_files in
  let* _ := db_statement_for env Bulk_update staged.1 in
  let* _ := set_files (bulk_update staged.1) in
  let* _ := db_statement_for env Delete staged.2 in
  let* _ := set_files (delete_pk_in staged.2) in
  let* walked :=
    match _walk env self local_path with
    | Return paths => ret paths
    | Raise e => raise e
    end in
  let new_paths := walked ∖ known_paths in
  let* new_files := build_new env self local_path (elements new_paths) in
  let* _ := db_statement_for env Bulk_create new_files in
  let* _ := bulk_create env new_files in
  ret (mkStaged staged.1 staged.2 new_files).

Definition update_status (env : Env) (self : DataSource.t) : M unit :=
  let* _ := db_statement env Update_status in
  set_sources (alter (set_status (status self)) (pk self)).

Definition update_status_last_synced (env : Env) (self : DataSource.t)
  : M unit :=
  let* _ := db_statement env Update_completed in
  set_sources (alter (fun row => set_last_synced (last_synced self)
                                   (set_status (status self) row))
                     (pk self)).

(** [DataSource.sync(self)], with what was staged made visible: the
    outcome, the instance as the call leaves it, and the world. *)
Definition sync_staged (env : Env) (self : DataSource.t) (w : World)
  : result Staged * DataSource.t * World :=
  if negb (ready_for_sync self)
  then (Raise (SyncError "Cannot initiate sync; data source not ready/enabled"),
        self, w)
  else
    match send env (pre_sync (pk self)) w with
    | (Raise e, w0) => (Raise e, self, w0)
    | (Return _, w0) =>
        let self1 := set_status SYNCING self in
        match (let* _ := update_status env self1 in
               let* local_path := lift (get_backend env self1) in
               sync_files env self1 local_path) w0 with
        | (Raise e, w1) => (Raise e, self1, w1)
        | (Return staged, w1) =>
            match timezone_now env w1 with
            | (Return now, w2) =>
                let self2 :=
                  set_last_synced (Some now) (set_status COMPLETED self1) in
                match (let* _ := update_status_last_synced env self2 in
                       send env (post_sync (pk self))) w2 with
                | (Return _, w3) => (Return staged, self2, w3)
                | (Raise e, w3) => (Raise e, self2, w3)
                end
            | (Raise e, w2) => (Raise e, set_status COMPLETED self1, w2)
            end
        end
    end.

(** [DataSource.sync(self)] returns nothing. *)
Definition sync (env : Env) (self : DataSource.t) (w : World)
  : result unit * DataSource.t * World :=
  let '(r, self', w') := sync_staged env self w in
  (match r with Return _ => Return tt | Raise e => Raise e end, self', w').

End DataSourceMethods.

(** ** A directory tree and [os.walk] over it *)

(** What a directory holds: regular files, directories, and symbolic
    links whose target is gone. *)
#[warnings="-register-all"]
Inductive node :=
| File (content : list byte)
| Dir (entries : list (string * node))
| BrokenLink.

Definition is_dir (n : node) : bool :=
  match n with Dir _ => true | File _ | BrokenLink => false end.

(** [os.walk(top)], top down: the directory itself with the names of its
    sub-directories and of its other entries (a dangling link is one of
    them), then each sub-directory in turn under
    [os.path.join(top, name)]. *)
Fixpoint os_walk_tree (top : string) (n : node)
  : list (string * list string * list string) :=
  match n with
  | File _ | BrokenLink => []
  | Dir entries =>
      (top,
       fst <$> filter (fun e => is_dir e.2 = true) entries,
       fst <$> filter (fun e => is_dir e.2 = false) entries)
      :: flat_map (fun e => os_walk_tree (Py.os_path_join top e.1) e.2) entries
  end.

(** ** Vocabulary of the statements

    Names for the intermediate worlds, tables and conditions the lemmas and
    theorems below speak about. *)

Section FileVocabulary.
Import DataFile DataFileMethods DataSourceMethods.

(** A computation leaves the [DataSource] table and the signals alone. *)
Definition keeps_sources_events {A} (m : M A) : Prop :=
  forall w, sources (m w).2 = sources w /\ events (m w).2 = events w.

(** A computation changes nothing but the clock. *)
Definition keeps_tables {A} (m : M A) : Prop :=
  forall w, sources (m w).2 = sources w /\ files (m w).2 = files w
            /\ events (m w).2 = events w.

Definition tick (w : World) : World :=
  mkWorld (sources w) (files w) (S (ticks w)) (events w).

Definition file_path (root : string) (df : DataFile.t) : string :=
  Py.os_path_join root (path df).

(** The attributes [refresh_from_disk] writes for the content found: the
    stamp, the size [os.path.getsize] reports, the digest and the bytes. *)
Definition refreshed (env : Env) (root : string) (stamp : Z)
    (content : list byte) (df : DataFile.t) : DataFile.t :=
  set_file_attrs (Some stamp) (Some (stat_size env (file_path root df)))
                 (Sha256.hexdigest content) (Some content) df.

(** The file of a known record is gone. *)
Definition is_missing (env : Env) (root : string) (df : DataFile.t) : bool :=
  match open_rb env (file_path root df) with
  | inl FileNotFoundError => true
  | _ => false
  end.

(** The file of a known record is there with another digest. *)
Definition is_stale (env : Env) (root : string) (df : DataFile.t) : bool :=
  match open_rb env (file_path root df) with
  | inr content => negb (String.eqb (Sha256.hexdigest content) (hash df))
  | inl _ => false
  end.

(** The file of a known record cannot be read for another reason. *)
Definition is_unreadable (env : Env) (root : string) (df : DataFile.t)
  : bool :=
  match open_rb env (file_path root df) with
  | inl FileNotFoundError => false
  | inl _ => true
  | inr _ => false
  end.

(** The columns [bulk_update] copies from an instance into a row. *)
Definition write_attrs (obj row : DataFile.t) : DataFile.t :=
  set_file_attrs (last_updated obj) (size obj) (hash obj) (data obj) row.

Definition write_if (k : Z) (row obj : DataFile.t) : DataFile.t :=
  if decide (pk obj = Some k) then write_attrs obj row else row.

(** The table between the deletion and the creation of rows. *)
Definition mid_table (upd : list DataFile.t) (del : list (option Z))
    (table : gmap Z DataFile.t) : gmap Z DataFile.t :=
  delete_pk_in del (bulk_update upd table).

(** What the update and the deletion make of one stored row. *)
Definition mid_row (env : Env) (root : string) (self : DataSource.t)
    (row : DataFile.t) (o : option DataFile.t) : Prop :=
  if decide (source row = DataSource.pk self) then
    match open_rb env (file_path root row) with
    | inl e => e = FileNotFoundError /\ o = None
    | inr content =>
        if String.eqb (Sha256.hexdigest content) (hash row)
        then o = Some row
        else exists stamp, o = Some (refreshed env root stamp content row)
    end
  else o = Some row.

Definition with_files (table : gmap Z DataFile.t) (w : World) : World :=
  mkWorld (sources w) table (ticks w) (events w).

(** [known_paths] as [sync] computes it from the stored rows. *)
Definition known_paths (self : DataSource.t) (w : World) : gset string :=
  list_to_set (path <$> datafiles self w).

(** The instance the loop builds for one new path: populated from the
    file and accepted by [full_clean]. *)
Definition is_new_file (env : Env) (root : string) (self : DataSource.t)
    (w : World) (p : string) (df : DataFile.t) : Prop :=
  exists content stamp,
    open_rb env (Py.os_path_join root p) = inr content
    /\ df = refreshed env root stamp content (DataFile.new (DataSource.pk self) p)
    /\ clean_fields df = true
    /\ source_exists df w = true
    /\ unique_source_path df w = true.

(** A row as [bulk_create] inserts it. *)
Definition inserted (obj row : DataFile.t) : Prop :=
  exists k stamp, row = set_pk (Some k) (set_created (Some stamp) obj).

End FileVocabulary.

Section SourceVocabulary.
Import DataSource DataFileMethods DataSourceMethods.

(** The world once the signal [pre_sync] is sent. *)
Definition sent (self : DataSource.t) (w : World) : World :=
  mkWorld (sources w) (files w) (ticks w) (events w ++ [pre_sync (pk self)]).

(** The world once the signal is sent and the status [syncing] stored. *)
Definition started (self : DataSource.t) (w : World) : World :=
  mkWorld (alter (set_status SYNCING) (pk self) (sources w)) (files w)
          (ticks w) (events w ++ [pre_sync (pk self)]).

(** The instance and the world at the end of a run whose body left [w1]. *)
Definition completed (env : Env) (self : DataSource.t) (w1 : World)
  : DataSource.t :=
  set_last_synced (Some (clock env (ticks w1)))
                  (set_status COMPLETED (set_status SYNCING self)).

Definition finished (env : Env) (self : DataSource.t) (w1 : World) : World :=
  mkWorld (alter (fun row => set_last_synced (Some (clock env (ticks w1)))
                               (set_status COMPLETED row))
                 (pk self) (sources w1))
          (files w1) (S (ticks w1)) (events w1 ++ [post_sync (pk self)]).

(** A stored row agrees with the file under the root. *)
Definition in_sync (env : Env) (root : string) (row : DataFile.t) : Prop :=
  exists content,
    open_rb env (file_path root row) = inr content
    /\ DataFile.hash row = Sha256.hexdigest content.

(** Every path the walk reports can be opened, or at least is not reported
    missing: what holds of a tree that lists the files it has. *)
Definition walk_found (env : Env) (self : DataSource.t) : bool :=
  match get_backend env self with
  | inr local_path =>
      match _walk env self local_path with
      | Return walked =>
          forallb (fun p =>
                     match open_rb env (Py.os_path_join local_path p) with
                     | inl FileNotFoundError => false
                     | _ => true
                     end)
                  (elements walked)
      | Raise _ => true
      end
  | inl _ => true
  end.







(** The worlds that arise when [DataFile] rows are made by [sync] alone:
    from a table without rows, by runs of [sync] on any source in any
    environment that [P] admits (returning or raising), by changes to the
    [DataSource] table, and by the cascade that removes the rows of a
    deleted source. *)
Inductive reachable_by (P : Env -> Prop) : World -> Prop :=
| reach_empty w : files w = ∅ -> reachable_by P w
| reach_sync env self w :
    P env -> reachable_by P w -> reachable_by P (sync env self w).2
| reach_sources w srcs :
    reachable_by P w ->
    reachable_by P (mkWorld srcs (files w) (ticks w) (events w))
| reach_cascade w k :
    reachable_by P w ->
    reachable_by P
      (with_files (filter (fun kv => DataFile.source kv.2 <> k) (files w)) w).

(** The same with any environment. *)
Definition reachable : World -> Prop := reachable_by (fun _ => True).

(** A new path whose file opens and whose record passes [full_clean]: the
    query goes through, the fields are valid and the source is a stored
    row (the path is new, so the constraint on source and path holds). *)
Definition new_ok (env : Env) (self : DataSource.t) (root : string)
    (w : World) (p : string) : Prop :=
  exists content,
    open_rb env (Py.os_path_join root p) = inr content
    /\ db_error env Validate = None
    /\ clean_fields (refreshed env root 0 content (DataFile.new (pk self) p))
       = true
    /\ is_Some (sources w !! pk self).

(** The query for the known records and the loop over them go through. *)
Definition known_ok (env : Env) (self : DataSource.t) (root : string)
    (w : World) : Prop :=
  db_error env Select_files = None
  /\ Forall (fun df => is_unreadable env root df = false) (datafiles self w).

(** So do the update and the deletion of the rows staged. *)
Definition tables_ok (env : Env) (self : DataSource.t) (root : string)
    (w : World) : Prop :=
  known_ok env self root w
  /\ db_fails env Bulk_update
       (filter (fun df => is_stale env root df = true) (datafiles self w))
     = None
  /\ db_fails env Delete
       (filter (fun df => is_missing env root df = true) (datafiles self w))
     = None.

(** The places in the body of [sync], after the fetch, where an exception
    arises, each with what went through before it and the exception that
    arises there: the query for the known records; [refresh_from_disk] on
    a known record, for an error other than a missing file; [bulk_update];
    [delete]; the walk; opening the file of a new path; the queries of
    [full_clean]; its checks; and [bulk_create].  The known records and
    the new paths are taken in the order of the loops. *)
Inductive body_raises (env : Env) (self : DataSource.t) (w : World)
    (root : string) : exn -> Prop :=
| raises_select e :
    db_error env Select_files = Some e ->
    body_raises env self w root e
| raises_known before df after e :
    db_error env Select_files = None ->
    datafiles self w = before ++ df :: after ->
    Forall (fun d => is_unreadable env root d = false) before ->
    open_rb env (file_path root df) = inl e ->
    e <> FileNotFoundError ->
    body_raises env self w root e
| raises_update e :
    known_ok env self root w ->
    db_fails env Bulk_update
      (filter (fun df => is_stale env root df = true) (datafiles self w))
    = Some e ->
    body_raises env self w root e
| raises_delete e :
    known_ok env self root w ->
    db_fails env Bulk_update
      (filter (fun df => is_stale env root df = true) (datafiles self w))
    = None ->
    db_fails env Delete
      (filter (fun df => is_missing env root df = true) (datafiles self w))
    = Some e ->
    body_raises env self w root e
| raises_walk e :
    tables_ok env self root w ->
    _walk env self root = Raise e ->
    body_raises env self w root e
| raises_open walked before p after e :
    tables_ok env self root w ->
    _walk env self root = Return walked ->
    elements (walked ∖ known_paths self w) = before ++ p :: after ->
    Forall (new_ok env self root w) before ->
    open_rb env (Py.os_path_join root p) = inl e ->
    body_raises env self w root e
| raises_validate walked before p after content e :
    tables_ok env self root w ->
    _walk env self root = Return walked ->
    elements (walked ∖ known_paths self w) = before ++ p :: after ->
    Forall (new_ok env self root w) before ->
    open_rb env (Py.os_path_join root p) = inr content ->
    db_error env Validate = Some e ->
    body_raises env self w root e
| raises_validation walked before p after content :
    tables_ok env self root w ->
    _walk env self root = Return walked ->
    elements (walked ∖ known_paths self w) = before ++ p :: after ->
    Forall (new_ok env self root w) before ->
    open_rb env (Py.os_path_join root p) = inr content ->
    db_error env Validate = None ->
    clean_fields (refreshed env root 0 content (DataFile.new (pk self) p))
    = false
    \/ sources w !! pk self = None ->
    body_raises env self w root ValidationError
| raises_create walked e :
    tables_ok env self root w ->
    _walk env self root = Return walked ->
    Forall (new_ok env self root w) (elements (walked ∖ known_paths self w)) ->
    db_fails env Bulk_create (elements (walked ∖ known_paths self w)) = Some e ->
    body_raises env self w root e.

(** [sep] occurs somewhere in [s]. *)
Fixpoint occurs (sep s : string) : bool :=
  String.prefix sep s
  || match s with
     | String _ s' => occurs sep s'
     | EmptyString => false
     end.

(** The tree of the scenario, with any contents. *)
Definition scenario (ca cb cc cd : list byte) : node :=
  Dir [("a.txt", File ca); ("b.tmp", File cb); (".cache", File cc);
       ("sub", Dir [(".hidden", Dir [("c.txt", File cd)])])].

End SourceVocabulary.

(** ** A concrete replica, for the examples *)

Module Example.
Import DataSource.

Fixpoint lookup_node (entries : list (string * node)) (name : string)
  : option node :=
  match entries with
  | [] => None
  | (n, child) :: rest =>
      if String.eqb n name then Some child else lookup_node rest name
  end.

Fixpoint resolve (n : node) (components : list string) : option node :=
  match components with
  | [] => Some n
  | c :: rest =>
      match n with
      | Dir entries =>
          match lookup_node entries c with
          | Some child => resolve child rest
          | None => None
          end
      | File _ | BrokenLink => None
      end
  end.

(** Opening a path for reading when [tree] is what lies under [root]. *)
Definition open_in (root : string) (tree : node) (filepath : string)
  : exn + list byte :=
  if String.prefix root filepath then
    let rel := String.substring (String.length root)
                 (String.length filepath - String.length root) filepath in
    let components :=
      filter (fun c => c <> EmptyString)
             (Py.split_scan "/" rel O EmptyString) in
    match resolve tree components with
    | Some (File content) => inr content
    | Some (Dir _) => inl (OtherError "IsADirectoryError")
    | Some BrokenLink | None => inl FileNotFoundError
    end
  else inl FileNotFoundError.

(** The size of a regular file is the number of its bytes. *)
Definition size_in (root : string) (tree : node) (filepath : string)
  : exn + Z :=
  match open_in root tree filepath with
  | inr content => inr (Z.of_nat (length content))
  | inl e => inl e
  end.

Definition size_in_defined (root : string) (tree : node) (filepath : string)
    (content : list byte) (H : open_in root tree filepath = inr content)
  : exists sz, size_in root tree filepath = inr sz :=
  ltac:(unfold size_in; rewrite H; eexists; reflexivity).

(** An environment whose backend yields [fetch] and whose file system holds
    [tree] under [root]; the clock reads 1000, 1001, ...; no receiver
    raises and no statement fails. *)
Definition tree_env (fetch : exn + string) (root : string) (tree : node)
  : Env :=
  mkEnv (fun _ _ _ => fetch)
        (fun top => if String.eqb top root then os_walk_tree top tree else [])
        (open_in root tree)
        (size_in root tree)
        (fun n => 1000 + Z.of_nat n)
        (fun _ => None)
        (fun _ => None)
        (size_in_defined root tree).

(** The same environment with receivers and a database that may fail. *)
Definition failing (env : Env) (recv : event -> option exn)
    (db : db_call -> option exn) : Env :=
  mkEnv (data_backends env) (os_walk env) (open_rb env) (getsize env)
        (clock env) recv db (stat_after_open env).

Definition root : string := "/srv/data".

Definition bytes_of (s : string) : list byte := String.list_byte_of_string s.

(** The files of the scenario: [a.txt], [b.tmp], [.cache] and
    [sub/.hidden/c.txt]. *)
Definition scenario_tree : node :=
  Dir [("a.txt", File (bytes_of "alpha"));
       ("b.tmp", File (bytes_of "beta"));
       (".cache", File (bytes_of "gamma"));
       ("sub", Dir [(".hidden", Dir [("c.txt", File (bytes_of "key: value"))])])].

Definition scenario_rules : string := ".cache" +:+ String "010" "*.tmp".

Definition source (st : DataSourceStatusChoices) (on : bool) (rules : string)
  : DataSource.t :=
  DataSource.Build 1 "replica" "local" "/srv/data" st on rules None None.

Definition empty_tree : node := Dir [].

(** A world with the source stored and the given [DataFile] rows. *)
Definition world (self : DataSource.t) (rows : list (Z * DataFile.t)) : World :=
  mkWorld {[ pk self := self ]} (list_to_map rows) O [].

(** A stored row for a file that used to be there. *)
Definition stale_row (k : Z) (p : string) : DataFile.t :=
  DataFile.Build (Some k) (Some 10) (Some 10) 1 p (Some 3)
    (Sha256.hexdigest (bytes_of "old")) (Some (bytes_of "old")).

End Example.

Section ExampleWorlds.
Import DataSource DataFileMethods DataSourceMethods Example.

(** The scenario replica with two stored rows: one whose file is gone and
    one whose file has changed. *)
Definition ex_env : Env := tree_env (inr root) root scenario_tree.

Definition ex_source : DataSource.t := source NEW true scenario_rules.

Definition ex_world : World :=
  world ex_source [(7, stale_row 7 "gone.txt"); (8, stale_row 8 "a.txt")].

Definition ex_run : result Staged * DataSource.t * World :=
  sync_staged ex_env ex_source ex_world.

Definition ex_staged : Staged :=
  match ex_run.1.1 with
  | Return staged => staged
  | Raise _ => mkStaged [] [] []
  end.

Definition ex_self1 : DataSource.t := ex_run.1.2.

Definition ex_world1 : World := ex_run.2.

(** A replica that has lost the only file with a stored row. *)
Definition gone_env : Env := tree_env (inr root) root empty_tree.

Definition gone_source : DataSource.t := source COMPLETED true EmptyString.

Definition gone_world : World :=
  world gone_source [(7, stale_row 7 "gone.txt")].

(** A replica whose only entry, [x.cfg], is first a regular file and then a
    dangling link: the run that stores its row, and the two runs after the
    file has become a link. *)
Definition link_env0 : Env :=
  tree_env (inr root) root (Dir [("x.cfg", File (bytes_of "old"))]).

Definition link_env : Env :=
  tree_env (inr root) root (Dir [("x.cfg", BrokenLink)]).

Definition link_run0 : result unit * DataSource.t * World :=
  sync link_env0 gone_source (world gone_source []).

Definition link_run1 : result unit * DataSource.t * World :=
  sync link_env link_run0.1.2 link_run0.2.

Definition link_run2 : result unit * DataSource.t * World :=
  sync link_env link_run1.1.2 link_run1.2.

(** A backend whose fetch fails. *)
Definition down_env : Env :=
  tree_env (inl (OtherError "ConnectionError")) root empty_tree.

(** A first run, on a source without rows. *)
Definition fresh_world : World := world ex_source [].



(** Stand-ins for the decoder and the loader: bytes read as the characters
    they encode, and a loader that returns the text it is given. *)
Definition ascii_decode (content : list byte) : option string :=
  Some (String.string_of_list_byte content).

Definition load_text (text : option string) : result string :=
  match text with
  | Some s => Return s
  | None => Raise (OtherError "AttributeError")
  end.

Definition updated_row : DataFile.t :=
  default (DataFile.new 0 EmptyString) (files ex_world1 !! 8).

End ExampleWorlds.

(** ** Vocabulary for the walk and the ignore rules *)

Section WalkVocabulary.
Import DataSource DataSourceMethods.

(** The path [p] is what [_walk] adds for one file name of one entry that
    [os.walk] yields: the directory, with the root split off and leading
    slashes stripped, does not start with a dot, and the name is not
    ignored. *)
Definition walk_entry (self : DataSource.t) (root : string)
    (entry : string * list string * list string) (p : string) : Prop :=
  exists pieces piece file_name,
    Py.split entry.1.1 root = Some pieces
    /\ pieces !! 1%nat = Some piece
    /\ Py.startswith (Py.lstrip "/" piece) "." = false
    /\ file_name ∈ entry.2
    /\ _ignore self file_name = false
    /\ p = Py.os_path_join (Py.lstrip "/" piece) file_name.

(** A rule without the characters that [fnmatch] reads as a pattern, on
    one line. *)
Definition is_glob_char (c : ascii) : bool :=
  Ascii.eqb c "*" || Ascii.eqb c "?" || Ascii.eqb c "[".

Fixpoint plain_rule (rule : string) : bool :=
  match rule with
  | EmptyString => true
  | String c rule' =>
      negb (is_glob_char c) && negb (Py.is_linebreak c) && plain_rule rule'
  end.

(** Rules written one per line, a line feed between two of them. *)
Fixpoint join_lines (rules : list string) : string :=
  match rules with
  | [] => EmptyString
  | [rule] => rule
  | rule :: rest => rule +:+ String "010" (join_lines rest)
  end.

End WalkVocabulary.

(** ** [DataSource.enqueue_sync_job]

    [JobResult.enqueue_job] belongs to another application; it is a
    parameter here, given the dotted name of the job function, the name of
    the source and the user of the request.  What it does to the world, and
    whether it raises, is left open. *)

Section Jobs.
Import DataSource DataSourceMethods.
Context {Request User JobResult : Type}.
Variable request_user : Request -> User.
Variable enqueue_job : string -> string -> User -> M JobResult.

Definition enqueue_sync_job (self : DataSource.t) (request : Request)
    (w : World) : result JobResult * DataSource.t * World :=
  let self1 := set_status QUEUED self in
  let '(job_result, w1) :=
    enqueue_job "core.jobs.sync_datasource" (name self1)
                (request_user request) w in
  (job_result, self1, w1).

End Jobs.

(** ** [DataSourceForm] of [core/forms/model_forms.py]

    A Python [dict] is the list of its items in insertion order, the keys
    distinct; the values of backend parameters are text, as in
    [DataSource.parameters]. *)

Module PyDict.

(** [d.get(k)] *)
Fixpoint dict_get {V} (d : list (string * V)) (k : string) : option V :=
  match d with
  | [] => None
  | (k', v) :: rest => if String.eqb k' k then Some v else dict_get rest k
  end.

(** [d[k] = v]: a key already there keeps its place. *)
Fixpoint dict_set {V} (d : list (string * V)) (k : string) (v : V)
  : list (string * V) :=
  match d with
  | [] => [(k, v)]
  | (k', v') :: rest =>
      if String.eqb k' k then (k', v) :: rest
      else (k', v') :: dict_set rest k v
  end.

(** [s[n:]] *)
Fixpoint slice_from (n : nat) (s : string) : string :=
  match n, s with
  | O, _ => s
  | S n', String _ s' => slice_from n' s'
  | S _, EmptyString => EmptyString
  end.

End PyDict.

(** A form field: the value it shows at first, and a label standing for
    everything else it holds. *)
Module FormField.

Record t := Build {
  initial : option string;
  label : string;
}.

Definition set_initial (v : option string) (f : t) : t := Build v (label f).

End FormField.

Module DataSourceForm.
Import PyDict.

(** A registered backend class: its [parameters], from names to form
    fields. *)
Record Backend := mkBackend {
  parameters : list (string * FormField.t);
}.

(** The form as [super().__init__] leaves it; the attribute [cleaned_data]
    is not there ([None]) until validation sets it, between [__init__] and
    [save]. *)
Record t := Build {
  is_bound : bool;
  data : gmap string string;
  initial : gmap string string;
  fields : list (string * FormField.t);
  instance : DataSource.t;
  backend_fields : list string;
  cleaned_data : option (gmap string string);
}.

Definition set_cleaned_data (cleaned : gmap string string) (form : t) : t :=
  Build (is_bound form) (data form) (initial form) (fields form)
        (instance form) (backend_fields form) (Some cleaned).

Definition set_instance (ds : DataSource.t) (form : t) : t :=
  Build (is_bound form) (data form) (initial form) (fields form) ds
        (backend_fields form) (cleaned_data form).

(** [self.instance.parameters = parameters] *)
Definition set_parameters (parameters : option (list (string * string)))
    (ds : DataSource.t) : DataSource.t :=
  DataSource.Build (DataSource.pk ds) (DataSource.name ds)
    (DataSource.type ds) (DataSource.source_url ds) (DataSource.status ds)
    (DataSource.enabled ds) (DataSource.ignore_rules ds) parameters
    (DataSource.last_synced ds).

(** [x in backend_classes] for what [dict.get] returned. *)
Definition registered (backend_classes : gmap string Backend)
    (type_ : option string) : bool :=
  match type_ with
  | Some ty => bool_decide (is_Some (backend_classes !! ty))
  | None => false
  end.

(** The type whose backend supplies the extra fields: the one submitted,
    else the initial one, when registered; else the initial value of the
    [type] field. *)
Definition chosen_type (backend_classes : gmap string Backend) (form : t)
  : result (option string) :=
  if is_bound form && registered backend_classes (data form !! "type")
  then Return (data form !! "type")
  else if bool_decide (initial form <> ∅)
          && registered backend_classes (initial form !! "type")
  then Return (initial form !! "type")
  else match dict_get (fields form) "type" with
       | Some field => Return (FormField.initial field)
       | None => Raise (OtherError "KeyError")
       end.

(** Truth value of [instance.parameters]: neither [None] nor empty. *)
Definition has_parameters (ds : DataSource.t) : bool :=
  match DataSource.parameters ds with
  | Some (_ :: _) => true
  | _ => false
  end.

(** The field added for one parameter of the backend. *)
Definition backend_field (ds : DataSource.t) (name : string)
    (form_field : FormField.t) : FormField.t :=
  if has_parameters ds
  then FormField.set_initial
         (dict_get (default [] (DataSource.parameters ds)) name) form_field
  else form_field.

(** One round of the loop over [backend.parameters.items()]. *)
Definition add_backend_field (ds : DataSource.t)
    (acc : list (string * FormField.t) * list string)
    (param : string * FormField.t)
  : list (string * FormField.t) * list string :=
  let field_name := "backend_" +:+ param.1 in
  (dict_set acc.1 field_name (backend_field ds param.1 param.2),
   acc.2 ++ [field_name]).

(** [DataSourceForm.__init__], after [super().__init__]. *)
Definition __init__ (backend_classes : gmap string Backend) (form : t)
  : result t :=
  match chosen_type backend_classes form with
  | Raise e => Raise e
  | Return type_ =>
      match type_ ≫= (fun ty => backend_classes !! ty) with
      | None => Raise (OtherError "AttributeError")
      | Some backend =>
          let acc := foldl (add_backend_field (instance form))
                           (fields form, []) (parameters backend) in
          Return (Build (is_bound form) (data form) (initial form) acc.1
                        (instance form) acc.2 (cleaned_data form))
      end
  end.

(** The property [fieldsets] *)
Definition fieldsets (form : t) : list (string * list string) :=
  let fieldsets :=
    [("Source", ["name"; "type"; "source_url"; "enabled"; "description";
                 "tags"; "ignore_rules"])] in
  match backend_fields form with
  | [] => fieldsets
  | _ => fieldsets ++ [("Backend", backend_fields form)]
  end.

(** The loop of [save] over the names of the fields; [self.cleaned_data]
    is looked up only for a name that starts with [backend_]. *)
Fixpoint collect_parameters (cleaned : option (gmap string string))
    (names : list string) (parameters : list (string * string))
  : result (list (string * string)) :=
  match names with
  | [] => Return parameters
  | name :: rest =>
      if Py.startswith name "backend_" then
        match cleaned with
        | None => Raise (OtherError "AttributeError")
        | Some cleaned_data =>
            match cleaned_data !! name with
            | Some value =>
                collect_parameters cleaned rest
                  (dict_set parameters (slice_from 8 name) value)
            | None => Raise (OtherError "KeyError")
            end
        end
      else collect_parameters cleaned rest parameters
  end.

(** [DataSourceForm.save]; [super_save] is [super().save], called on the
    form once its instance has the collected parameters. *)
Definition save {A} (super_save : t -> M A) (form : t) : M A :=
  match collect_parameters (cleaned_data form) (fst <$> fields form) [] with
  | Raise e => raise e
  | Return parameters =>
      super_save (set_instance (set_parameters (Some parameters)
                                               (instance form)) form)
  end.

End DataSourceForm.

(** ** Further examples *)

Section MoreExamples.
Import DataSource DataFileMethods DataSourceMethods Example.




(** The world of the lost file with a row of another source beside it,
    and a run on it that deletes the row of the lost file and then raises
    on the dangling link, which it takes for a new file. *)
Definition other_row : DataFile.t :=
  DataFile.Build (Some 9) (Some 10) (Some 10) 2 "x.cfg" (Some 3)
    (Sha256.hexdigest (bytes_of "old")) (Some (bytes_of "old")).

Definition two_world : World :=
  world gone_source [(7, stale_row 7 "gone.txt"); (9, other_row)].

Definition two_run : result unit * DataSource.t * World :=
  sync link_env gone_source two_world.

(** The scenario with a receiver of [pre_sync] that raises. *)
Definition noisy_env : Env :=
  failing ex_env
    (fun ev => match ev with
               | pre_sync _ => Some (OtherError "ReceiverError")
               | post_sync _ => None
               end)
    (fun _ => None).

Definition noisy_run : result unit * DataSource.t * World :=
  sync noisy_env ex_source ex_world.


(** A run whose fetch fails. *)
Definition down_run : result unit * DataSource.t * World :=
  sync down_env gone_source gone_world.

(** The instance of the changed file [a.txt], before and after a refresh. *)
Definition known_a : DataFile.t := stale_row 8 "a.txt".

Definition refreshed_a : DataFile.t :=
  refreshed ex_env root 1000 (bytes_of "alpha") known_a.

(** Two rules that are plain names. *)
Definition plain_rules : list string := ["README"; "LICENSE"].

Definition plain_source : DataSource.t :=
  source NEW true (join_lines plain_rules).

(** Two registered backends, one with three parameters; a source of that
    type with stored parameters, one of which the backend does not declare;
    and a bound form for it. *)
Definition ex_backends : gmap string DataSourceForm.Backend :=
  {[ "local" := DataSourceForm.mkBackend [];
     "git" := DataSourceForm.mkBackend
                [("username", FormField.Build None "Username");
                 ("password", FormField.Build None "Password");
                 ("branch", FormField.Build (Some "master") "Branch")] ]}.

Definition git_source : DataSource.t :=
  DataSource.Build 2 "configs" "git" "https://example.com/configs.git" NEW
    true EmptyString (Some [("branch", "main"); ("depth", "1")]) None.

Definition base_fields : list (string * FormField.t) :=
  [("name", FormField.Build None "Name");
   ("type", FormField.Build (Some "local") "Type");
   ("source_url", FormField.Build None "URL");
   ("enabled", FormField.Build (Some "on") "Enabled");
   ("description", FormField.Build None "Description");
   ("comments", FormField.Build None "Comments");
   ("ignore_rules", FormField.Build None "Ignore rules");
   ("tags", FormField.Build None "Tags")].

Definition ex_form0 : DataSourceForm.t :=
  DataSourceForm.Build true {[ "type" := "git" ]} ∅ base_fields git_source
    [] None.

Definition ex_form : DataSourceForm.t :=
  match DataSourceForm.__init__ ex_backends ex_form0 with
  | Return form => form
  | Raise _ => ex_form0
  end.

Definition ex_cleaned : gmap string string :=
  {[ "name" := "configs"; "backend_username" := "netbox";
     "backend_password" := "secret"; "backend_branch" := "dev" ]}.

(** Cleaned data of a validation that found no value for two of the
    backend's fields. *)
Definition partial_cleaned : gmap string string :=
  {[ "name" := "configs"; "backend_username" := "netbox" ]}.

(** A stand-in for [super().save]: it returns the instance. *)
Definition return_instance (form : DataSourceForm.t) : M DataSource.t :=
  ret (DataSourceForm.instance form).

End MoreExamples.

(** ** Checks of the string functions and of SHA-256 *)

Section string_tests.
Import Py Fnmatch.

Example split_root :
  split "/srv/data/sub/.hidden" "/srv/data" = Some [EmptyString; "/sub/.hidden"].
Proof. reflexivity. Qed.

Example split_twice :
  split "/data/x/data/y" "/data" = Some [EmptyString; "/x"; "/y"].
Proof. reflexivity. Qed.

Example split_end : split "ab" "b" = Some ["a"; EmptyString].
Proof. reflexivity. Qed.

Example splitlines_rules :
  splitlines (".cache" +:+ String "010" "*.tmp") = [".cache"; "*.tmp"].
Proof. reflexivity. Qed.

Example splitlines_crlf :
  splitlines ("a" +:+ String "013" (String "010" (String "010" "b")))
  = ["a"; EmptyString; "b"].
Proof. reflexivity. Qed.

Example join_rel : os_path_join "sub/.hidden" "c.txt" = "sub/.hidden/c.txt".
Proof. reflexivity. Qed.

Example join_empty : os_path_join EmptyString "a.txt" = "a.txt".
Proof. reflexivity. Qed.

Example glob_star : fnmatchcase "notes.txt" "*.txt" = true.
Proof. reflexivity. Qed.

Example glob_case : fnmatchcase "notes.TXT" "*.txt" = false.
Proof. reflexivity. Qed.

Example glob_class : fnmatchcase "b7.log" "[a-c][!a-z].l?g" = true.
Proof. reflexivity. Qed.

Example glob_open_bracket : fnmatchcase "[x" "[x" = true.
Proof. reflexivity. Qed.
End string_tests.

Section Sha256Facts.
Import Sha256.

Example digest_empty :
  hexdigest [] =
  "e3b0c44298fc1c149afbf4c8996fb92427ae41e4649b934ca495991b7852b855".
Proof. vm_compute. reflexivity. Qed.

Example digest_abc :
  hexdigest (String.list_byte_of_string "abc") =
  "ba7816bf8f01cfea414140de5dae2223b00361a396177a9cb410ff61f20015ad".
Proof. vm_compute. reflexivity. Qed.

Example digest_two_blocks :
  hexdigest (String.list_byte_of_string
    "abcdbcdecdefdefgefghfghighijhijkijkljklmklmnlmnomnopnopq") =
  "248d6a61d20638b8e5c026930c3e6039a33ce45964ff2167f6ecedd419db06c1".
Proof. vm_compute. reflexivity. Qed.


Lemma hexword_length w rest :
  String.length (hexword w rest) = (8 + String.length rest)%nat.
Proof. reflexivity. Qed.


Lemma hexdigest_length msg : String.length (hexdigest msg) = 64%nat.
Proof. unfold hexdigest. rewrite !hexword_length. reflexivity. Qed.


Lemma hexdigest_nonempty msg : hexdigest msg <> EmptyString.
Proof. intros H. pose proof (hexdigest_length msg) as L. rewrite H in L. discriminate. Qed.

End Sha256Facts.

(** ** Basic facts about the computations *)

Section Frames.
Import DataFileMethods DataSourceMethods.

Lemma keeps_tables_weaken {A} (m : M A) :
  keeps_tables m -> keeps_sources_events m.
Proof. intros H w. destruct (H w) as (? & ? & ?). auto. Qed.

Lemma kse_bind {A B} (m : M A) (k : A -> M B) :
  keeps_sources_events m -> (forall a, keeps_sources_events (k a)) ->
  keeps_sources_events (bind m k).
Proof.
  intros Hm Hk w. unfold bind. specialize (Hm w).
  destruct (m w) as [[a|e] w1]; simpl in *.
  - destruct (Hk a w1) as [-> ->]. exact Hm.
  - exact Hm.
Qed.

Lemma kt_bind {A B} (m : M A) (k : A -> M B) :
  keeps_tables m -> (forall a, keeps_tables (k a)) ->
  keeps_tables (bind m k).
Proof.
  intros Hm Hk w. unfold bind. specialize (Hm w).
  destruct (m w) as [[a|e] w1]; simpl in *.
  - destruct (Hk a w1) as (-> & -> & ->). exact Hm.
  - exact Hm.
Qed.

Lemma kt_ret {A} (a : A) : keeps_tables (ret a).
Proof. intros w. auto. Qed.

Lemma kt_raise {A} (e : exn) : keeps_tables (@raise A e).
Proof. intros w. auto. Qed.

Lemma kt_lift {A} (r : exn + A) : keeps_tables (lift r).
Proof. destruct r; [apply kt_raise | apply kt_ret]. Qed.

Lemma kt_get : keeps_tables get.
Proof. intros w. auto. Qed.

Lemma kt_timezone_now env : keeps_tables (timezone_now env).
Proof. intros w. auto. Qed.

Lemma kse_set_files f : keeps_sources_events (set_files f).
Proof. intros w. auto. Qed.

Lemma kt_sha256_hash env p : keeps_tables (sha256_hash env p).
Proof. apply kt_bind; [apply kt_lift | intros; apply kt_ret]. Qed.

Lemma kt_refresh_from_disk env self root :
  keeps_tables (refresh_from_disk env self root).
Proof.
  unfold refresh_from_disk. apply kt_bind; [apply kt_sha256_hash|].
  intros h. destruct (negb _); [|apply kt_ret].
  apply kt_bind; [apply kt_timezone_now|]. intros now.
  apply kt_bind; [apply kt_lift|].
  intros sz. apply kt_bind; [apply kt_lift | intros; apply kt_ret].
Qed.

Lemma kt_db_statement env call : keeps_tables (db_statement env call).
Proof.
  unfold db_statement. destruct (db_error env call);
    [apply kt_raise | apply kt_ret].
Qed.

Lemma bind_db {A} env call (k : unit -> M A) w :
  (let* x := db_statement env call in k x) w
  = match db_error env call with
    | Some e => (Raise e, w)
    | None => k tt w
    end.
Proof.
  unfold bind, db_statement. destruct (db_error env call); reflexivity.
Qed.

Lemma kt_db_statement_for {A} env call (objs : list A) :
  keeps_tables (db_statement_for env call objs).
Proof.
  unfold db_statement_for. destruct (db_fails env call objs);
    [apply kt_raise | apply kt_ret].
Qed.

Lemma bind_db_for {A B} env call (objs : list B) (k : unit -> M A) w :
  (let* x := db_statement_for env call objs in k x) w
  = match db_fails env call objs with
    | Some e => (Raise e, w)
    | None => k tt w
    end.
Proof.
  unfold bind, db_statement_for. destruct (db_fails env call objs); reflexivity.
Qed.

Lemma kt_full_clean env df : keeps_tables (full_clean env df).
Proof.
  unfold full_clean. apply kt_bind; [apply kt_db_statement|].
  intros _ w. destruct (_ && _); auto.
Qed.

Lemma kt_refresh_known env root dfs :
  keeps_tables (refresh_known env root dfs).
Proof.
  induction dfs as [|df dfs IH]; [apply kt_ret|].
  intros w. cbn [refresh_known].
  pose proof (kt_refresh_from_disk env df root w) as H.
  destruct (refresh_from_disk env df root w) as [[[df' b]|e] w1]; simpl in H.
  - assert (K : keeps_tables
              (let* staged := refresh_known env root dfs in
               ret (if b then (df' :: staged.1, staged.2) else staged))).
    { apply kt_bind; [exact IH | intros; apply kt_ret]. }
    destruct (K w1) as (-> & -> & ->). exact H.
  - assert (K : keeps_tables
              (let* staged := refresh_known env root dfs in
               ret (staged.1, DataFile.pk df :: staged.2))).
    { apply kt_bind; [exact IH | intros; apply kt_ret]. }
    destruct e; try exact H.
    destruct (K w1) as (-> & -> & ->). exact H.
Qed.

Lemma kt_build_new env self root paths :
  keeps_tables (build_new env self root paths).
Proof.
  induction paths as [|p paths IH]; [apply kt_ret|].
  cbn [build_new]. apply kt_bind; [apply kt_refresh_from_disk|]. intros r.
  apply kt_bind; [apply kt_full_clean|]. intros _.
  apply kt_bind; [exact IH | intros; apply kt_ret].
Qed.

Lemma kse_bulk_create env objs :
  keeps_sources_events (bulk_create env objs).
Proof.
  induction objs as [|obj objs IH]; [apply keeps_tables_weaken, kt_ret|].
  cbn [bulk_create].
  apply kse_bind; [apply keeps_tables_weaken, kt_timezone_now|]. intros now.
  apply kse_bind; [apply keeps_tables_weaken, kt_get|]. intros w0.
  apply kse_bind; [apply kse_set_files|]. intros _.
  apply kse_bind; [exact IH | intros; apply keeps_tables_weaken, kt_ret].
Qed.

Lemma kse_sync_files env self root :
  keeps_sources_events (sync_files env self root).
Proof.
  unfold sync_files.
  apply kse_bind; [apply keeps_tables_weaken, kt_db_statement|]. intros _.
  apply kse_bind; [apply keeps_tables_weaken, kt_get|]. intros w0.
  apply kse_bind; [apply keeps_tables_weaken, kt_refresh_known|]. intros st.
  apply kse_bind; [apply keeps_tables_weaken, kt_db_statement_for|]. intros _.
  apply kse_bind; [apply kse_set_files|]. intros _.
  apply kse_bind; [apply keeps_tables_weaken, kt_db_statement_for|]. intros _.
  apply kse_bind; [apply kse_set_files|]. intros _.
  apply kse_bind.
  { destruct (_walk _ _ _); apply keeps_tables_weaken;
      [apply kt_ret | apply kt_raise]. }
  intros walked.
  apply kse_bind; [apply keeps_tables_weaken, kt_build_new|]. intros news.
  apply kse_bind; [apply keeps_tables_weaken, kt_db_statement_for|]. intros _.
  apply kse_bind; [apply kse_bulk_create|]. intros _.
  apply keeps_tables_weaken, kt_ret.
Qed.

End Frames.

(** ** The shape of a run of [sync] *)

Section SyncShape.
Import DataSource DataFileMethods DataSourceMethods.

Lemma get_backend_status env self s :
  get_backend env (set_status s self) = get_backend env self.
Proof. reflexivity. Qed.

Lemma sync_staged_not_ready env self w :
  ready_for_sync self = false ->
  sync_staged env self w =
  (Raise (SyncError "Cannot initiate sync; data source not ready/enabled"),
   self, w).
Proof. intros H. unfold sync_staged. rewrite H. reflexivity. Qed.

Lemma sync_staged_ready env self w :
  ready_for_sync self = true ->
  sync_staged env self w =
  match receivers env (pre_sync (pk self)) with
  | Some e => (Raise e, self, sent self w)
  | None =>
  match db_error env Update_status with
  | Some e => (Raise e, set_status SYNCING self, sent self w)
  | None =>
  match get_backend env self with
  | inl e => (Raise e, set_status SYNCING self, started self w)
  | inr local_path =>
      match sync_files env (set_status SYNCING self) local_path
              (started self w) with
      | (Raise e, w1) => (Raise e, set_status SYNCING self, w1)
      | (Return staged, w1) =>
          match db_error env Update_completed with
          | Some e => (Raise e, completed env self w1, tick w1)
          | None =>
              (match receivers env (post_sync (pk self)) with
               | Some e => Raise e
               | None => Return staged
               end, completed env self w1, finished env self w1)
          end
      end
  end end end.
Proof.
  intros H. unfold sync_staged. rewrite H. cbn [negb]. unfold send at 1.
  destruct (receivers env (pre_sync (pk self))); [reflexivity|].
  change (mkWorld _ _ _ _) with (sent self w).
  unfold bind at 1. unfold update_status, db_statement. unfold bind at 1.
  destruct (db_error env Update_status); [reflexivity|].
  cbn [ret set_sources modify]. unfold bind at 1. rewrite get_backend_status.
  change (mkWorld _ _ _ _) with (started self w).
  destruct (get_backend env self) as [e|lp]; cbn [lift raise ret]; [reflexivity|].
  destruct (sync_files _ _ _ _) as [[st|e] w1]; [|reflexivity].
  cbn [timezone_now]. unfold update_status_last_synced, db_statement.
  unfold bind at 1. unfold bind at 1.
  destruct (db_error env Update_completed); [reflexivity|].
  cbn [ret set_sources modify]. unfold send.
  destruct (receivers env (post_sync (pk self))); reflexivity.
Qed.

Lemma sync_unfold env self w :
  sync env self w =
  (match (sync_staged env self w).1.1 with
   | Return _ => Return tt
   | Raise e => Raise e
   end, (sync_staged env self w).1.2, (sync_staged env self w).2).
Proof. unfold sync. destruct (sync_staged env self w) as [[r s] w']. reflexivity. Qed.

Lemma ready_for_sync_spec self :
  ready_for_sync self = true <->
  enabled self = true /\ status self <> QUEUED /\ status self <> SYNCING.
Proof.
  unfold ready_for_sync. destruct (enabled self), (status self); cbn;
    split; intros H; try discriminate; try (repeat split; congruence);
    destruct H as (? & ? & ?); congruence.
Qed.

End SyncShape.

(** ** What each step of the body does *)

Section Steps.
Import DataFile DataFileMethods DataSourceMethods.

Lemma refresh_from_disk_eq env self root w :
  refresh_from_disk env self root w =
  match open_rb env (file_path root self) with
  | inl e => (Raise e, w)
  | inr content =>
      if String.eqb (Sha256.hexdigest content) (hash self)
      then (Return (self, false), w)
      else (Return (refreshed env root (clock env (ticks w)) content self, true),
            tick w)
  end.
Proof.
  unfold refresh_from_disk, sha256_hash, os_path_getsize, read_bytes,
    refreshed, stat_size, file_path, bind.
  destruct (open_rb env _) as [e|content] eqn:Ho; cbn; [reflexivity|].
  destruct (String.eqb _ _); cbn; [reflexivity|].
  destruct (stat_after_open env _ _ Ho) as [sz Hsz]. rewrite Hsz. cbn.
  reflexivity.
Qed.

Lemma refresh_known_unchanged env root dfs w :
  Forall (fun df => is_missing env root df = false) dfs ->
  Forall (fun df => is_stale env root df = false) dfs ->
  Forall (fun df => is_unreadable env root df = false) dfs ->
  refresh_known env root dfs w = (Return ([], []), w).
Proof.
  induction 1 as [|df dfs Hm _ IH]; intros Hs Hu; [reflexivity|].
  inversion Hs as [|? ? Hs1 Hs2]; inversion Hu as [|? ? Hu1 Hu2]; subst.
  cbn [refresh_known]. rewrite refresh_from_disk_eq.
  unfold is_missing, is_stale, is_unreadable in *.
  destruct (open_rb env _) as [e|content].
  - destruct e; discriminate.
  - apply negb_false_iff in Hs1. rewrite Hs1.
    unfold bind. rewrite (IH Hs2 Hu2). reflexivity.
Qed.

(** What the loop over the known records returns. *)
Lemma refresh_known_returns env root dfs w upd del w' :
  refresh_known env root dfs w = (Return (upd, del), w') ->
  Forall (fun df => is_unreadable env root df = false) dfs
  /\ del = pk <$> filter (fun df => is_missing env root df = true) dfs
  /\ pk <$> upd = pk <$> filter (fun df => is_stale env root df = true) dfs
  /\ Forall (fun u => exists df content stamp,
               df ∈ dfs /\ open_rb env (file_path root df) = inr content
               /\ u = refreshed env root stamp content df) upd.
Proof.
  revert w upd del w'.
  induction dfs as [|df dfs IH]; intros w upd del w' H.
  - cbn in H. inversion H; subst. repeat split; constructor.
  - cbn [refresh_known] in H. rewrite refresh_from_disk_eq in H.
    rewrite !filter_cons.
    assert (Hlift : forall u : list DataFile.t,
      Forall (fun u => exists df0 content stamp,
               df0 ∈ dfs /\ open_rb env (file_path root df0) = inr content
               /\ u = refreshed env root stamp content df0) u ->
      Forall (fun u => exists df0 content stamp,
               df0 ∈ df :: dfs
               /\ open_rb env (file_path root df0) = inr content
               /\ u = refreshed env root stamp content df0) u).
    { intros u Hf. eapply Forall_impl; [exact Hf|].
      intros x (df0 & c & t & Hin & Hopen & ->).
      exists df0, c, t. split; [right; exact Hin | auto]. }
    destruct (open_rb env (file_path root df)) as [e|content] eqn:Ho.
    + assert (He : e = FileNotFoundError) by (destruct e; congruence).
      subst e.
      assert (Hm : is_missing env root df = true)
        by (unfold is_missing; rewrite Ho; reflexivity).
      assert (Hs : is_stale env root df = false)
        by (unfold is_stale; rewrite Ho; reflexivity).
      assert (Hx : is_unreadable env root df = false)
        by (unfold is_unreadable; rewrite Ho; reflexivity).
      unfold bind in H.
      destruct (refresh_known env root dfs w) as [[[u d]|e] w1] eqn:Hr;
        [|discriminate].
      cbn in H. inversion H; subst.
      destruct (IH _ _ _ _ Hr) as (Hu & Hd & Hp & Hf).
      rewrite Hm, Hs. rewrite decide_True by reflexivity.
      rewrite decide_False by discriminate.
      repeat split; [constructor; assumption | | exact Hp | auto].
      cbn. f_equal. exact Hd.
    + assert (Hm : is_missing env root df = false)
        by (unfold is_missing; rewrite Ho; reflexivity).
      assert (Hx : is_unreadable env root df = false)
        by (unfold is_unreadable; rewrite Ho; reflexivity).
      assert (Hs : is_stale env root df
                   = negb (String.eqb (Sha256.hexdigest content) (hash df)))
        by (unfold is_stale; rewrite Ho; reflexivity).
      rewrite Hm, Hs. rewrite (decide_False (P := false = true))
        by discriminate.
      destruct (String.eqb (Sha256.hexdigest content) (hash df)) eqn:Hh;
        unfold bind in H; cbn [negb].
      * destruct (refresh_known env root dfs w) as [[[u d]|e] w1] eqn:Hr;
          [|discriminate].
        cbn in H. inversion H; subst.
        destruct (IH _ _ _ _ Hr) as (Hu & Hd & Hp & Hf).
        rewrite decide_False by discriminate.
        repeat split; [constructor; assumption | exact Hd | exact Hp | auto].
      * destruct (refresh_known env root dfs (tick w))
          as [[[u d]|e] w1] eqn:Hr; [|discriminate].
        cbn in H. inversion H; subst.
        destruct (IH _ _ _ _ Hr) as (Hu & Hd & Hp & Hf).
        rewrite decide_True by reflexivity.
        repeat split; [constructor; assumption | exact Hd | | ].
        -- cbn. f_equal. exact Hp.
        -- constructor; [|auto].
           exists df, content, (clock env (ticks w)).
           split; [left | split; [exact Ho | reflexivity]].
Qed.

End Steps.

(** ** The tables *)

Section Tables.
Import DataFile DataFileMethods DataSourceMethods.

Lemma elem_of_datafiles self w df :
  df ∈ datafiles self w <->
  exists k row, files w !! k = Some row
                /\ source row = DataSource.pk self
                /\ df = set_pk (Some k) row.
Proof.
  unfold datafiles. rewrite merge_sort_Permutation, list_elem_of_fmap. split.
  - intros ([k row] & -> & Hin). apply list_elem_of_filter in Hin.
    destruct Hin as [Hs Hin]. apply elem_of_map_to_list in Hin.
    exists k, row. auto.
  - intros (k & row & Hl & Hs & ->). exists (k, row). split; [reflexivity|].
    apply list_elem_of_filter. split; [exact Hs|].
    apply elem_of_map_to_list. exact Hl.
Qed.

Lemma datafiles_pk_inj self w df1 df2 :
  df1 ∈ datafiles self w -> df2 ∈ datafiles self w ->
  pk df1 = pk df2 -> df1 = df2.
Proof.
  rewrite !elem_of_datafiles.
  intros (k1 & r1 & H1 & _ & ->) (k2 & r2 & H2 & _ & ->). cbn.
  intros [= ->]. congruence.
Qed.

Lemma bulk_update_cons obj objs table :
  bulk_update (obj :: objs) table =
  bulk_update objs
    match pk obj with
    | Some k => alter (write_attrs obj) k table
    | None => table
    end.
Proof. reflexivity. Qed.

Lemma bulk_update_lookup objs table k :
  bulk_update objs table !! k =
  (fun row => foldl (write_if k) row objs) <$> table !! k.
Proof.
  revert table. induction objs as [|obj objs IH]; intros table.
  - cbn. destruct (table !! k); reflexivity.
  - rewrite bulk_update_cons, IH. cbn [foldl].
    destruct (pk obj) as [k'|] eqn:Hpk.
    + rewrite lookup_alter.
      destruct (decide (k' = k)) as [->|Hne].
      * assert (E : forall row, write_if k row obj = write_attrs obj row).
        { intros row. unfold write_if. rewrite Hpk.
          rewrite decide_True by reflexivity. reflexivity. }
        destruct (table !! k) as [row|]; cbn; [rewrite E|]; reflexivity.
      * assert (E : forall row, write_if k row obj = row).
        { intros row. unfold write_if. rewrite Hpk.
          rewrite decide_False by congruence. reflexivity. }
        destruct (table !! k) as [row|]; cbn; [rewrite E|]; reflexivity.
    + assert (E : forall row, write_if k row obj = row).
      { intros row. unfold write_if. rewrite Hpk.
        rewrite decide_False by discriminate. reflexivity. }
      destruct (table !! k) as [row|]; cbn; [rewrite E|]; reflexivity.
Qed.

Lemma write_attrs_twice obj1 obj2 row :
  write_attrs obj2 (write_attrs obj1 row) = write_attrs obj2 row.
Proof. reflexivity. Qed.

Lemma foldl_write_cases k objs row :
  (Forall (fun obj => pk obj <> Some k) objs
   /\ foldl (write_if k) row objs = row)
  \/ (exists obj, obj ∈ objs /\ pk obj = Some k
                  /\ foldl (write_if k) row objs = write_attrs obj row).
Proof.
  revert row. induction objs as [|obj objs IH]; intros row.
  - left. split; [constructor | reflexivity].
  - cbn [foldl].
    destruct (IH (write_if k row obj)) as [[Hall Heq] | (o & Hin & Hk & Heq)].
    + rewrite Heq. unfold write_if.
      destruct (decide (pk obj = Some k)) as [Hk|Hk].
      * right. exists obj. split; [left | auto].
      * left. split; [constructor; assumption | reflexivity].
    + right. exists o. split; [right; exact Hin|]. split; [exact Hk|].
      rewrite Heq. unfold write_if.
      destruct (decide (pk obj = Some k)); [apply write_attrs_twice|].
      reflexivity.
Qed.

Lemma delete_pk_in_lookup ids table k :
  delete_pk_in ids table !! k =
  if decide (Some k ∈ ids) then None else table !! k.
Proof.
  unfold delete_pk_in. destruct (decide (Some k ∈ ids)) as [Hin|Hin].
  - apply map_lookup_filter_None. right. intros row _ Hn. exact (Hn Hin).
  - destruct (table !! k) as [row|] eqn:Hl.
    + apply map_lookup_filter_Some. split; [exact Hl | exact Hin].
    + apply map_lookup_filter_None. left. exact Hl.
Qed.

Lemma mid_table_lookup env root self w w0 upd del w1 k :
  refresh_known env root (datafiles self w) w0 = (Return (upd, del), w1) ->
  match files w !! k with
  | None => mid_table upd del (files w) !! k = None
  | Some row => mid_row env root self row (mid_table upd del (files w) !! k)
  end.
Proof.
  intros Hr. apply refresh_known_returns in Hr.
  destruct Hr as (Hx & Hd & Hp & Hf).
  unfold mid_table. rewrite delete_pk_in_lookup, bulk_update_lookup.
  destruct (files w !! k) as [row|] eqn:Hl;
    [|cbn; destruct (decide _); reflexivity].
  cbn [fmap option_fmap option_map]. unfold mid_row.
  set (df := set_pk (Some k) row).
  assert (Hm_del : Some k ∈ del <->
                   source row = DataSource.pk self
                   /\ is_missing env root df = true).
  { rewrite Hd, list_elem_of_fmap. split.
    - intros (d & Hk & Hin). apply list_elem_of_filter in Hin.
      destruct Hin as [Hm Hin].
      apply elem_of_datafiles in Hin as (k' & r' & Hl' & Hs' & ->).
      cbn in Hk. inversion Hk; subst k'.
      rewrite Hl in Hl'. inversion Hl'; subst r'. auto.
    - intros [Hs Hm]. exists df. split; [reflexivity|].
      apply list_elem_of_filter. split; [exact Hm|].
      apply elem_of_datafiles. exists k, row. auto. }
  assert (Hm_upd : Some k ∈ pk <$> upd <->
                   source row = DataSource.pk self
                   /\ is_stale env root df = true).
  { rewrite Hp, list_elem_of_fmap. split.
    - intros (d & Hk & Hin). apply list_elem_of_filter in Hin.
      destruct Hin as [Hm Hin].
      apply elem_of_datafiles in Hin as (k' & r' & Hl' & Hs' & ->).
      cbn in Hk. inversion Hk; subst k'.
      rewrite Hl in Hl'. inversion Hl'; subst r'. auto.
    - intros [Hs Hm]. exists df. split; [reflexivity|].
      apply list_elem_of_filter. split; [exact Hm|].
      apply elem_of_datafiles. exists k, row. auto. }
  assert (Hpath : file_path root df = file_path root row) by reflexivity.
  destruct (decide (source row = DataSource.pk self)) as [Hs|Hs].
  - assert (Hin : df ∈ datafiles self w)
      by (apply elem_of_datafiles; exists k, row; auto).
    pose proof (proj1 (Forall_forall _ _) Hx df Hin) as Hux.
    unfold is_missing in Hm_del. unfold is_stale in Hm_upd.
    unfold is_unreadable in Hux. rewrite Hpath in *.
    destruct (open_rb env (file_path root row)) as [e|content] eqn:Ho.
    + assert (e = FileNotFoundError) by (destruct e; congruence). subst e.
      split; [reflexivity|].
      rewrite decide_True; [reflexivity|]. apply Hm_del. auto.
    + rewrite decide_False
        by (intros Hc; apply Hm_del in Hc; destruct Hc; discriminate).
      change (hash df) with (hash row) in Hm_upd.
      destruct (foldl_write_cases k upd row)
        as [[Hall Heq] | (o & Hin_o & Hk & Heq)]; rewrite Heq.
      * destruct (String.eqb _ _) eqn:Hh; [reflexivity|].
        exfalso. assert (Hc : Some k ∈ pk <$> upd) by (apply Hm_upd; auto).
        apply list_elem_of_fmap in Hc as (u & Hu & Hin_u).
        apply (proj1 (Forall_forall _ _) Hall u Hin_u). auto.
      * assert (Hc : Some k ∈ pk <$> upd).
        { apply list_elem_of_fmap. exists o. auto. }
        apply Hm_upd in Hc as [_ Hst]. apply negb_true_iff in Hst.
        rewrite Hst.
        pose proof (proj1 (Forall_forall _ _) Hf o Hin_o)
          as (df0 & c & t & Hin0 & Ho0 & ->).
        assert (df0 = df).
        { apply (datafiles_pk_inj self w); auto. }
        subst df0. rewrite Hpath, Ho in Ho0. inversion Ho0; subst c.
        exists t. reflexivity.
  - rewrite decide_False by (intros Hc; apply Hm_del in Hc; tauto).
    destruct (foldl_write_cases k upd row)
      as [[Hall Heq] | (o & Hin_o & Hk & Heq)]; rewrite Heq; [reflexivity|].
    exfalso. assert (Hc : Some k ∈ pk <$> upd).
    { apply list_elem_of_fmap. exists o. auto. }
    apply Hm_upd in Hc. tauto.
Qed.

End Tables.

(** ** Creation of the new rows *)

Section Creation.
Import DataFile DataFileMethods DataSourceMethods.

Lemma is_new_file_ext env root self w1 w2 p df :
  sources w1 = sources w2 -> files w1 = files w2 ->
  is_new_file env root self w1 p df -> is_new_file env root self w2 p df.
Proof.
  intros Hs Hf (c & t & Ho & -> & Hc & He & Hu).
  exists c, t. unfold source_exists, unique_source_path in *.
  rewrite <- Hs, <- Hf. auto.
Qed.

Lemma hexdigest_neq_empty content :
  String.eqb (Sha256.hexdigest content) EmptyString = false.
Proof.
  apply String.eqb_neq. apply hexdigest_nonempty.
Qed.

Lemma build_new_returns env self root paths w news w' :
  build_new env self root paths w = (Return news, w') ->
  Forall2 (is_new_file env root self w) paths news.
Proof.
  revert w news w'. induction paths as [|p paths IH]; intros w news w' H.
  - cbn in H. inversion H. constructor.
  - cbn [build_new] in H. unfold bind at 1 in H.
    rewrite refresh_from_disk_eq in H.
    change (file_path root (DataFile.new (DataSource.pk self) p))
      with (Py.os_path_join root p) in H.
    destruct (open_rb env (Py.os_path_join root p)) as [e|content] eqn:Ho;
      [discriminate|].
    change (hash (DataFile.new (DataSource.pk self) p))
      with EmptyString in H.
    rewrite hexdigest_neq_empty in H. cbn [fst] in H.
    unfold bind at 1, full_clean at 1, db_statement in H.
    unfold bind at 1 in H.
    set (df := refreshed env root (clock env (ticks w)) content
                 (DataFile.new (DataSource.pk self) p)) in *.
    destruct (db_error env Validate); [discriminate|]. cbn [ret] in H.
    destruct (clean_fields df && source_exists df (tick w)
              && unique_source_path df (tick w)) eqn:Hv; [|discriminate].
    unfold bind at 1 in H.
    destruct (build_new env self root paths (tick w))
      as [[others|e] w2] eqn:Hb; [|discriminate].
    cbn in H. inversion H; subst.
    apply andb_prop in Hv as [Hv Hu]. apply andb_prop in Hv as [Hc He].
    constructor.
    + exists content, (clock env (ticks w)). auto.
    + eapply Forall2_impl; [exact (IH _ _ _ Hb)|].
      intros p0 d0. apply is_new_file_ext; reflexivity.
Qed.

Lemma bulk_create_returns env objs w :
  exists rows w',
    bulk_create env objs w = (Return rows, w')
    /\ Forall2 inserted objs rows
    /\ (forall k row, files w !! k = Some row -> files w' !! k = Some row)
    /\ (forall k row, files w' !! k = Some row ->
          files w !! k = Some row
          \/ (files w !! k = None /\ row ∈ rows /\ pk row = Some k))
    /\ (forall row, row ∈ rows ->
          exists k, pk row = Some k /\ files w !! k = None
                    /\ files w' !! k = Some row)
    /\ (forall i j ri rj, rows !! i = Some ri -> rows !! j = Some rj ->
          pk ri = pk rj -> i = j).
Proof.
  revert w. induction objs as [|obj objs IH]; intros w.
  - exists [], w. cbn. repeat split; try constructor; auto.
    + intros row Hin. inversion Hin.
    + intros i j ri rj Hi. rewrite lookup_nil in Hi. discriminate.
  - cbn [bulk_create]. unfold bind at 1. cbn [timezone_now].
    unfold bind at 1. cbn [get]. unfold bind at 1.
    cbn [set_files modify files].
    set (k0 := fresh (dom (files w))).
    set (row0 := set_pk (Some k0)
                   (set_created (Some (clock env (ticks w))) obj)).
    set (w1 := mkWorld _ _ _ _).
    assert (Hfresh : files w !! k0 = None).
    { apply not_elem_of_dom. apply is_fresh. }
    destruct (IH w1) as (rows & w' & Hb & Hins & Hold & Hnew & Hrows & Hinj).
    exists (row0 :: rows), w'. unfold bind. rewrite Hb. cbn [ret].
    assert (Hw1 : forall k, files w1 !! k =
              if decide (k0 = k) then Some row0 else files w !! k).
    { intros k. unfold w1. cbn [files]. apply lookup_insert. }
    split; [reflexivity|]. split; [|split; [|split; [|split]]].
    + constructor; [|exact Hins]. exists k0, (clock env (ticks w)). reflexivity.
    + intros k row Hl. apply Hold. rewrite Hw1.
      destruct (decide (k0 = k)) as [<-|]; [congruence | exact Hl].
    + intros k row Hl. apply Hnew in Hl.
      destruct Hl as [Hl | (Hn & Hin & Hk)].
      * rewrite Hw1 in Hl. destruct (decide (k0 = k)) as [<-|].
        -- inversion Hl; subst. right. repeat split; [exact Hfresh|left].
        -- left. exact Hl.
      * rewrite Hw1 in Hn. destruct (decide (k0 = k)); [discriminate|].
        right. repeat split; [exact Hn | right; exact Hin | exact Hk].
    + intros row Hin. apply elem_of_cons in Hin as [->|Hin].
      * exists k0. repeat split; [exact Hfresh|].
        apply Hold. rewrite Hw1. rewrite decide_True by reflexivity.
        reflexivity.
      * destruct (Hrows row Hin) as (k & Hk & Hn & Hl).
        exists k. rewrite Hw1 in Hn.
        destruct (decide (k0 = k)); [discriminate|]. auto.
    + intros i j ri rj Hi Hj Hpk.
      assert (Hk0 : forall n r, rows !! n = Some r -> pk r <> Some k0).
      { intros n r Hn Hc.
        destruct (Hrows r (list_elem_of_lookup_2 _ _ _ Hn))
          as (k & Hk & Hnone & _).
        rewrite Hc in Hk. inversion Hk; subst k.
        rewrite Hw1 in Hnone. rewrite decide_True in Hnone by reflexivity.
        discriminate. }
      destruct i as [|i], j as [|j]; cbn in Hi, Hj.
      * reflexivity.
      * inversion Hi; subst ri. exfalso. apply (Hk0 j rj Hj).
        rewrite <- Hpk. reflexivity.
      * inversion Hj; subst rj. exfalso. apply (Hk0 i ri Hi).
        rewrite Hpk. reflexivity.
      * f_equal. eapply Hinj; eauto.
Qed.

(** A successful run of the body, step by step. *)
Lemma sync_files_returns env self root w staged w' :
  sync_files env self root w = (Return staged, w') ->
  exists upd del w1 walked news w2 rows,
    refresh_known env root (datafiles self w) w = (Return (upd, del), w1)
    /\ _walk env self root = Return walked
    /\ build_new env self root (elements (walked ∖ known_paths self w))
         (with_files (mid_table upd del (files w)) w1) = (Return news, w2)
    /\ bulk_create env news w2 = (Return rows, w')
    /\ staged = mkStaged upd del news.
Proof.
  unfold sync_files. rewrite bind_db.
  destruct (db_error env Select_files); [discriminate|].
  unfold bind at 1. cbn [get]. unfold bind at 1.
  pose proof (kt_refresh_known env root (datafiles self w) w) as Hkt.
  destruct (refresh_known env root (datafiles self w) w)
    as [[[upd del]|e] w1] eqn:Hr; [|discriminate].
  cbn [snd] in Hkt. destruct Hkt as (Hs1 & Hf1 & He1).
  rewrite bind_db_for. cbn [fst snd].
  destruct (db_fails env Bulk_update upd); [discriminate|].
  unfold bind at 1. cbn [set_files modify fst snd].
  rewrite bind_db_for. destruct (db_fails env Delete del); [discriminate|].
  unfold bind at 1. cbn [set_files modify files sources ticks events].
  unfold bind at 1.
  destruct (_walk env self root) as [walked|e] eqn:Hw; [|discriminate].
  cbn [ret]. unfold bind at 1.
  rewrite Hf1. fold (mid_table upd del (files w)).
  change (mkWorld (sources w1) (mid_table upd del (files w)) (ticks w1)
            (events w1))
    with (with_files (mid_table upd del (files w)) w1).
  fold (known_paths self w).
  destruct (build_new _ _ _ _ _) as [[news|e] w2] eqn:Hb; [|discriminate].
  rewrite bind_db_for. destruct (db_fails env Bulk_create news); [discriminate|].
  unfold bind at 1.
  destruct (bulk_create env news w2) as [[rows|e] w3] eqn:Hc; [|discriminate].
  cbn [ret]. intros H. inversion H; subst.
  exists upd, del, w1, walked, news, w2, rows. auto.
Qed.

Lemma sync_files_returns_select env self root w staged w' :
  sync_files env self root w = (Return staged, w') ->
  db_error env Select_files = None.
Proof.
  unfold sync_files. rewrite bind_db.
  destruct (db_error env Select_files); [discriminate | reflexivity].
Qed.

End Creation.

(** ** The ignore rules *)

Section IgnoreRules.
Import DataSource DataSourceMethods.

Lemma ignore_by_rule self filename :
  Py.startswith filename "." = false ->
  _ignore self filename = true <->
  exists rule, rule ∈ Py.splitlines (ignore_rules self)
               /\ Fnmatch.fnmatchcase filename rule = true.
Proof.
  intros Hdot. unfold _ignore. rewrite Hdot. rewrite existsb_exists.
  split; intros (rule & Hin & Hm); exists rule;
    (split; [apply list_elem_of_In; exact Hin | exact Hm]).
Qed.

(** C6: a file name that starts with a dot is ignored whatever the rules
    are; any other file name is ignored exactly when one of the lines of the
    ignore rules matches it as a glob, compared case-sensitively: with the
    rule [*.txt], [notes.txt] is ignored and [notes.TXT] is not. *)
Theorem C6_ignore_decision :
  (forall self filename,
     Py.startswith filename "." = true -> _ignore self filename = true)
  /\ (forall self filename,
        Py.startswith filename "." = false ->
        _ignore self filename = true <->
        exists rule, rule ∈ Py.splitlines (ignore_rules self)
                     /\ Fnmatch.fnmatchcase filename rule = true)
  /\ (forall self,
        _ignore self "notes.txt" = true <->
        exists rule, rule ∈ Py.splitlines (ignore_rules self)
                     /\ Fnmatch.fnmatchcase "notes.txt" rule = true)
  /\ Fnmatch.fnmatchcase "notes.txt" "*.txt" = true
  /\ Fnmatch.fnmatchcase "notes.TXT" "*.txt" = false
  /\ (forall self, ignore_rules self = "*.txt" ->
        _ignore self "notes.txt" = true /\ _ignore self "notes.TXT" = false).
Proof.
  split; [|split; [|split; [|split; [|split]]]].
  - intros self filename H. unfold _ignore. rewrite H. reflexivity.
  - exact ignore_by_rule.
  - intros self. apply ignore_by_rule. reflexivity.
  - reflexivity.
  - reflexivity.
  - intros self H. unfold _ignore. rewrite H. split; reflexivity.
Qed.

End IgnoreRules.

(** ** Refreshing one record *)

Section Refresh.
Import DataFile DataFileMethods.

(** C4: [refresh_from_disk] returns true exactly when the SHA-256 hex digest
    of the file under the root differs from the stored hash, so always for
    an empty stored hash; with equal digests nothing changes; otherwise
    [last_updated] is the clock reading, [size] the size [os.path.getsize]
    reports, [hash] the digest and [data] the bytes of the file, and the other
    attributes stay; an error on opening the file, a missing file among
    them, is raised. *)
Theorem C4_refresh_from_disk_contract env self root w :
  match open_rb env (Py.os_path_join root (path self)) with
  | inr content =>
      let digest := Sha256.hexdigest content in
      exists self' changed w',
        refresh_from_disk env self root w = (Return (self', changed), w')
        /\ (changed = true <-> digest <> hash self)
        /\ (hash self = EmptyString -> changed = true)
        /\ (changed = false -> self' = self /\ w' = w)
        /\ (changed = true ->
              last_updated self' = Some (clock env (ticks w))
              /\ (exists sz,
                    getsize env (Py.os_path_join root (path self)) = inr sz
                    /\ size self' = Some sz)
              /\ hash self' = digest
              /\ data self' = Some content
              /\ pk self' = pk self /\ created self' = created self
              /\ source self' = source self /\ path self' = path self
              /\ w' = tick w)
  | inl e =>
      refresh_from_disk env self root w = (Raise e, w)
      /\ (e = FileNotFoundError ->
          refresh_from_disk env self root w = (Raise FileNotFoundError, w))
  end.
Proof.
  rewrite refresh_from_disk_eq. unfold file_path.
  destruct (open_rb env _) as [e|content] eqn:Ho.
  - split; [reflexivity | intros ->; reflexivity].
  - cbv zeta. destruct (String.eqb _ _) eqn:Hh.
    + apply String.eqb_eq in Hh.
      exists self, false, w. repeat split; try discriminate; try congruence.
      intros He. exfalso. rewrite He in Hh.
      exact (hexdigest_nonempty content Hh).
    + apply String.eqb_neq in Hh.
      exists (refreshed env root (clock env (ticks w)) content self), true,
        (tick w).
      destruct (stat_after_open env _ _ Ho) as [sz Hsz].
      split; [reflexivity|]. split; [split; auto|]. split; [auto|].
      split; [discriminate|]. intros _. split; [reflexivity|]. split.
      { exists sz. split; [exact Hsz|]. cbn. unfold stat_size, file_path.
        rewrite Hsz. reflexivity. }
      repeat split.
Qed.

End Refresh.

(** ** The readiness check *)

Section Readiness.
Import DataSource DataSourceMethods.

Lemma sync_ready_events env self w :
  ready_for_sync self = true ->
  exists rest,
    events (sync_staged env self w).2 = events w ++ pre_sync (pk self) :: rest.
Proof.
  intros H. rewrite (sync_staged_ready _ _ _ H).
  destruct (receivers env (pre_sync (pk self))); [exists []; reflexivity|].
  destruct (db_error env Update_status); [exists []; reflexivity|].
  destruct (get_backend env self) as [e|lp]; [exists []; reflexivity|].
  pose proof (kse_sync_files env (set_status SYNCING self) lp (started self w))
    as [_ He].
  destruct (sync_files _ _ _ _) as [[st|e] w1]; cbn [snd] in *.
  - destruct (db_error env Update_completed).
    + exists []. cbn. rewrite He. reflexivity.
    + exists [post_sync (pk self)]. cbn. rewrite He. cbn.
      rewrite <- app_assoc. reflexivity.
  - exists []. rewrite He. reflexivity.
Qed.

(** C5: [sync] raises [SyncError] with nothing sent, stored or assigned
    exactly when the source is not ready; a source is ready exactly when it
    is enabled and its status is neither queued nor syncing; so a disabled
    source is refused even with status completed. *)
Theorem C5_sync_precondition env self w :
  ((exists msg, sync env self w = (Raise (SyncError msg), self, w))
   <-> ready_for_sync self = false)
  /\ (ready_for_sync self = true <->
      enabled self = true /\ status self <> QUEUED /\ status self <> SYNCING)
  /\ (enabled self = false ->
      exists msg, sync env self w = (Raise (SyncError msg), self, w)).
Proof.
  assert (Hnot : ready_for_sync self = false ->
                 exists msg, sync env self w = (Raise (SyncError msg), self, w)).
  { intros H. eexists. rewrite sync_unfold, (sync_staged_not_ready _ _ _ H).
    reflexivity. }
  split; [|split].
  - split; [|exact Hnot].
    intros (msg & Hs). destruct (ready_for_sync self) eqn:Hr; [|reflexivity].
    exfalso. destruct (sync_ready_events env self w Hr) as (rest & He).
    rewrite sync_unfold in Hs. injection Hs as _ _ Hw.
    rewrite Hw in He. apply (f_equal length) in He.
    rewrite length_app in He. cbn in He. lia.
  - apply ready_for_sync_spec.
  - intros He. apply Hnot. unfold ready_for_sync. rewrite He. reflexivity.
Qed.

End Readiness.

(** ** Exceptions during a run *)

Section Exceptions.
Import DataSource DataFileMethods DataSourceMethods.

Lemma datafiles_started self s w :
  datafiles (set_status s self) (started self w) = datafiles self w.
Proof. reflexivity. Qed.

Lemma known_paths_started self s w :
  known_paths (set_status s self) (started self w) = known_paths self w.
Proof. reflexivity. Qed.

Lemma walk_status env self s root :
  _walk env (set_status s self) root = _walk env self root.
Proof.
  unfold _walk. generalize (∅ : gset string).
  induction (os_walk env root) as [|[[path dirs] names] rest IH];
    intros paths; [reflexivity|].
  cbn [walk_loop]. destruct (Py.split path root) as [pieces|]; [|reflexivity].
  destruct (pieces !! 1%nat) as [piece|]; [|reflexivity].
  destruct (Py.startswith _ _); rewrite IH; reflexivity.
Qed.

Lemma build_new_status env self s root paths :
  build_new env (set_status s self) root paths = build_new env self root paths.
Proof.
  induction paths as [|p paths IH]; [reflexivity|].
  cbn [build_new]. rewrite IH. reflexivity.
Qed.

Lemma Forall2_left_witness {A B} (R : A -> B -> Prop) (l : list A)
    (k : list B) (x : A) :
  Forall2 R l k -> x ∈ l -> exists y, y ∈ k /\ R x y.
Proof.
  induction 1 as [|a b l k Hab _ IH]; intros Hin.
  - inversion Hin.
  - apply elem_of_cons in Hin as [->|Hin].
    + exists b. split; [left | exact Hab].
    + destruct (IH Hin) as (y & Hy & HR). exists y. split; [right|]; auto.
Qed.

(** The outcome of a run that got past the readiness check: it returns, or
    it raises at one of five places: in a receiver of [pre_sync], in the
    first status update, between that and the end of the body, in the
    second status update, or in a receiver of [post_sync]. *)
Lemma sync_ready_outcome env self w :
  ready_for_sync self = true ->
  let '(r, self', w') := sync_staged env self w in
  match r with
  | Raise e =>
      (self' = self /\ w' = sent self w
       /\ receivers env (pre_sync (pk self)) = Some e)
      \/ (self' = set_status SYNCING self /\ w' = sent self w
          /\ db_error env Update_status = Some e)
      \/ (self' = set_status SYNCING self
          /\ sources w' = alter (set_status SYNCING) (pk self) (sources w)
          /\ events w' = events w ++ [pre_sync (pk self)])
      \/ (exists w1,
            self' = completed env self w1
            /\ sources w' = alter (set_status SYNCING) (pk self) (sources w)
            /\ events w' = events w ++ [pre_sync (pk self)]
            /\ db_error env Update_completed = Some e)
      \/ (exists w1,
            self' = completed env self w1
            /\ sources w' =
               alter (fun row => set_last_synced (Some (clock env (ticks w1)))
                                   (set_status COMPLETED row)) (pk self)
                     (alter (set_status SYNCING) (pk self) (sources w))
            /\ events w' = events w ++ [pre_sync (pk self); post_sync (pk self)]
            /\ receivers env (post_sync (pk self)) = Some e)
  | Return _ =>
      exists w1,
        self' = completed env self w1
        /\ sources w' =
           alter (fun row => set_last_synced (Some (clock env (ticks w1)))
                               (set_status COMPLETED row)) (pk self)
                 (alter (set_status SYNCING) (pk self) (sources w))
        /\ events w' = events w ++ [pre_sync (pk self); post_sync (pk self)]
        /\ files w' = files w1 /\ ticks w' = S (ticks w1)
  end.
Proof.
  intros Hr. rewrite (sync_staged_ready _ _ _ Hr).
  destruct (receivers env (pre_sync (pk self))) as [e|]; [left; auto|].
  destruct (db_error env Update_status) as [e|]; [right; left; auto|].
  destruct (get_backend env self) as [e|lp]; [right; right; left; auto|].
  pose proof (kse_sync_files env (set_status SYNCING self) lp (started self w))
    as [Hs He].
  destruct (sync_files _ _ _ _) as [[st|e] w1] eqn:Hsf; cbn [snd] in *.
  - assert (Hfin : sources (finished env self w1) =
                   alter (fun row => set_last_synced (Some (clock env (ticks w1)))
                                       (set_status COMPLETED row)) (pk self)
                         (alter (set_status SYNCING) (pk self) (sources w))
                   /\ events (finished env self w1)
                      = events w ++ [pre_sync (pk self); post_sync (pk self)]).
    { unfold finished. cbn [sources events]. rewrite Hs, He.
      cbn [started sources events]. rewrite <- app_assoc. auto. }
    destruct Hfin as [Hf1 Hf2].
    destruct (db_error env Update_completed) as [e|].
    + right; right; right; left. exists w1. cbn [tick sources events].
      rewrite Hs, He. auto.
    + destruct (receivers env (post_sync (pk self))) as [e|].
      * right; right; right; right. exists w1. auto.
      * exists w1. auto.
  - right; right; left. rewrite Hs, He. auto.
Qed.

End Exceptions.


(** ** The tables after the body of a run *)

Section AfterBody.
Import DataSource DataFileMethods DataSourceMethods.

Lemma known_paths_spec self w p :
  p ∈ known_paths self w <->
  exists k row, files w !! k = Some row
                /\ DataFile.source row = pk self /\ DataFile.path row = p.
Proof.
  unfold known_paths. rewrite elem_of_list_to_set, list_elem_of_fmap. split.
  - intros (df & -> & Hin). apply elem_of_datafiles in Hin
      as (k & row & Hl & Hs & ->). exists k, row. auto.
  - intros (k & row & Hl & Hs & <-).
    exists (DataFile.set_pk (Some k) row). split; [reflexivity|].
    apply elem_of_datafiles. eauto.
Qed.

(** Everything a successful body leaves behind, in one statement: [mid] is
    the table after the update and the deletion, [rows] are the rows
    inserted for the new paths. *)
Lemma sync_files_table env self root w staged w' :
  sync_files env self root w = (Return staged, w') ->
  let mid := mid_table (updated_files staged) (deleted_file_ids staged)
               (files w) in
  exists walked rows,
    _walk env self root = Return walked
    /\ Forall2 (is_new_file env root self (with_files mid w))
               (elements (walked ∖ known_paths self w))
               (new_datafiles staged)
    /\ Forall2 inserted (new_datafiles staged) rows
    /\ (forall k, match files w !! k with
                  | None => mid !! k = None
                  | Some row => mid_row env root self row (mid !! k)
                  end)
    /\ (forall k row, mid !! k = Some row -> files w' !! k = Some row)
    /\ (forall k row, files w' !! k = Some row ->
          mid !! k = Some row
          \/ (mid !! k = None /\ row ∈ rows /\ DataFile.pk row = Some k))
    /\ (forall row, row ∈ rows ->
          exists k, DataFile.pk row = Some k /\ mid !! k = None
                    /\ files w' !! k = Some row)
    /\ (forall i j ri rj, rows !! i = Some ri -> rows !! j = Some rj ->
          DataFile.pk ri = DataFile.pk rj -> i = j)
    /\ sources w' = sources w /\ events w' = events w
    /\ (exists wb, files wb = mid
                   /\ bulk_create env (new_datafiles staged) wb
                      = (Return rows, w'))
    /\ (forall k row, files w !! k = Some row ->
          Some k ∈ DataFile.pk <$> updated_files staged ->
          DataFile.source row = pk self /\ is_stale env root row = true).
Proof.
  intros Hs mid.
  pose proof (kse_sync_files env self root w) as [Hsrc Hev].
  rewrite Hs in Hsrc, Hev. cbn [snd] in Hsrc, Hev.
  apply sync_files_returns in Hs
    as (upd & del & w1 & walked & news & w2 & rows & Hk & Hw & Hb & Hc & ->).
  cbn [updated_files deleted_file_ids new_datafiles] in *.
  pose proof (kt_refresh_known env root (datafiles self w) w) as Hkt1.
  rewrite Hk in Hkt1. cbn [snd] in Hkt1. destruct Hkt1 as (Hs1 & Hf1 & He1).
  pose proof (kt_build_new env self root
                (elements (walked ∖ known_paths self w))
                (with_files (mid_table upd del (files w)) w1)) as Hkt2.
  rewrite Hb in Hkt2. cbn [snd with_files sources files events] in Hkt2.
  destruct Hkt2 as (Hs2 & Hf2 & He2).
  destruct (bulk_create_returns env news w2)
    as (rows' & w'' & Hc' & Hins & Hold & Hnew & Hrows & Hinj).
  rewrite Hc in Hc'. injection Hc' as <- <-.
  rewrite Hf2 in Hold, Hnew, Hrows. fold mid in Hold, Hnew, Hrows.
  exists walked, rows.
  split; [exact Hw|]. split.
  { apply build_new_returns in Hb.
    eapply Forall2_impl; [exact Hb|]. intros p df.
    apply is_new_file_ext; [exact Hs1 | reflexivity]. }
  split; [exact Hins|]. split.
  { intros k. exact (mid_table_lookup env root self w w upd del w1 k Hk). }
  split; [exact Hold|]. split; [exact Hnew|]. split; [exact Hrows|].
  split; [exact Hinj|]. split; [exact Hsrc|]. split; [exact Hev|].
  split; [exists w2; auto|].
  intros k row Hl Hin. apply refresh_known_returns in Hk as (_ & _ & Hp & _).
  rewrite Hp in Hin. apply list_elem_of_fmap in Hin as (df & Hpk & Hin).
  apply list_elem_of_filter in Hin as [Hst Hin].
  apply elem_of_datafiles in Hin as (k' & row' & Hl' & Hs' & ->).
  cbn in Hpk. injection Hpk as <-. rewrite Hl in Hl'. injection Hl' as <-.
  auto.
Qed.

Lemma in_sync_classes env root row k :
  in_sync env root row ->
  let df := DataFile.set_pk k row in
  is_missing env root df = false /\ is_stale env root df = false
  /\ is_unreadable env root df = false.
Proof.
  intros (c & Ho & Hh). cbv zeta.
  unfold is_missing, is_stale, is_unreadable.
  change (file_path root (DataFile.set_pk k row)) with (file_path root row).
  rewrite Ho. change (DataFile.hash (DataFile.set_pk k row))
    with (DataFile.hash row).
  rewrite Hh, String.eqb_refl. auto.
Qed.

Lemma mid_row_in_sync env root self row0 row :
  mid_row env root self row0 (Some row) ->
  DataFile.source row = DataFile.source row0
  /\ DataFile.path row = DataFile.path row0
  /\ (DataFile.source row0 = pk self -> in_sync env root row).
Proof.
  unfold mid_row. destruct (decide _) as [Hs|Hs].
  - destruct (open_rb env (file_path root row0)) as [e|c] eqn:Ho.
    + intros [_ ?]. discriminate.
    + destruct (String.eqb _ _) eqn:Hh.
      * intros [= <-]. repeat split. intros _. exists c.
        apply String.eqb_eq in Hh. auto.
      * intros (t & [= ->]). repeat split. intros _. exists c.
        split; [exact Ho | reflexivity].
  - intros [= <-]. repeat split. intros Hc. contradiction.
Qed.

Lemma new_row_in_sync env root self wm p obj row :
  is_new_file env root self wm p obj -> inserted obj row ->
  DataFile.source row = pk self /\ DataFile.path row = p
  /\ in_sync env root row.
Proof.
  intros (c & t & Ho & -> & _) (k & t' & ->). repeat split.
  exists c. split; [exact Ho | reflexivity].
Qed.

Lemma Forall2_right_witness {A B} (R : A -> B -> Prop) (l : list A)
    (k : list B) (y : B) :
  Forall2 R l k -> y ∈ k -> exists x, x ∈ l /\ R x y.
Proof.
  induction 1 as [|a b l k Hab _ IH]; intros Hin.
  - inversion Hin.
  - apply elem_of_cons in Hin as [->|Hin].
    + exists a. split; [left | exact Hab].
    + destruct (IH Hin) as (x & Hx & HR). exists x. split; [right|]; auto.
Qed.

(** After a successful body every row of the source agrees with its file. *)
Lemma sync_files_in_sync env self root w staged w' :
  sync_files env self root w = (Return staged, w') ->
  forall k row, files w' !! k = Some row ->
                DataFile.source row = pk self -> in_sync env root row.
Proof.
  intros Hs k row Hl Hsrc.
  destruct (sync_files_table _ _ _ _ _ _ Hs)
    as (walked & rows & _ & Hnew & Hins & Hmid & _ & Hcases & _).
  destruct (Hcases k row Hl) as [Hm | (_ & Hin & _)].
  - specialize (Hmid k). destruct (files w !! k) as [row0|]; [|congruence].
    rewrite Hm in Hmid. apply mid_row_in_sync in Hmid as (Hs0 & _ & Hsync).
    apply Hsync. congruence.
  - destruct (Forall2_right_witness _ _ _ _ Hins Hin) as (obj & Hobj & Hio).
    destruct (Forall2_right_witness _ _ _ _ Hnew Hobj) as (p & _ & Hp).
    eapply new_row_in_sync; eauto.
Qed.

End AfterBody.

(** ** Running [sync] twice *)

Section Idempotence.
Import DataSource DataFileMethods DataSourceMethods.

Lemma ignore_ext s1 s2 filename :
  ignore_rules s1 = ignore_rules s2 -> _ignore s1 filename = _ignore s2 filename.
Proof. intros H. unfold _ignore. rewrite H. reflexivity. Qed.

Lemma add_files_ext s1 s2 path names paths :
  ignore_rules s1 = ignore_rules s2 ->
  add_files s1 path names paths = add_files s2 path names paths.
Proof.
  intros H. unfold add_files. revert paths.
  induction names as [|n names IH]; intros paths; [reflexivity|].
  cbn [foldl]. rewrite (ignore_ext s1 s2 n H). apply IH.
Qed.

Lemma walk_ext env s1 s2 root :
  ignore_rules s1 = ignore_rules s2 -> _walk env s1 root = _walk env s2 root.
Proof.
  intros H. unfold _walk. generalize (∅ : gset string).
  induction (os_walk env root) as [|[[path dirs] names] rest IH];
    intros paths; [reflexivity|].
  cbn [walk_loop]. destruct (Py.split path root) as [pieces|]; [|reflexivity].
  destruct (pieces !! 1%nat) as [piece|]; [|reflexivity].
  rewrite (add_files_ext s1 s2 _ _ _ H).
  destruct (Py.startswith _ _); apply IH.
Qed.

Lemma delete_pk_in_nil table : delete_pk_in [] table = table.
Proof.
  apply map_eq. intros k. rewrite delete_pk_in_lookup.
  rewrite decide_False; [reflexivity|]. apply not_elem_of_nil.
Qed.

(** A body that finds every row in agreement with its file, and no path
    that is not known, stages nothing and changes nothing. *)
Lemma sync_files_noop env self root w walked :
  (forall k row, files w !! k = Some row -> DataFile.source row = pk self ->
                 in_sync env root row) ->
  _walk env self root = Return walked ->
  walked ⊆ known_paths self w ->
  db_error env Select_files = None ->
  sync_files env self root w = (Return (mkStaged [] [] []), w).
Proof.
  intros Hsync Hw Hsub Hsel.
  assert (Hall : forall df, df ∈ datafiles self w ->
            is_missing env root df = false /\ is_stale env root df = false
            /\ is_unreadable env root df = false).
  { intros df Hin. apply elem_of_datafiles in Hin as (k & row & Hl & Hs & ->).
    apply in_sync_classes. eauto. }
  unfold sync_files. rewrite bind_db, Hsel.
  unfold bind at 1. cbn [get]. unfold bind at 1.
  rewrite refresh_known_unchanged;
    try (apply Forall_forall; intros df Hin; apply (Hall df Hin)).
  rewrite bind_db_for. cbn [fst snd db_fails].
  unfold bind at 1. cbn [set_files modify fst snd bulk_update foldl].
  rewrite bind_db_for. cbn [db_fails].
  unfold bind at 1. cbn [set_files modify files sources ticks events].
  rewrite delete_pk_in_nil. unfold bind at 1. rewrite Hw. cbn [ret].
  fold (known_paths self w).
  assert (Hempty : walked ∖ known_paths self w = ∅).
  { apply set_eq. intros x. rewrite elem_of_difference, elem_of_empty.
    split; [intros [Hx Hn]; exact (Hn (Hsub x Hx)) | contradiction]. }
  rewrite Hempty, elements_empty. cbn. destruct w; reflexivity.
Qed.

Lemma walked_known_after env self root w staged w' walked :
  sync_files env self root w = (Return staged, w') ->
  _walk env self root = Return walked ->
  (forall p, p ∈ walked ->
     open_rb env (Py.os_path_join root p) <> inl FileNotFoundError) ->
  walked ⊆ known_paths self w'.
Proof.
  intros Hs Hw Hfound p Hp.
  destruct (sync_files_table _ _ _ _ _ _ Hs)
    as (walked' & rows & Hw' & Hnew & Hins & Hmid & Hkeep & _ & Hrows & _).
  rewrite Hw in Hw'. injection Hw' as <-.
  apply known_paths_spec.
  destruct (decide (p ∈ known_paths self w)) as [Hk|Hk].
  - apply known_paths_spec in Hk as (k & row0 & Hl & Hsrc & Hpath).
    specialize (Hmid k). rewrite Hl in Hmid.
    unfold mid_row in Hmid. rewrite decide_True in Hmid by exact Hsrc.
    assert (Hfp : file_path root row0 = Py.os_path_join root p)
      by (unfold file_path; rewrite Hpath; reflexivity).
    rewrite Hfp in Hmid. specialize (Hfound p Hp).
    destruct (open_rb env (Py.os_path_join root p)) as [e|c].
    + destruct Hmid as [-> _]. contradiction.
    + destruct (String.eqb _ _).
      * exists k, row0. auto.
      * destruct Hmid as (t & Hm). exists k, (refreshed env root t c row0).
        split; [apply Hkeep; exact Hm | auto].
  - assert (Hin : p ∈ elements (walked ∖ known_paths self w))
      by (apply elem_of_elements, elem_of_difference; auto).
    destruct (Forall2_left_witness _ _ _ _ Hnew Hin) as (obj & Hobj & Hp1).
    destruct (Forall2_left_witness _ _ _ _ Hins Hobj) as (row & Hrow & Hp2).
    destruct (Hrows row Hrow) as (k & _ & _ & Hl).
    destruct (new_row_in_sync _ _ _ _ _ _ _ Hp1 Hp2) as (Hsrc & Hpath & _).
    exists k, row. auto.
Qed.

Lemma walk_found_spec env self root walked p :
  walk_found env self = true ->
  get_backend env self = inr root ->
  _walk env self root = Return walked ->
  p ∈ walked ->
  open_rb env (Py.os_path_join root p) <> inl FileNotFoundError.
Proof.
  unfold walk_found. intros H Hb Hw Hp. rewrite Hb, Hw in H.
  rewrite forallb_forall in H.
  specialize (H p). rewrite <- list_elem_of_In, elem_of_elements in H.
  specialize (H Hp). intros Ho. rewrite Ho in H. discriminate.
Qed.

(** C3, as the code has it: when a run of [sync] has returned, the
    environment (backend, file tree, clock, receivers and database) is the
    same and no path the
    walk reports is missing on opening, the next run on the instance
    returns too, having staged no update, no deletion and no new record;
    the [DataFile] table is as the first run left it, and [last_synced] is
    the clock reading taken by the second run, in the instance and in the
    stored row. *)
Theorem C3_sync_twice_stages_nothing env self w staged1 self1 w1 :
  sync_staged env self w = (Return staged1, self1, w1) ->
  walk_found env self = true ->
  exists self2 w2,
    sync_staged env self1 w1 = (Return (mkStaged [] [] []), self2, w2)
    /\ sync env self1 w1 = (Return tt, self2, w2)
    /\ files w2 = files w1
    /\ status self2 = COMPLETED
    /\ last_synced self2 = Some (clock env (ticks w1))
    /\ ticks w2 = S (ticks w1)
    /\ (forall row, sources w2 !! pk self = Some row ->
          status row = COMPLETED
          /\ last_synced row = Some (clock env (ticks w1))).
Proof.
  intros H1 Hfound.
  assert (Hr : ready_for_sync self = true).
  { destruct (ready_for_sync self) eqn:Hr; [reflexivity|].
    rewrite (sync_staged_not_ready _ _ _ Hr) in H1. discriminate. }
  rewrite (sync_staged_ready _ _ _ Hr) in H1.
  destruct (receivers env (pre_sync (pk self))) eqn:Hpre; [discriminate|].
  destruct (db_error env Update_status) eqn:Hus; [discriminate|].
  destruct (get_backend env self) as [e|root] eqn:Hb; [discriminate|].
  destruct (sync_files _ _ _ _) as [[st|e] wb] eqn:Hs; [|discriminate].
  destruct (db_error env Update_completed) eqn:Huc; [discriminate|].
  destruct (receivers env (post_sync (pk self))) eqn:Hpost; [discriminate|].
  injection H1 as <- <- <-.
  set (self1 := completed env self wb).
  set (w1 := finished env self wb).
  assert (Hr1 : ready_for_sync self1 = true).
  { unfold ready_for_sync in *. cbn. apply andb_prop in Hr as [-> _].
    reflexivity. }
  assert (Hw : exists walked,
             _walk env (set_status SYNCING self) root = Return walked).
  { destruct (sync_files_table _ _ _ _ _ _ Hs) as (walked & _ & Hw & _).
    eauto. }
  destruct Hw as (walked & Hw).
  assert (Hnoop : sync_files env (set_status SYNCING self1) root
                    (started self1 w1)
                  = (Return (mkStaged [] [] []), started self1 w1)).
  { apply (sync_files_noop _ _ _ _ walked).
    - intros k row Hl Hsrc.
      apply (sync_files_in_sync _ _ _ _ _ _ Hs k row Hl Hsrc).
    - rewrite <- Hw. apply walk_ext. reflexivity.
    - intros p Hp. apply known_paths_spec.
      assert (Hsub : walked ⊆ known_paths (set_status SYNCING self) wb).
      { apply (walked_known_after _ _ _ _ _ _ _ Hs Hw).
        intros q Hq. apply (walk_found_spec env self root walked q);
          auto. rewrite <- Hw. apply walk_ext. reflexivity. }
      apply Hsub in Hp. apply known_paths_spec in Hp. exact Hp.
    - exact (sync_files_returns_select _ _ _ _ _ _ Hs). }
  exists (completed env self1 (started self1 w1)),
         (finished env self1 (started self1 w1)).
  assert (H2 : sync_staged env self1 w1 =
               (Return (mkStaged [] [] []),
                completed env self1 (started self1 w1),
                finished env self1 (started self1 w1))).
  { assert (Hb1 : get_backend env self1 = inr root) by exact Hb.
    rewrite (sync_staged_ready _ _ _ Hr1).
    change (pk self1) with (pk self).
    rewrite Hpre, Hus, Hb1, Hnoop, Huc, Hpost. reflexivity. }
  split; [exact H2|]. split; [rewrite sync_unfold, H2; reflexivity|].
  split; [reflexivity|]. split; [reflexivity|]. split; [reflexivity|].
  split; [reflexivity|].
  intros row. cbn [finished sources started pk self1 completed
                   set_last_synced set_status].
  rewrite lookup_alter, decide_True by reflexivity.
  destruct (alter _ _ _ !! _); [|discriminate].
  cbn. intros [= <-]. split; reflexivity.
Qed.

End Idempotence.

(** ** A run that returns *)

Section SuccessfulRun.
Import DataSource DataFileMethods DataSourceMethods.

Lemma sync_returns_body env self w staged self' w' :
  sync_staged env self w = (Return staged, self', w') ->
  ready_for_sync self = true
  /\ exists local_path wb,
       get_backend env self = inr local_path
       /\ sync_files env (set_status SYNCING self) local_path (started self w)
          = (Return staged, wb)
       /\ self' = completed env self wb
       /\ w' = finished env self wb.
Proof.
  intros H.
  assert (Hr : ready_for_sync self = true).
  { destruct (ready_for_sync self) eqn:Hr; [reflexivity|].
    rewrite (sync_staged_not_ready _ _ _ Hr) in H. discriminate. }
  split; [exact Hr|]. rewrite (sync_staged_ready _ _ _ Hr) in H.
  destruct (receivers env (pre_sync (pk self))); [discriminate|].
  destruct (db_error env Update_status); [discriminate|].
  destruct (get_backend env self) as [e|lp]; [discriminate|].
  destruct (sync_files _ _ _ _) as [[st|e] wb] eqn:Hs; [|discriminate].
  destruct (db_error env Update_completed); [discriminate|].
  destruct (receivers env (post_sync (pk self))); [discriminate|].
  injection H as <- <- <-. exists lp, wb. auto.
Qed.

Lemma sync_returns_staged env self w self' w' :
  sync env self w = (Return tt, self', w') ->
  exists staged, sync_staged env self w = (Return staged, self', w').
Proof.
  rewrite sync_unfold.
  destruct (sync_staged env self w) as [[[st|e] s] w1]; cbn; [|discriminate].
  intros [= <- <-]. eauto.
Qed.

Lemma new_files_paths env root self wm paths news :
  Forall2 (is_new_file env root self wm) paths news ->
  DataFile.path <$> news = paths.
Proof.
  induction 1 as [|p df paths news (c & t & _ & -> & _) _ IH]; [reflexivity|].
  cbn. f_equal. exact IH.
Qed.


(** C7: in a run that returns, the new instances are built for exactly the
    walked paths that are not among the known paths, the known paths being
    those of the rows stored when the run began; each is populated from its
    file and has passed validation, and all are inserted by one
    [bulk_create] on the table left by the update and the deletion. *)
Theorem C7_new_records_are_walked_minus_known env self w staged self' w' :
  sync_staged env self w = (Return staged, self', w') ->
  exists local_path walked rows,
    get_backend env self = inr local_path
    /\ _walk env self local_path = Return walked
    /\ DataFile.path <$> new_datafiles staged
       = elements (walked ∖ known_paths self w)
    /\ (forall p, p ∈ DataFile.path <$> new_datafiles staged <->
                  p ∈ walked /\ p ∉ known_paths self w)
    /\ Forall (fun df =>
                 exists content stamp,
                   open_rb env (file_path local_path df) = inr content
                   /\ df = refreshed env local_path stamp content
                             (DataFile.new (pk self) (DataFile.path df))
                   /\ clean_fields df = true)
              (new_datafiles staged)
    /\ (exists wb,
          files wb = mid_table (updated_files staged)
                       (deleted_file_ids staged) (files w)
          /\ (bulk_create env (new_datafiles staged) wb).1 = Return rows
          /\ files (bulk_create env (new_datafiles staged) wb).2 = files w')
    /\ Forall2 inserted (new_datafiles staged) rows
    /\ (forall row, row ∈ rows ->
          exists k, DataFile.pk row = Some k /\ files w' !! k = Some row).
Proof.
  intros H.
  apply sync_returns_body in H as (Hr & lp & wb & Hb & Hs & -> & ->).
  destruct (sync_files_table _ _ _ _ _ _ Hs)
    as (walked & rows & Hw & Hnew & Hins & _ & _ & _ & Hrows & _ & _ & _
        & (wb0 & Hwb0 & Hbc) & _).
  rewrite walk_status in Hw.
  exists lp, walked, rows.
  split; [exact Hb|]. split; [exact Hw|].
  assert (Hpaths : DataFile.path <$> new_datafiles staged
                   = elements (walked ∖ known_paths self w)).
  { exact (new_files_paths _ _ _ _ _ _ Hnew). }
  split; [exact Hpaths|]. split.
  { intros p. rewrite Hpaths, elem_of_elements, elem_of_difference.
    reflexivity. }
  split.
  { apply Forall_forall. intros df Hin.
    destruct (Forall2_right_witness _ _ _ _ Hnew Hin)
      as (p & _ & c & t & Ho & Hdf & Hc & _).
    exists c, t. subst df. split; [exact Ho|]. split; [reflexivity|exact Hc]. }
  split.
  { exists wb0. rewrite Hbc. auto. }
  split; [exact Hins|].
  intros row Hin. destruct (Hrows row Hin) as (k & Hk & _ & Hl). eauto.
Qed.

(** C10: a run that returns assigns only [status] and [last_synced] of its
    instance, writes only these two columns of the stored row of its
    source and no other [DataSource] row, and leaves every [DataFile] row of
    another source as it was, creating and deleting none. *)
Theorem C10_sync_frame env self w self' w' :
  sync env self w = (Return tt, self', w') ->
  (pk self' = pk self /\ name self' = name self /\ type self' = type self
   /\ source_url self' = source_url self /\ enabled self' = enabled self
   /\ ignore_rules self' = ignore_rules self
   /\ parameters self' = parameters self)
  /\ (forall k, k <> pk self -> sources w' !! k = sources w !! k)
  /\ (sources w' !! pk self =
      (fun row => set_last_synced (last_synced self')
                    (set_status (status self') row))
      <$> sources w !! pk self)
  /\ (forall k row, DataFile.source row <> pk self ->
        files w' !! k = Some row <-> files w !! k = Some row).
Proof.
  intros H. apply sync_returns_staged in H as (staged & H).
  apply sync_returns_body in H as (Hr & lp & wb & Hb & Hs & -> & ->).
  destruct (sync_files_table _ _ _ _ _ _ Hs)
    as (walked & rows & _ & Hnew & Hins & Hmid & Hkeep & Hcases & _ & _
        & Hsrc & _).
  cbn [started files] in Hmid, Hkeep, Hcases.
  split; [repeat split|]. split; [|split].
  - intros k Hk. cbn [finished sources]. rewrite Hsrc. cbn [started sources].
    assert (Hk' : pk self <> k) by congruence.
    rewrite (lookup_alter_ne _ _ _ _ Hk'), (lookup_alter_ne _ _ _ _ Hk').
    reflexivity.
  - cbn [finished sources]. rewrite Hsrc. cbn [started sources].
    rewrite !lookup_alter, !decide_True by reflexivity.
    destruct (sources w !! pk self); reflexivity.
  - intros k row Hne. cbn [finished files]. split.
    + intros Hl. destruct (Hcases k row Hl) as [Hm | (_ & Hin & _)].
      * specialize (Hmid k).
        destruct (files w !! k) as [row0|]; [|congruence].
        rewrite Hm in Hmid.
        pose proof (mid_row_in_sync _ _ _ _ _ Hmid) as (Hs0 & _).
        unfold mid_row in Hmid.
        rewrite decide_False in Hmid by (cbn; congruence).
        congruence.
      * exfalso.
        destruct (Forall2_right_witness _ _ _ _ Hins Hin) as (obj & Ho & Hio).
        destruct (Forall2_right_witness _ _ _ _ Hnew Ho) as (p & _ & Hp).
        destruct (new_row_in_sync _ _ _ _ _ _ _ Hp Hio) as (Hs0 & _).
        apply Hne. exact Hs0.
    + intros Hl. apply Hkeep. specialize (Hmid k). rewrite Hl in Hmid.
      unfold mid_row in Hmid.
      rewrite decide_False in Hmid by (cbn; congruence). exact Hmid.
Qed.

End SuccessfulRun.

(** ** Reading the content back *)

Section RoundTrip.
Import DataSource DataFileMethods DataSourceMethods.
Context {Text Value : Type}.
Variable utf8_decode : list byte -> option Text.
Variable yaml_safe_load : option Text -> result Value.

(** C9: after a run that returns, a row of the source that the run has
    written (staged for update, or created for a path not known before)
    holds the bytes of its file; when these decode as UTF-8, [get_data] on
    the row is the YAML loader applied to the decoded text of the file. *)
Theorem C9_get_data_round_trip env self w staged self' w' local_path k row
    content text :
  sync_staged env self w = (Return staged, self', w') ->
  get_backend env self = inr local_path ->
  files w' !! k = Some row ->
  DataFile.source row = pk self ->
  Some k ∈ DataFile.pk <$> updated_files staged
  \/ DataFile.path row ∉ known_paths self w ->
  open_rb env (file_path local_path row) = inr content ->
  utf8_decode content = Some text ->
  DataFile.data row = Some content
  /\ get_data utf8_decode yaml_safe_load row = yaml_safe_load (Some text).
Proof.
  intros H Hb Hl Hsrc Hwritten Ho Hd.
  apply sync_returns_body in H as (Hr & lp & wb & Hb' & Hs & -> & ->).
  rewrite Hb in Hb'. injection Hb' as <-.
  destruct (sync_files_table _ _ _ _ _ _ Hs)
    as (walked & rows & _ & Hnew & Hins & Hmid & _ & Hcases & _ & _ & _ & _
        & _ & Hupd).
  cbn [started files finished] in *.
  assert (Hdata : DataFile.data row = Some content).
  { destruct (Hcases k row Hl) as [Hm | (_ & Hin & _)].
    - specialize (Hmid k).
      destruct (files w !! k) as [row0|] eqn:Hl0; [|congruence].
      rewrite Hm in Hmid.
      pose proof (mid_row_in_sync _ _ _ _ _ Hmid) as (Hs0 & Hp0 & _).
      assert (Hfp : file_path local_path row0 = file_path local_path row)
        by (unfold file_path; congruence).
      unfold mid_row in Hmid.
      rewrite decide_True in Hmid by (cbn; congruence).
      rewrite Hfp, Ho in Hmid.
      destruct Hwritten as [Hu | Hnk].
      + destruct (Hupd k row0 Hl0 Hu) as (_ & Hst).
        unfold is_stale in Hst. rewrite Hfp, Ho in Hst.
        apply negb_true_iff in Hst. rewrite Hst in Hmid.
        destruct Hmid as (t & [= ->]). reflexivity.
      + exfalso. apply Hnk. apply known_paths_spec.
        exists k, row0. cbn in Hs0. split; [exact Hl0|].
        split; congruence.
    - destruct (Forall2_right_witness _ _ _ _ Hins Hin) as (obj & Hobj & Hio).
      destruct (Forall2_right_witness _ _ _ _ Hnew Hobj)
        as (p & _ & c & t & Hop & -> & _).
      destruct Hio as (k' & t' & ->).
      change (open_rb env (Py.os_path_join local_path p) = inr content) in Ho.
      rewrite Hop in Ho. injection Ho as ->. reflexivity. }
  split; [exact Hdata|].
  unfold get_data, data_as_string. rewrite Hdata, Hd. reflexivity.
Qed.

End RoundTrip.

(** ** The invariant of the [DataFile] table *)

Section Invariant.
Import DataSource DataFileMethods DataSourceMethods.

Lemma mid_row_facts env root self row0 row :
  mid_row env root self row0 (Some row) ->
  DataFile.source row = DataFile.source row0
  /\ DataFile.path row = DataFile.path row0
  /\ (row = row0
      \/ exists stamp content,
           open_rb env (file_path root row0) = inr content
           /\ row = refreshed env root stamp content row0).
Proof.
  unfold mid_row. destruct (decide _) as [Hs|Hs].
  - destruct (open_rb env (file_path root row0)) as [e|c] eqn:Ho.
    + intros [_ ?]. discriminate.
    + destruct (String.eqb _ _) eqn:Hh.
      * intros [= <-]. auto.
      * intros (t & [= ->]). repeat split. right. eauto.
  - intros [= <-]. auto.
Qed.

(** The table after [bulk_update] alone: the rows staged for deletion are
    still there, as they were. *)
Lemma upd_table_lookup env root self w w0 upd del w1 k :
  refresh_known env root (datafiles self w) w0 = (Return (upd, del), w1) ->
  bulk_update upd (files w) !! k =
  if decide (Some k ∈ del) then files w !! k
  else mid_table upd del (files w) !! k.
Proof.
  intros Hk. unfold mid_table. rewrite delete_pk_in_lookup.
  destruct (decide (Some k ∈ del)) as [Hin|Hin]; [|reflexivity].
  rewrite bulk_update_lookup.
  destruct (files w !! k) as [row|] eqn:Hl; [|reflexivity].
  cbn. f_equal.
  destruct (foldl_write_cases k upd row) as [[_ Heq] | (obj & Hobj & Hpk & _)];
    [exact Heq|].
  exfalso. apply refresh_known_returns in Hk as (_ & Hd & Hu & _).
  assert (Hin2 : Some k ∈ DataFile.pk <$> upd).
  { apply list_elem_of_fmap. exists obj. auto. }
  rewrite Hd in Hin. rewrite Hu in Hin2.
  apply list_elem_of_fmap in Hin as (d1 & Hk1 & H1).
  apply list_elem_of_fmap in Hin2 as (d2 & Hk2 & H2).
  apply list_elem_of_filter in H1 as [Hm H1].
  apply list_elem_of_filter in H2 as [Hst H2].
  assert (d1 = d2)
    by (apply (datafiles_pk_inj self w); [assumption..|congruence]).
  subst d2. unfold is_missing, is_stale in Hm, Hst.
  destruct (open_rb env (file_path root d1)); discriminate.
Qed.

(** Where a body that raises leaves the table: untouched; updated only,
    when the deletion fails; or updated and pruned, with nothing created. *)
Lemma sync_files_raises env self root w e w' :
  sync_files env self root w = (Raise e, w') ->
  files w' = files w
  \/ exists upd del w1,
       refresh_known env root (datafiles self w) w = (Return (upd, del), w1)
       /\ (files w' = bulk_update upd (files w)
           \/ files w' = mid_table upd del (files w)).
Proof.
  unfold sync_files. rewrite bind_db.
  destruct (db_error env Select_files); [intros [= <- <-]; auto|].
  unfold bind at 1. cbn [get]. unfold bind at 1.
  pose proof (kt_refresh_known env root (datafiles self w) w) as Hkt.
  destruct (refresh_known env root (datafiles self w) w)
    as [[[upd del]|e1] w1] eqn:Hr; cbn [snd] in Hkt;
    destruct Hkt as (Hs1 & Hf1 & He1).
  2:{ intros [= <- <-]. left. exact Hf1. }
  rewrite bind_db_for. cbn [fst snd].
  destruct (db_fails env Bulk_update upd); [intros [= <- <-]; auto|].
  unfold bind at 1. cbn [set_files modify fst snd].
  rewrite bind_db_for.
  destruct (db_fails env Delete del).
  { intros [= <- <-]. right. exists upd, del, w1. cbn [files].
    rewrite Hf1. auto. }
  unfold bind at 1. cbn [set_files modify files sources ticks events].
  unfold bind at 1. rewrite Hf1. fold (mid_table upd del (files w)).
  destruct (_walk env self root) as [walked|e1] eqn:Hw.
  2:{ cbn. intros [= <- <-]. right. exists upd, del, w1. auto. }
  cbn [ret]. unfold bind at 1.
  match goal with
  | |- context [build_new env self root ?ps ?wm] =>
      pose proof (kt_build_new env self root ps wm) as Hkb;
      destruct (build_new env self root ps wm) as [[news|e1] w2] eqn:Hb
  end; cbn [snd sources files events] in Hkb; destruct Hkb as (_ & Hf2 & _).
  2:{ intros [= <- <-]. right. exists upd, del, w1. auto. }
  rewrite bind_db_for.
  destruct (db_fails env Bulk_create news).
  { intros [= <- <-]. right. exists upd, del, w1. auto. }
  unfold bind at 1.
  destruct (bulk_create_returns env news w2) as (rows & w3 & Hc & _).
  rewrite Hc. cbn. discriminate.
Qed.

End Invariant.

(** The invariant, for a property [Q] of rows that holds of what
    [refresh_from_disk] writes in the environment at hand and does not
    depend on key and creation stamp. *)
Section InvariantKept.
Import DataSource DataFileMethods DataSourceMethods.
Variable Q : DataFile.t -> Prop.
Variable env : Env.
Hypothesis Q_refreshed :
  forall root stamp content row,
    open_rb env (file_path root row) = inr content ->
    Q (refreshed env root stamp content row).
Hypothesis Q_inserted :
  forall k stamp obj,
    Q obj -> Q (DataFile.set_pk k (DataFile.set_created stamp obj)).





End InvariantKept.

Section InvariantReached.
Import DataSource DataFileMethods DataSourceMethods.




End InvariantReached.

(** ** Where the body raises *)

Section RaisePoints.
Import DataSource DataFileMethods DataSourceMethods.

Lemma sync_files_eq env self root w :
  sync_files env self root w =
  match db_error env Select_files with
  | Some e => (Raise e, w)
  | None =>
  match refresh_known env root (datafiles self w) w with
  | (Raise e, w1) => (Raise e, w1)
  | (Return (upd, del), w1) =>
  match db_fails env Bulk_update upd with
  | Some e => (Raise e, w1)
  | None =>
  match db_fails env Delete del with
  | Some e => (Raise e, with_files (bulk_update upd (files w1)) w1)
  | None =>
  match _walk env self root with
  | Raise e => (Raise e, with_files (mid_table upd del (files w1)) w1)
  | Return walked =>
  match build_new env self root (elements (walked ∖ known_paths self w))
          (with_files (mid_table upd del (files w1)) w1) with
  | (Raise e, w2) => (Raise e, w2)
  | (Return news, w2) =>
  match db_fails env Bulk_create news with
  | Some e => (Raise e, w2)
  | None =>
  match bulk_create env news w2 with
  | (Return _, w3) => (Return (mkStaged upd del news), w3)
  | (Raise e, w3) => (Raise e, w3)
  end end end end end end end end.
Proof.
  unfold sync_files. rewrite bind_db.
  destruct (db_error env Select_files); [reflexivity|].
  unfold bind at 1. cbn [get]. unfold bind at 1.
  destruct (refresh_known env root (datafiles self w) w)
    as [[[upd del]|e1] w1]; [|reflexivity].
  rewrite bind_db_for. cbn [fst snd].
  destruct (db_fails env Bulk_update upd); [reflexivity|].
  unfold bind at 1. cbn [set_files modify fst snd].
  rewrite bind_db_for.
  destruct (db_fails env Delete del); [reflexivity|].
  unfold bind at 1. cbn [set_files modify files sources ticks events].
  unfold bind at 1. fold (mid_table upd del (files w1)).
  change (mkWorld (sources w1) (mid_table upd del (files w1)) (ticks w1)
            (events w1))
    with (with_files (mid_table upd del (files w1)) w1).
  destruct (_walk env self root) as [walked|e1]; [|reflexivity].
  cbn [ret]. unfold bind at 1. fold (known_paths self w).
  destruct (build_new _ _ _ _ _) as [[news|e1] w2]; [|reflexivity].
  rewrite bind_db_for.
  destruct (db_fails env Bulk_create news); [reflexivity|].
  unfold bind at 1.
  destruct (bulk_create env news w2) as [[rows|e1] w3]; reflexivity.
Qed.

Lemma refresh_known_prefix env root before df after e w :
  Forall (fun d => is_unreadable env root d = false) before ->
  open_rb env (file_path root df) = inl e ->
  e <> FileNotFoundError ->
  exists w', refresh_known env root (before ++ df :: after) w = (Raise e, w').
Proof.
  intros Hb Ho Hne. revert w.
  induction Hb as [|d before Hd _ IH]; intros w.
  - cbn [app refresh_known]. rewrite refresh_from_disk_eq, Ho.
    destruct e; try contradiction; eauto.
  - cbn [app refresh_known]. rewrite refresh_from_disk_eq.
    unfold is_unreadable in Hd.
    destruct (open_rb env (file_path root d)) as [e1|c].
    + destruct e1; try discriminate. unfold bind.
      destruct (IH w) as (w' & ->). eauto.
    + destruct (String.eqb _ _); unfold bind.
      * destruct (IH w) as (w' & ->). eauto.
      * destruct (IH (tick w)) as (w' & ->). eauto.
Qed.

Lemma refresh_known_total env root dfs w :
  Forall (fun d => is_unreadable env root d = false) dfs ->
  exists upd del w', refresh_known env root dfs w = (Return (upd, del), w').
Proof.
  intros Hb. revert w.
  induction Hb as [|d dfs Hd _ IH]; intros w.
  - cbn. eauto.
  - cbn [refresh_known]. rewrite refresh_from_disk_eq.
    unfold is_unreadable in Hd.
    destruct (open_rb env (file_path root d)) as [e1|c].
    + destruct e1; try discriminate. unfold bind.
      destruct (IH w) as (upd & del & w' & ->). cbn. eauto.
    + destruct (String.eqb _ _); unfold bind.
      * destruct (IH w) as (upd & del & w' & ->). cbn. eauto.
      * destruct (IH (tick w)) as (upd & del & w' & ->). cbn. eauto.
Qed.

Lemma db_fails_length {A B} env call (l : list A) (l' : list B) :
  length l = length l' -> db_fails env call l = db_fails env call l'.
Proof. destruct l, l'; try discriminate; reflexivity. Qed.

(** The lists staged are empty or not as the rows to update and to delete
    are. *)
Lemma staged_db_fails env root self w w0 upd del w1 :
  refresh_known env root (datafiles self w) w0 = (Return (upd, del), w1) ->
  db_fails env Bulk_update upd
  = db_fails env Bulk_update
      (filter (fun df => is_stale env root df = true) (datafiles self w))
  /\ db_fails env Delete del
     = db_fails env Delete
         (filter (fun df => is_missing env root df = true) (datafiles self w)).
Proof.
  intros Hk. apply refresh_known_returns in Hk as (_ & Hd & Hu & _). split.
  - apply db_fails_length. apply (f_equal length) in Hu.
    rewrite !length_fmap in Hu. exact Hu.
  - apply db_fails_length. rewrite Hd, length_fmap. reflexivity.
Qed.

Lemma build_new_cons env self root p rest w :
  build_new env self root (p :: rest) w =
  match open_rb env (Py.os_path_join root p) with
  | inl e => (Raise e, w)
  | inr content =>
      let df := refreshed env root (clock env (ticks w)) content
                  (DataFile.new (pk self) p) in
      match db_error env Validate with
      | Some e => (Raise e, tick w)
      | None =>
          if clean_fields df && source_exists df (tick w)
             && unique_source_path df (tick w)
          then match build_new env self root rest (tick w) with
               | (Return others, w2) => (Return (df :: others), w2)
               | (Raise e, w2) => (Raise e, w2)
               end
          else (Raise ValidationError, tick w)
      end
  end.
Proof.
  cbn [build_new]. unfold bind at 1. rewrite refresh_from_disk_eq.
  change (file_path root (DataFile.new (pk self) p))
    with (Py.os_path_join root p).
  destruct (open_rb env (Py.os_path_join root p)) as [e|content];
    [reflexivity|].
  change (DataFile.hash (DataFile.new (pk self) p)) with EmptyString.
  rewrite hexdigest_neq_empty. cbn [fst]. cbv zeta.
  unfold bind at 1, full_clean at 1, db_statement. unfold bind at 1.
  destruct (db_error env Validate); [reflexivity|]. cbn [ret].
  destruct (_ && _); [|reflexivity].
  unfold bind at 1.
  destruct (build_new env self root rest (tick w)) as [[others|e] w2];
    reflexivity.
Qed.

(** The new paths that pass are built one after the other, reading the
    clock and nothing else. *)
Lemma build_new_prefix env self root before rest wb :
  Forall (fun q =>
            exists content,
              open_rb env (Py.os_path_join root q) = inr content
              /\ db_error env Validate = None
              /\ clean_fields (refreshed env root 0 content
                                 (DataFile.new (pk self) q)) = true
              /\ source_exists (DataFile.new (pk self) q) wb = true
              /\ unique_source_path (DataFile.new (pk self) q) wb = true)
         before ->
  exists news w1,
    sources w1 = sources wb /\ files w1 = files wb
    /\ build_new env self root (before ++ rest) wb
       = match build_new env self root rest w1 with
         | (Return others, w2) => (Return (news ++ others), w2)
         | (Raise e, w2) => (Raise e, w2)
         end.
Proof.
  intros Hb. revert wb Hb.
  induction before as [|q before IH]; intros wb Hb.
  - exists [], wb. split; [reflexivity|]. split; [reflexivity|].
    cbn [app]. destruct (build_new env self root rest wb) as [[o|e] w2];
      reflexivity.
  - inversion Hb as [|? ? (c & Ho & Hv & Hc & Hse & Hu) Hb']; subst.
    destruct (IH (tick wb) Hb') as (news & w1 & Hs1 & Hf1 & Heq).
    exists (refreshed env root (clock env (ticks wb)) c
              (DataFile.new (pk self) q) :: news), w1.
    split; [exact Hs1|]. split; [exact Hf1|].
    cbn [app]. rewrite build_new_cons, Ho, Hv. cbv zeta.
    change (clean_fields (refreshed env root (clock env (ticks wb)) c
                            (DataFile.new (pk self) q)))
      with (clean_fields (refreshed env root 0 c (DataFile.new (pk self) q))).
    change (source_exists (refreshed env root (clock env (ticks wb)) c
                             (DataFile.new (pk self) q)) (tick wb))
      with (source_exists (DataFile.new (pk self) q) wb).
    change (unique_source_path (refreshed env root (clock env (ticks wb)) c
                                  (DataFile.new (pk self) q)) (tick wb))
      with (unique_source_path (DataFile.new (pk self) q) wb).
    rewrite Hc, Hse, Hu. cbn [andb]. rewrite Heq.
    destruct (build_new env self root rest w1) as [[o|e] w2]; reflexivity.
Qed.

(** No row left by the update and the deletion has a path that is new. *)
Lemma new_path_unique env root self w w0 upd del w1 wb p :
  refresh_known env root (datafiles self w) w0 = (Return (upd, del), w1) ->
  files wb = mid_table upd del (files w) ->
  p ∉ known_paths self w ->
  unique_source_path (DataFile.new (pk self) p) wb = true.
Proof.
  intros Hk Hf Hp. unfold unique_source_path. apply bool_decide_eq_true.
  intros k row Hl [Hs Hpath]. cbn in Hs, Hpath. apply Hp.
  rewrite Hf in Hl.
  pose proof (mid_table_lookup env root self w w0 upd del w1 k Hk) as H.
  destruct (files w !! k) as [row0|] eqn:Hl0; [|congruence].
  rewrite Hl in H. apply mid_row_facts in H as (Hs0 & Hp0 & _).
  apply known_paths_spec. exists k, row0.
  split; [exact Hl0|]. split; congruence.
Qed.

(** The body once the known records are dealt with. *)
Lemma tables_ok_run env self root w :
  tables_ok env self root w ->
  exists upd del w1,
    refresh_known env root (datafiles self w) (started self w)
    = (Return (upd, del), w1)
    /\ sources w1 = sources (started self w) /\ files w1 = files w
    /\ sync_files env (set_status SYNCING self) root (started self w)
       = match _walk env self root with
         | Raise e => (Raise e, with_files (mid_table upd del (files w)) w1)
         | Return walked =>
             match build_new env self root
                     (elements (walked ∖ known_paths self w))
                     (with_files (mid_table upd del (files w)) w1) with
             | (Raise e, w2) => (Raise e, w2)
             | (Return news, w2) =>
                 match db_fails env Bulk_create news with
                 | Some e => (Raise e, w2)
                 | None =>
                     match bulk_create env news w2 with
                     | (Return _, w3) => (Return (mkStaged upd del news), w3)
                     | (Raise e, w3) => (Raise e, w3)
                     end
                 end
             end
         end.
Proof.
  intros ((Hsel & Hread) & Hupd & Hdel).
  destruct (refresh_known_total env root _ (started self w) Hread)
    as (upd & del & w1 & Hk).
  pose proof (kt_refresh_known env root (datafiles self w) (started self w))
    as Hkt.
  rewrite Hk in Hkt. cbn [snd] in Hkt. destruct Hkt as (Hs1 & Hf1 & _).
  cbn [started files] in Hf1.
  destruct (staged_db_fails _ _ _ _ _ _ _ _ Hk) as [Hu Hd].
  exists upd, del, w1. split; [exact Hk|]. split; [exact Hs1|].
  split; [exact Hf1|].
  rewrite sync_files_eq, datafiles_started, known_paths_started, walk_status.
  rewrite Hsel, Hk, Hu, Hupd, Hd, Hdel, Hf1.
  destruct (_walk env self root) as [walked|e]; [|reflexivity].
  rewrite build_new_status. reflexivity.
Qed.

Lemma new_ok_build env self root w upd del w1 qs :
  refresh_known env root (datafiles self w) (started self w)
  = (Return (upd, del), w1) ->
  sources w1 = sources (started self w) ->
  Forall (new_ok env self root w) qs ->
  (forall q, q ∈ qs -> q ∉ known_paths self w) ->
  Forall (fun q =>
            exists content,
              open_rb env (Py.os_path_join root q) = inr content
              /\ db_error env Validate = None
              /\ clean_fields (refreshed env root 0 content
                                 (DataFile.new (pk self) q)) = true
              /\ source_exists (DataFile.new (pk self) q)
                   (with_files (mid_table upd del (files w)) w1) = true
              /\ unique_source_path (DataFile.new (pk self) q)
                   (with_files (mid_table upd del (files w)) w1) = true)
         qs.
Proof.
  intros Hk Hs1 Hok Hnew. apply Forall_forall. intros q Hq.
  rewrite Forall_forall in Hok.
  destruct (Hok q Hq) as (c & Ho & Hv & Hc & Hsrc).
  exists c. split; [exact Ho|]. split; [exact Hv|]. split; [exact Hc|]. split.
  - unfold source_exists. apply bool_decide_eq_true.
    cbn [with_files sources DataFile.new DataFile.source]. rewrite Hs1.
    cbn [started sources]. rewrite lookup_alter, decide_True by reflexivity.
    apply fmap_is_Some. exact Hsrc.
  - apply (new_path_unique env root self w (started self w) upd del w1);
      [exact Hk | reflexivity | apply Hnew; exact Hq].
Qed.

(** Each of the places raises its exception out of the body. *)
Lemma body_raises_sync_files env self w root e :
  body_raises env self w root e ->
  exists w',
    sync_files env (set_status SYNCING self) root (started self w)
    = (Raise e, w').
Proof.
  assert (Hsplit : forall walked before p after,
            elements (walked ∖ known_paths self w) = before ++ p :: after ->
            forall q, q ∈ before ++ p :: after -> q ∉ known_paths self w).
  { intros walked before p after Hel q Hq. rewrite <- Hel in Hq.
    apply elem_of_elements, elem_of_difference in Hq. apply Hq. }
  intros H.
  destruct H as [e Hsel
    | before df after e Hsel Hdf Hb Ho Hne
    | e [Hsel Hread] Hupd
    | e [Hsel Hread] Hupd Hdel
    | e Hok Hw
    | walked before p after e Hok Hw Hel Hb Ho
    | walked before p after content e Hok Hw Hel Hb Ho Hv
    | walked before p after content Hok Hw Hel Hb Ho Hv Hbad
    | walked e Hok Hw Hall Hbc].
  - rewrite sync_files_eq, Hsel. eauto.
  - rewrite sync_files_eq, datafiles_started, Hsel, Hdf.
    destruct (refresh_known_prefix env root before df after e
                (started self w) Hb Ho Hne) as (w' & ->). eauto.
  - rewrite sync_files_eq, datafiles_started, Hsel.
    destruct (refresh_known_total env root _ (started self w) Hread)
      as (upd & del & w1 & Hk).
    rewrite Hk. destruct (staged_db_fails _ _ _ _ _ _ _ _ Hk) as [-> _].
    rewrite Hupd. eauto.
  - rewrite sync_files_eq, datafiles_started, Hsel.
    destruct (refresh_known_total env root _ (started self w) Hread)
      as (upd & del & w1 & Hk).
    rewrite Hk. destruct (staged_db_fails _ _ _ _ _ _ _ _ Hk) as [-> ->].
    rewrite Hupd, Hdel. eauto.
  - destruct (tables_ok_run _ _ _ _ Hok) as (upd & del & w1 & _ & _ & _ & ->).
    rewrite Hw. eauto.
  - destruct (tables_ok_run _ _ _ _ Hok)
      as (upd & del & w1 & Hk & Hs1 & _ & ->).
    rewrite Hw, Hel.
    assert (Hbk : forall q, q ∈ before -> q ∉ known_paths self w).
    { intros q Hq. apply (Hsplit _ _ _ _ Hel). apply elem_of_app. auto. }
    destruct (build_new_prefix env self root before (p :: after) _
                (new_ok_build _ _ _ _ _ _ _ _ Hk Hs1 Hb Hbk))
      as (news & w2 & _ & _ & ->).
    rewrite build_new_cons, Ho. eauto.
  - destruct (tables_ok_run _ _ _ _ Hok)
      as (upd & del & w1 & Hk & Hs1 & _ & ->).
    rewrite Hw, Hel.
    assert (Hbk : forall q, q ∈ before -> q ∉ known_paths self w).
    { intros q Hq. apply (Hsplit _ _ _ _ Hel). apply elem_of_app. auto. }
    destruct (build_new_prefix env self root before (p :: after) _
                (new_ok_build _ _ _ _ _ _ _ _ Hk Hs1 Hb Hbk))
      as (news & w2 & _ & _ & ->).
    rewrite build_new_cons, Ho. cbv zeta. rewrite Hv. eauto.
  - destruct (tables_ok_run _ _ _ _ Hok)
      as (upd & del & w1 & Hk & Hs1 & _ & ->).
    rewrite Hw, Hel.
    assert (Hbk : forall q, q ∈ before -> q ∉ known_paths self w).
    { intros q Hq. apply (Hsplit _ _ _ _ Hel). apply elem_of_app. auto. }
    destruct (build_new_prefix env self root before (p :: after) _
                (new_ok_build _ _ _ _ _ _ _ _ Hk Hs1 Hb Hbk))
      as (news & w2 & Hs2 & _ & ->).
    rewrite build_new_cons, Ho. cbv zeta. rewrite Hv.
    assert (Hfail :
      clean_fields (refreshed env root (clock env (ticks w2)) content
                      (DataFile.new (pk self) p))
      && source_exists (refreshed env root (clock env (ticks w2)) content
                          (DataFile.new (pk self) p)) (tick w2)
      = false).
    { destruct Hbad as [Hc | Hnone].
      - change (clean_fields (refreshed env root (clock env (ticks w2)) content
                                (DataFile.new (pk self) p)))
          with (clean_fields (refreshed env root 0 content
                                (DataFile.new (pk self) p))).
        rewrite Hc. reflexivity.
      - apply andb_false_iff. right. unfold source_exists.
        apply bool_decide_eq_false. cbn [tick sources]. rewrite Hs2.
        cbn [with_files sources]. rewrite Hs1. cbn [started sources].
        cbn [refreshed DataFile.set_file_attrs DataFile.source DataFile.new].
        rewrite lookup_alter, decide_True, Hnone by reflexivity.
        cbn. intros [x Hx]. discriminate. }
    rewrite Hfail. cbn [andb]. eauto.
  - destruct (tables_ok_run _ _ _ _ Hok)
      as (upd & del & w1 & Hk & Hs1 & _ & ->).
    rewrite Hw.
    assert (Hnk : forall q, q ∈ elements (walked ∖ known_paths self w) ->
                            q ∉ known_paths self w).
    { intros q Hq. apply elem_of_elements, elem_of_difference in Hq.
      apply Hq. }
    destruct (build_new_prefix env self root _ [] _
                (new_ok_build _ _ _ _ _ _ _ _ Hk Hs1 Hall Hnk))
      as (news & w2 & _ & _ & Heq).
    rewrite app_nil_r in Heq. rewrite Heq. cbn [build_new ret].
    rewrite app_nil_r.
    assert (Hlen : length news
                   = length (elements (walked ∖ known_paths self w))).
    { pose proof Heq as Heq'. cbn [build_new ret] in Heq'.
      rewrite app_nil_r in Heq'. apply build_new_returns in Heq'.
      symmetry. exact (Forall2_length _ _ _ Heq'). }
    rewrite (db_fails_length env Bulk_create news _ Hlen), Hbc. eauto.
Qed.

End RaisePoints.

Section ExceptionClaims.
Import DataSource DataFileMethods DataSourceMethods.

(** C2, as the code has it: when the run has passed the readiness check,
    the receivers of [pre_sync] have returned and the status syncing is
    stored, an exception that arises before the end of the body comes out
    of [sync] as it is and leaves the status syncing, in the instance and
    in the stored row, with [last_synced] as it was and no [post_sync]
    sent.  This holds for the exception of the backend's fetch and for
    each place of the body listed by [body_raises]: the query for the known
    records, an error other than a missing file on a known record, the
    update or the deletion of the staged rows, the walk, opening the file
    of a new path (a missing file included), the validation of a new
    record, and the creation of the new rows.  ([FileNotFoundError] on a
    known record is caught and stages a deletion.)  Whatever the outcome, no
    run sets the status to failed. *)
Theorem C2_uncaught_exceptions_leave_syncing env self w :
  ready_for_sync self = true ->
  receivers env (pre_sync (pk self)) = None ->
  db_error env Update_status = None ->
  (forall e,
     get_backend env self = inl e \/
     (exists root, get_backend env self = inr root
                   /\ body_raises env self w root e) ->
     exists self' w',
       sync env self w = (Raise e, self', w')
       /\ status self' = SYNCING
       /\ last_synced self' = last_synced self
       /\ sources w' = alter (set_status SYNCING) (pk self) (sources w)
       /\ events w' = events w ++ [pre_sync (pk self)])
  /\ (forall r self' w',
        sync env self w = (r, self', w') ->
        status self' <> FAILED
        /\ forall row, sources w' !! pk self = Some row -> status row <> FAILED).
Proof.
  intros Hr Hpre Hus. split.
  - intros e Hraise. rewrite sync_unfold, (sync_staged_ready _ _ _ Hr).
    rewrite Hpre, Hus.
    destruct Hraise as [Hb | (root & Hb & Hbody)]; rewrite Hb.
    + exists (set_status SYNCING self), (started self w). auto.
    + destruct (body_raises_sync_files _ _ _ _ _ Hbody) as (w' & Hs).
      pose proof (kse_sync_files env (set_status SYNCING self) root
                    (started self w)) as [Hsrc Hev].
      rewrite Hs in Hsrc, Hev |- *. cbn [fst snd] in *.
      exists (set_status SYNCING self), w'. auto.
  - intros r self' w' Hs. rewrite sync_unfold in Hs.
    pose proof (sync_ready_outcome env self w Hr) as Hout.
    destruct (sync_staged env self w) as [[[st|e1] s] w1];
      cbn in Hs; injection Hs as _ <- <-.
    + destruct Hout as (w2 & -> & -> & _). split; [discriminate|].
      intros row. rewrite lookup_alter, decide_True by reflexivity.
      destruct (alter _ _ _ !! _); [|discriminate].
      cbn. intros [= <-]. discriminate.
    + destruct Hout as [(_ & _ & Hx) | [(_ & _ & Hx) | [(-> & -> & _)
        | [(w2 & -> & -> & _) | (w2 & -> & -> & _)]]]];
        try congruence.
      * split; [discriminate|].
        intros row. rewrite lookup_alter, decide_True by reflexivity.
        destruct (sources w !! _); [|discriminate].
        cbn. intros [= <-]. discriminate.
      * split; [discriminate|].
        intros row. rewrite lookup_alter, decide_True by reflexivity.
        destruct (sources w !! _); [|discriminate].
        cbn. intros [= <-]. discriminate.
      * split; [discriminate|].
        intros row. rewrite lookup_alter, decide_True by reflexivity.
        destruct (alter _ _ _ !! _); [|discriminate].
        cbn. intros [= <-]. discriminate.
Qed.

End ExceptionClaims.

Section StoredRows.
Import DataSource DataFileMethods DataSourceMethods.


End StoredRows.

(** ** The walk over the scenario tree *)

Section WalkScenario.
Import DataSource DataSourceMethods Py.

Lemma prefix_nil s : String.prefix EmptyString s = true.
Proof. destruct s; reflexivity. Qed.

Lemma prefix_app sep a b :
  String.prefix sep a = true -> String.prefix sep (a +:+ b) = true.
Proof.
  revert a. induction sep as [|c sep IH]; intros a H; [apply prefix_nil|].
  destruct a as [|d a]; [discriminate|].
  change (String d a +:+ b) with (String d (a +:+ b)).
  cbn [String.prefix] in *.
  destruct (ascii_dec c d); [apply IH; exact H | discriminate].
Qed.

Lemma prefix_self_app sep rest : String.prefix sep (sep +:+ rest) = true.
Proof.
  induction sep as [|c sep IH]; [apply prefix_nil|].
  change (String c sep +:+ rest) with (String c (sep +:+ rest)).
  cbn [String.prefix].
  destruct (ascii_dec c c); [exact IH | contradiction].
Qed.

Lemma occurs_app_l sep a b : occurs sep a = true -> occurs sep (a +:+ b) = true.
Proof.
  induction a as [|d a IH]; intros H.
  - cbn in H. rewrite orb_false_r in H.
    destruct sep; [|discriminate]. destruct b; reflexivity.
  - change (occurs sep (String d a +:+ b))
      with (String.prefix sep (String d a +:+ b) || occurs sep (a +:+ b)).
    cbn [occurs] in H. apply orb_true_iff in H as [H|H].
    + rewrite (prefix_app _ _ _ H). reflexivity.
    + rewrite (IH H). apply orb_true_r.
Qed.

Lemma occurs_app_r sep a b : occurs sep b = true -> occurs sep (a +:+ b) = true.
Proof.
  intros H. induction a as [|d a IH]; [exact H|].
  change (occurs sep (String d a +:+ b))
    with (String.prefix sep (String d a +:+ b) || occurs sep (a +:+ b)).
  rewrite IH. apply orb_true_r.
Qed.

Lemma append_nil_r s : s +:+ EmptyString = s.
Proof.
  induction s as [|c s IH]; [reflexivity|].
  change (String c s +:+ EmptyString) with (String c (s +:+ EmptyString)).
  rewrite IH. reflexivity.
Qed.

Lemma append_assoc a b c : (a +:+ b) +:+ c = a +:+ (b +:+ c).
Proof.
  induction a as [|d a IH]; [reflexivity|].
  change ((String d a +:+ b) +:+ c) with (String d ((a +:+ b) +:+ c)).
  rewrite IH. reflexivity.
Qed.

Lemma split_scan_skip sep t rest cur :
  split_scan sep (t +:+ rest) (String.length t) cur = split_scan sep rest O cur.
Proof. induction t as [|a t IH]; [reflexivity|]. exact IH. Qed.

Lemma split_scan_no_occurrence sep s cur :
  occurs sep s = false -> split_scan sep s O cur = [cur +:+ s].
Proof.
  revert cur. induction s as [|a s IH]; intros cur H.
  - cbn. rewrite append_nil_r. reflexivity.
  - cbn [occurs] in H. apply orb_false_iff in H as [Hp Ho].
    cbn [split_scan]. rewrite Hp, (IH _ Ho). unfold snoc.
    rewrite append_assoc. reflexivity.
Qed.

(** When the root does not occur again in what follows it, the second piece
    of [path.split(root)] is what follows it. *)
Lemma split_root_piece root rel :
  root <> EmptyString -> occurs root rel = false ->
  Py.split (root +:+ rel) root = Some [EmptyString; rel].
Proof.
  intros Hne Ho. destruct root as [|c root]; [contradiction|].
  unfold Py.split. f_equal.
  change (String c root +:+ rel) with (String c (root +:+ rel)).
  cbn [split_scan]. change (String c (root +:+ rel)) with (String c root +:+ rel).
  rewrite prefix_self_app.
  replace (String.length (String c root) - 1)%nat with (String.length root)
    by (cbn [String.length]; lia).
  rewrite split_scan_skip, (split_scan_no_occurrence _ _ _ Ho). reflexivity.
Qed.

Lemma endswith_char_app s t c :
  t <> EmptyString -> endswith_char (s +:+ t) c = endswith_char t c.
Proof.
  intros Hne. induction s as [|a s IH]; [reflexivity|].
  change (String a s +:+ t) with (String a (s +:+ t)).
  destruct (s +:+ t) as [|b u] eqn:E.
  - exfalso. destruct s; [exact (Hne E) | discriminate].
  - exact IH.
Qed.

(** The two directories below the root, as [os.walk] names them. *)
Lemma scenario_dirs root :
  root <> EmptyString ->
  exists rel1 rel2,
    os_path_join root "sub" = root +:+ rel1
    /\ os_path_join (os_path_join root "sub") ".hidden" = root +:+ rel2
    /\ ((rel1 = "sub" /\ rel2 = "sub/.hidden")
        \/ (rel1 = "/sub" /\ rel2 = "/sub/.hidden")).
Proof.
  intros Hne. destruct root as [|c root]; [contradiction|].
  unfold os_path_join. cbn [startswith String.prefix].
  change (match ascii_dec "/" "s" with left _ => _ | right _ => false end)
    with false.
  change (match ascii_dec "/" "." with left _ => _ | right _ => false end)
    with false.
  cbv iota.
  destruct (endswith_char (String c root) "/") eqn:He.
  - exists "sub", "sub/.hidden". split; [reflexivity|]. split; [|auto].
    change (String c root +:+ "sub") with (String c (root +:+ "sub")).
    change (String c (root +:+ "sub")) with (String c root +:+ "sub").
    rewrite endswith_char_app by discriminate. cbn [endswith_char].
    change (Ascii.eqb "b" "/") with false. cbv iota.
    destruct (String c root +:+ "sub") eqn:E; [discriminate|]. rewrite <- E.
    rewrite append_assoc. reflexivity.
  - exists "/sub", "/sub/.hidden". split; [reflexivity|]. split; [|auto].
    destruct (String c root +:+ "/" +:+ "sub") eqn:E; [discriminate|].
    rewrite <- E.
    rewrite endswith_char_app by discriminate.
    rewrite endswith_char_app by discriminate. cbn [endswith_char].
    change (Ascii.eqb "b" "/") with false. cbv iota.
    rewrite !append_assoc. reflexivity.
Qed.

End WalkScenario.

Section WalkClaim.
Import DataSource DataSourceMethods Py.

Lemma scenario_walk_tree root ca cb cc cd :
  os_walk_tree root (scenario ca cb cc cd) =
  [(root, ["sub"], ["a.txt"; "b.tmp"; ".cache"]);
   (os_path_join root "sub", [".hidden"], []);
   (os_path_join (os_path_join root "sub") ".hidden", [], ["c.txt"])].
Proof. reflexivity. Qed.

Lemma walk_step self root rel dirs names rest paths :
  root <> EmptyString -> occurs root rel = false ->
  startswith (lstrip "/" rel) "." = false ->
  walk_loop self root ((root +:+ rel, dirs, names) :: rest) paths =
  walk_loop self root rest (add_files self (lstrip "/" rel) names paths).
Proof.
  intros Hne Ho Hdot. cbn [walk_loop]. rewrite (split_root_piece _ _ Hne Ho).
  cbn [lookup list_lookup]. rewrite Hdot. reflexivity.
Qed.

Lemma occurs_empty root : root <> EmptyString -> occurs root EmptyString = false.
Proof. destruct root; [contradiction | reflexivity]. Qed.

Lemma occurs_within root a b c :
  occurs root (a +:+ b +:+ c) = false -> occurs root b = false.
Proof.
  intros H. destruct (occurs root b) eqn:E; [|reflexivity].
  rewrite <- H. symmetry. apply occurs_app_r, occurs_app_l, E.
Qed.

(** C1, as the code has it: with the ignore rules [.cache] and [*.tmp] and
    the files [a.txt], [b.tmp], [.cache] and [sub/.hidden/c.txt] under a
    root whose name is not empty and does not occur again inside
    [/sub/.hidden], the walk returns [a.txt] and [sub/.hidden/c.txt]:
    [b.tmp] is ignored by the glob and [.cache] as a dot file, while
    [sub/.hidden] is walked, its relative path starting with [sub]. *)
Theorem C1_walk_scenario env self root ca cb cc cd :
  ignore_rules self = ".cache" +:+ String "010" "*.tmp" ->
  os_walk env root = os_walk_tree root (scenario ca cb cc cd) ->
  root <> EmptyString ->
  occurs root "/sub/.hidden" = false ->
  _walk env self root = Return {[ "a.txt"; "sub/.hidden/c.txt" ]}
  /\ _ignore self "b.tmp" = true
  /\ _ignore self ".cache" = true
  /\ startswith "sub/.hidden" "." = false.
Proof.
  intros Hrules Hwalk Hne Hocc.
  set (src := Example.source NEW true Example.scenario_rules).
  assert (Hsrc : ignore_rules self = ignore_rules src) by exact Hrules.
  split; [|split; [|split]].
  - rewrite (walk_ext env self src root Hsrc). unfold _walk.
    rewrite Hwalk, scenario_walk_tree.
    destruct (scenario_dirs root Hne) as (rel1 & rel2 & -> & -> & Hrel).
    pose proof (walk_step src root EmptyString) as Hroot.
    rewrite append_nil_r in Hroot.
    rewrite (Hroot _ _ _ _ Hne (occurs_empty _ Hne) eq_refl). clear Hroot.
    destruct Hrel as [[-> ->] | [-> ->]].
    + rewrite (walk_step src root "sub" _ _ _ _ Hne
                 (occurs_within root "/" "sub" "/.hidden" Hocc) eq_refl).
      rewrite (walk_step src root "sub/.hidden" _ _ _ _ Hne
                 (occurs_within root "/" "sub/.hidden" EmptyString Hocc)
                 eq_refl).
      cbn [walk_loop]. vm_compute. reflexivity.
    + rewrite (walk_step src root "/sub" _ _ _ _ Hne
                 (occurs_within root EmptyString "/sub" "/.hidden" Hocc)
                 eq_refl).
      rewrite (walk_step src root "/sub/.hidden" _ _ _ _ Hne
                 (occurs_within root EmptyString "/sub/.hidden" EmptyString
                    Hocc) eq_refl).
      cbn [walk_loop]. vm_compute. reflexivity.
  - rewrite (ignore_ext self src _ Hsrc). reflexivity.
  - rewrite (ignore_ext self src _ Hsrc). reflexivity.
  - reflexivity.
Qed.

End WalkClaim.

(** ** The claims at concrete inputs *)

Section Instances.
Import DataSource DataFileMethods DataSourceMethods Example.

Lemma ex_run_returns :
  sync_staged ex_env ex_source ex_world = (Return ex_staged, ex_self1, ex_world1).
Proof. vm_compute. reflexivity. Qed.

Lemma ex_sync_returns :
  sync ex_env ex_source ex_world = (Return tt, ex_self1, ex_world1).
Proof. vm_compute. reflexivity. Qed.

(** C1 is false as stated: in the scenario the walk also returns
    [sub/.hidden/c.txt], so its result is not the set of [a.txt] alone. *)
Lemma C1_counterexample :
  ignore_rules ex_source = ".cache" +:+ String "010" "*.tmp"
  /\ os_walk ex_env root = os_walk_tree root scenario_tree
  /\ exists walked,
       _walk ex_env ex_source root = Return walked
       /\ "sub/.hidden/c.txt" ∈ walked
       /\ walked <> {[ "a.txt" ]}.
Proof.
  split; [reflexivity|]. split; [reflexivity|].
  exists {[ "a.txt"; "sub/.hidden/c.txt" ]}.
  split; [vm_compute; reflexivity|].
  assert (Hin : "sub/.hidden/c.txt" ∈ ({[ "a.txt"; "sub/.hidden/c.txt" ]} : gset string)).
  { apply elem_of_union_r, elem_of_singleton. reflexivity. }
  split; [exact Hin|].
  intros Heq. rewrite Heq in Hin. apply elem_of_singleton in Hin. discriminate.
Qed.

Lemma C1_witness :
  ignore_rules ex_source = ".cache" +:+ String "010" "*.tmp"
  /\ os_walk ex_env root
     = os_walk_tree root
         (scenario (bytes_of "alpha") (bytes_of "beta") (bytes_of "gamma")
            (bytes_of "key: value"))
  /\ root <> EmptyString
  /\ occurs root "/sub/.hidden" = false
  /\ _walk ex_env ex_source root = Return {[ "a.txt"; "sub/.hidden/c.txt" ]}.
Proof.
  assert (H1 : ignore_rules ex_source = ".cache" +:+ String "010" "*.tmp")
    by reflexivity.
  assert (H2 : os_walk ex_env root
     = os_walk_tree root
         (scenario (bytes_of "alpha") (bytes_of "beta") (bytes_of "gamma")
            (bytes_of "key: value"))) by reflexivity.
  assert (H3 : root <> EmptyString) by discriminate.
  assert (H4 : occurs root "/sub/.hidden" = false) by reflexivity.
  split; [exact H1|]. split; [exact H2|]. split; [exact H3|].
  split; [exact H4|].
  exact (proj1 (C1_walk_scenario ex_env ex_source root _ _ _ _ H1 H2 H3 H4)).
Defined.

(** C2 is false as stated: here [refresh_from_disk] raises
    [FileNotFoundError] in the loop over the known records, after the
    status was set to syncing, and yet [sync] returns and the status, in
    the instance and in the stored row, is completed. *)
Lemma C2_counterexample :
  ready_for_sync gone_source = true
  /\ DataFile.set_pk (Some 7) (stale_row 7 "gone.txt")
     ∈ datafiles gone_source gone_world
  /\ (refresh_from_disk gone_env
        (DataFile.set_pk (Some 7) (stale_row 7 "gone.txt")) root
        (started gone_source gone_world)).1
     = Raise FileNotFoundError
  /\ (sync gone_env gone_source gone_world).1.1 = Return tt
  /\ status (sync gone_env gone_source gone_world).1.2 = COMPLETED
  /\ status <$> (sources (sync gone_env gone_source gone_world).2 !! 1)
     = Some COMPLETED.
Proof.
  split; [reflexivity|]. split.
  { apply elem_of_datafiles. exists 7, (stale_row 7 "gone.txt").
    split; [vm_compute; reflexivity|]. split; reflexivity. }
  split; [vm_compute; reflexivity|].
  split; [vm_compute; reflexivity|].
  split; vm_compute; reflexivity.
Qed.

Lemma C2_witness :
  ready_for_sync gone_source = true
  /\ receivers link_env (pre_sync (pk gone_source)) = None
  /\ db_error link_env Update_status = None
  /\ get_backend link_env gone_source = inr root
  /\ body_raises link_env gone_source (world gone_source []) root
       FileNotFoundError
  /\ exists self' w',
       sync link_env gone_source (world gone_source [])
       = (Raise FileNotFoundError, self', w')
       /\ status self' = SYNCING
       /\ last_synced self' = last_synced gone_source
       /\ sources w'
          = alter (set_status SYNCING) (pk gone_source)
              (sources (world gone_source []))
       /\ events w'
          = events (world gone_source []) ++ [pre_sync (pk gone_source)].
Proof.
  assert (Hr : ready_for_sync gone_source = true) by reflexivity.
  assert (Hb : get_backend link_env gone_source = inr root) by reflexivity.
  assert (Hnone : datafiles gone_source (world gone_source []) = [])
    by (vm_compute; reflexivity).
  assert (Hbody : body_raises link_env gone_source (world gone_source [])
                    root FileNotFoundError).
  { apply (raises_open _ _ _ _ {[ "x.cfg" ]} [] "x.cfg" []).
    - unfold tables_ok, known_ok. rewrite Hnone.
      repeat split; try reflexivity. constructor.
    - vm_compute. reflexivity.
    - vm_compute. reflexivity.
    - constructor.
    - vm_compute. reflexivity. }
  split; [exact Hr|]. split; [reflexivity|]. split; [reflexivity|].
  split; [exact Hb|]. split; [exact Hbody|].
  exact (proj1 (C2_uncaught_exceptions_leave_syncing link_env gone_source
                  (world gone_source []) Hr eq_refl eq_refl)
           FileNotFoundError (or_intror (ex_intro _ root (conj Hb Hbody)))).
Defined.

(** C3 is false as stated: a file is synchronised and then becomes a
    dangling link.  The next run returns (the row is staged for deletion,
    and the path, being known, is not new); the tree is the same for the
    run after it, which takes the path for new, fails to open it and
    raises, leaving [last_synced] as the run before set it. *)
Lemma C3_counterexample :
  link_run0.1.1 = Return tt
  /\ reachable link_run0.2
  /\ os_walk link_env root = [(root, [], ["x.cfg"])]
  /\ open_rb link_env (Py.os_path_join root "x.cfg") = inl FileNotFoundError
  /\ link_run1.1.1 = Return tt
  /\ link_run2.1.1 = Raise FileNotFoundError
  /\ last_synced link_run2.1.2 = last_synced link_run1.1.2
  /\ status link_run2.1.2 = SYNCING.
Proof.
  split; [vm_compute; reflexivity|]. split.
  { apply reach_sync; [exact I|]. apply reach_empty. reflexivity. }
  repeat split; vm_compute; reflexivity.
Qed.

Lemma C3_witness :
  sync_staged ex_env ex_source ex_world = (Return ex_staged, ex_self1, ex_world1)
  /\ walk_found ex_env ex_source = true
  /\ exists self2 w2,
       sync_staged ex_env ex_self1 ex_world1
       = (Return (mkStaged [] [] []), self2, w2)
       /\ files w2 = files ex_world1
       /\ last_synced self2 = Some (clock ex_env (ticks ex_world1)).
Proof.
  assert (H1 : walk_found ex_env ex_source = true) by (vm_compute; reflexivity).
  split; [exact ex_run_returns|]. split; [exact H1|].
  destruct (C3_sync_twice_stages_nothing ex_env ex_source ex_world ex_staged
              ex_self1 ex_world1 ex_run_returns H1)
    as (self2 & w2 & Hs & _ & Hf & _ & Hl & _).
  exists self2, w2. auto.
Defined.

Lemma C7_witness :
  sync_staged ex_env ex_source ex_world = (Return ex_staged, ex_self1, ex_world1)
  /\ exists walked,
       _walk ex_env ex_source root = Return walked
       /\ DataFile.path <$> new_datafiles ex_staged
          = elements (walked ∖ known_paths ex_source ex_world).
Proof.
  split; [exact ex_run_returns|].
  destruct (C7_new_records_are_walked_minus_known ex_env ex_source ex_world
              ex_staged ex_self1 ex_world1 ex_run_returns)
    as (lp & walked & rows & Hb & Hw & Hp & _).
  exists walked. split; [|exact Hp].
  change (get_backend ex_env ex_source) with (@inr exn string root) in Hb.
  injection Hb as <-. exact Hw.
Defined.






Lemma updated_row_stored : files ex_world1 !! 8 = Some updated_row.
Proof. vm_compute. reflexivity. Qed.

Lemma C9_witness :
  sync_staged ex_env ex_source ex_world = (Return ex_staged, ex_self1, ex_world1)
  /\ get_backend ex_env ex_source = inr root
  /\ files ex_world1 !! 8 = Some updated_row
  /\ DataFile.source updated_row = pk ex_source
  /\ Some 8 ∈ DataFile.pk <$> updated_files ex_staged
  /\ open_rb ex_env (file_path root updated_row) = inr (bytes_of "alpha")
  /\ ascii_decode (bytes_of "alpha") = Some "alpha"
  /\ get_data ascii_decode load_text updated_row = Return "alpha".
Proof.
  assert (H2 : get_backend ex_env ex_source = inr root) by reflexivity.
  assert (H4 : DataFile.source updated_row = pk ex_source)
    by (vm_compute; reflexivity).
  assert (H5 : Some 8 ∈ DataFile.pk <$> updated_files ex_staged).
  { apply list_elem_of_fmap. exists updated_row.
    split; [vm_compute; reflexivity|].
    replace (updated_files ex_staged) with [updated_row]
      by (vm_compute; reflexivity).
    left. }
  assert (H6 : open_rb ex_env (file_path root updated_row)
               = inr (bytes_of "alpha")) by (vm_compute; reflexivity).
  assert (H7 : ascii_decode (bytes_of "alpha") = Some "alpha")
    by (vm_compute; reflexivity).
  split; [exact ex_run_returns|]. split; [exact H2|].
  split; [exact updated_row_stored|]. split; [exact H4|].
  split; [exact H5|]. split; [exact H6|]. split; [exact H7|].
  exact (proj2 (C9_get_data_round_trip ascii_decode load_text ex_env ex_source
                  ex_world ex_staged ex_self1 ex_world1 root 8 updated_row
                  (bytes_of "alpha") "alpha" ex_run_returns H2
                  updated_row_stored H4 (or_introl H5) H6 H7)).
Defined.

Lemma C10_witness :
  sync ex_env ex_source ex_world = (Return tt, ex_self1, ex_world1)
  /\ name ex_self1 = name ex_source
  /\ enabled ex_self1 = enabled ex_source
  /\ ignore_rules ex_self1 = ignore_rules ex_source
  /\ (forall k row, DataFile.source row <> pk ex_source ->
        files ex_world1 !! k = Some row <-> files ex_world !! k = Some row).
Proof.
  split; [exact ex_sync_returns|].
  destruct (C10_sync_frame ex_env ex_source ex_world ex_self1 ex_world1
              ex_sync_returns)
    as ((_ & Hn & _ & _ & He & Hi & _) & _ & _ & Hf).
  split; [exact Hn|]. split; [exact He|]. split; [exact Hi | exact Hf].
Defined.

End Instances.

(** ** More on runs of [sync] *)

Section SyncOutcome.
Import DataSource DataFileMethods DataSourceMethods.

(** X1: after a run that returns, every stored row of the source names a
    file that opens under the replica root and has the row's hash as its
    SHA-256 hex digest. *)
Theorem sync_rows_agree_with_disk env self w self' w' :
  sync env self w = (Return tt, self', w') ->
  exists local_path,
    get_backend env self = inr local_path
    /\ forall k row,
         files w' !! k = Some row ->
         DataFile.source row = pk self ->
         exists content,
           open_rb env (file_path local_path row) = inr content
           /\ DataFile.hash row = Sha256.hexdigest content.
Proof.
  intros H. apply sync_returns_staged in H as (staged & H).
  apply sync_returns_body in H as (Hr & lp & wb & Hb & Hs & -> & ->).
  exists lp. split; [exact Hb|]. intros k row Hl Hsrc.
  exact (sync_files_in_sync _ _ _ _ _ _ Hs k row Hl Hsrc).
Qed.

(** X2: after a run that returns, the paths stored for the source are the
    paths known before whose file is not missing, together with the walked
    paths that were not known. *)
Theorem sync_known_paths_after env self w self' w' :
  sync env self w = (Return tt, self', w') ->
  exists local_path walked,
    get_backend env self = inr local_path
    /\ _walk env self local_path = Return walked
    /\ forall p,
         p ∈ known_paths self w' <->
         (p ∈ known_paths self w
          /\ open_rb env (Py.os_path_join local_path p)
             <> inl FileNotFoundError)
         \/ (p ∈ walked /\ p ∉ known_paths self w).
Proof.
  intros H. apply sync_returns_staged in H as (staged & H).
  apply sync_returns_body in H as (Hr & lp & wb & Hb & Hs & -> & ->).
  destruct (sync_files_table _ _ _ _ _ _ Hs)
    as (walked & rows & Hw & Hnew & Hins & Hmid & Hkeep & Hcases & Hrows & _).
  cbn [started files] in Hmid, Hkeep, Hcases, Hrows.
  rewrite walk_status in Hw. rewrite known_paths_started in Hnew.
  exists lp, walked. split; [exact Hb|]. split; [exact Hw|].
  intros p. rewrite (known_paths_spec self (finished env self wb)).
  cbn [finished files]. split.
  - intros (k & row & Hl & Hsrc & Hpath).
    destruct (Hcases k row Hl) as [Hm | (_ & Hin & _)].
    + left. specialize (Hmid k).
      destruct (files w !! k) as [row0|] eqn:Hl0; [|congruence].
      rewrite Hm in Hmid.
      pose proof (mid_row_facts _ _ _ _ _ Hmid) as (Hs0 & Hp0 & _).
      split.
      * apply known_paths_spec. exists k, row0.
        split; [exact Hl0|]. split; congruence.
      * unfold mid_row in Hmid.
        rewrite decide_True in Hmid by (cbn; congruence).
        assert (Hfp : file_path lp row0 = Py.os_path_join lp p)
          by (unfold file_path; congruence).
        rewrite Hfp in Hmid.
        destruct (open_rb env (Py.os_path_join lp p)) as [e|c];
          [destruct Hmid; discriminate | discriminate].
    + right.
      destruct (Forall2_right_witness _ _ _ _ Hins Hin) as (obj & Hobj & Hio).
      destruct (Forall2_right_witness _ _ _ _ Hnew Hobj) as (q & Hq & Hnf).
      destruct (new_row_in_sync _ _ _ _ _ _ _ Hnf Hio) as (_ & Hpq & _).
      apply elem_of_elements, elem_of_difference in Hq. congruence.
  - intros [[Hk Hopen] | [Hwp Hnk]].
    + apply known_paths_spec in Hk as (k & row0 & Hl0 & Hsrc & Hpath).
      specialize (Hmid k). rewrite Hl0 in Hmid. unfold mid_row in Hmid.
      rewrite decide_True in Hmid by exact Hsrc.
      assert (Hfp : file_path lp row0 = Py.os_path_join lp p)
        by (unfold file_path; congruence).
      rewrite Hfp in Hmid.
      destruct (open_rb env (Py.os_path_join lp p)) as [e|c].
      * destruct Hmid as [-> _]. contradiction.
      * destruct (String.eqb _ _).
        -- exists k, row0. auto.
        -- destruct Hmid as (t & Hm). exists k, (refreshed env lp t c row0).
           split; [apply Hkeep; exact Hm | auto].
    + assert (Hin : p ∈ elements (walked ∖ known_paths self w))
        by (apply elem_of_elements, elem_of_difference; auto).
      destruct (Forall2_left_witness _ _ _ _ Hnew Hin) as (obj & Hobj & Hp1).
      destruct (Forall2_left_witness _ _ _ _ Hins Hobj) as (row & Hrow & Hp2).
      destruct (Hrows row Hrow) as (k & _ & _ & Hl).
      destruct (new_row_in_sync _ _ _ _ _ _ _ Hp1 Hp2) as (Hsrc & Hpath & _).
      exists k, row. auto.
Qed.

(** X3: in a run that returns, a stored row of the source whose file opens
    is left exactly as it was when the digest of the file is its hash, and
    otherwise has its four file attributes replaced by those of the file
    while key, creation stamp, source and path stay; and no row of the
    source keeps the path of a missing file. *)
Theorem sync_effect_on_known_row env self w self' w' local_path k row0 :
  sync env self w = (Return tt, self', w') ->
  get_backend env self = inr local_path ->
  files w !! k = Some row0 ->
  DataFile.source row0 = pk self ->
  match open_rb env (file_path local_path row0) with
  | inr content =>
      if String.eqb (Sha256.hexdigest content) (DataFile.hash row0)
      then files w' !! k = Some row0
      else exists stamp, files w' !! k = Some (refreshed env local_path stamp content row0)
  | inl _ =>
      forall k' row',
        files w' !! k' = Some row' -> DataFile.source row' = pk self ->
        DataFile.path row' <> DataFile.path row0
  end.
Proof.
  intros H Hb Hl0 Hsrc. apply sync_returns_staged in H as (staged & H).
  apply sync_returns_body in H as (Hr & lp & wb & Hb' & Hs & -> & ->).
  rewrite Hb in Hb'. injection Hb' as <-.
  destruct (sync_files_table _ _ _ _ _ _ Hs)
    as (walked & rows & _ & _ & _ & Hmid & Hkeep & _).
  cbn [started files finished] in *.
  specialize (Hmid k). rewrite Hl0 in Hmid. unfold mid_row in Hmid.
  rewrite decide_True in Hmid by exact Hsrc.
  destruct (open_rb env (file_path local_path row0)) as [e|c] eqn:Ho.
  - intros k' row' Hl' Hs' Hp.
    destruct (sync_files_in_sync _ _ _ _ _ _ Hs k' row' Hl' Hs')
      as (c & Ho' & _).
    unfold file_path in Ho, Ho'. rewrite Hp, Ho in Ho'. discriminate.
  - destruct (String.eqb _ _).
    + apply Hkeep. exact Hmid.
    + destruct Hmid as (t & Hm). exists t. apply Hkeep. exact Hm.
Qed.

End SyncOutcome.

Section SyncStaging.
Import DataSource DataFileMethods DataSourceMethods.

Lemma datafiles_pk_NoDup self w : NoDup (DataFile.pk <$> datafiles self w).
Proof.
  unfold datafiles. rewrite merge_sort_Permutation, <- list_fmap_compose.
  apply NoDup_fmap_2_strong.
  - intros [k1 r1] [k2 r2] H1 H2. cbn. intros [= ->].
    apply list_elem_of_filter in H1 as [_ H1].
    apply list_elem_of_filter in H2 as [_ H2].
    apply elem_of_map_to_list in H1, H2. congruence.
  - apply NoDup_filter, NoDup_map_to_list.
Qed.

Lemma filter_pk_NoDup (P : DataFile.t -> Prop) `{!forall x, Decision (P x)}
    self w :
  NoDup (DataFile.pk <$> filter P (datafiles self w)).
Proof.
  apply NoDup_fmap_2_strong.
  - intros x y Hx Hy. apply list_elem_of_filter in Hx as [_ Hx].
    apply list_elem_of_filter in Hy as [_ Hy].
    apply (datafiles_pk_inj self w); assumption.
  - apply NoDup_filter. eapply NoDup_fmap_1. apply datafiles_pk_NoDup.
Qed.

(** X4: a run that returns has staged for deletion the keys of exactly the
    source's rows whose file is missing, and for update the rows whose file
    has another digest, each key once and no key in both lists. *)
Theorem sync_stages_each_row_once env self w staged self' w' :
  sync_staged env self w = (Return staged, self', w') ->
  exists local_path,
    get_backend env self = inr local_path
    /\ deleted_file_ids staged =
       DataFile.pk <$> filter (fun df => is_missing env local_path df = true)
                              (datafiles self w)
    /\ DataFile.pk <$> updated_files staged =
       DataFile.pk <$> filter (fun df => is_stale env local_path df = true)
                              (datafiles self w)
    /\ NoDup (deleted_file_ids staged)
    /\ NoDup (DataFile.pk <$> updated_files staged)
    /\ forall id, id ∈ deleted_file_ids staged ->
                  id ∉ DataFile.pk <$> updated_files staged.
Proof.
  intros H. apply sync_returns_body in H as (Hr & lp & wb & Hb & Hs & _).
  apply sync_files_returns in Hs
    as (upd & del & w1 & walked & news & w2 & rows & Hk & _ & _ & _ & ->).
  rewrite datafiles_started in Hk.
  apply refresh_known_returns in Hk as (_ & Hd & Hu & _).
  cbn [deleted_file_ids updated_files].
  exists lp. split; [exact Hb|]. split; [exact Hd|]. split; [exact Hu|].
  rewrite Hd, Hu. split; [apply filter_pk_NoDup|].
  split; [apply filter_pk_NoDup|].
  intros id. rewrite !list_elem_of_fmap.
  intros (d1 & -> & H1) (d2 & Hpk & H2).
  apply list_elem_of_filter in H1 as [Hm H1].
  apply list_elem_of_filter in H2 as [Hst H2].
  assert (d1 = d2) by (apply (datafiles_pk_inj self w); assumption).
  subst d2. unfold is_missing, is_stale in Hm, Hst.
  destruct (open_rb env (file_path lp d1)); discriminate.
Qed.

End SyncStaging.

Section SyncStatus.
Import DataSource DataFileMethods DataSourceMethods.

(** X5: a run that passes the readiness check and raises leaves the
    instance in one of three states: as it was, when a receiver of
    [pre_sync] raised; syncing, when the exception arose between the first
    status update and the end of the body, and then every further call of
    [sync] on the instance raises [SyncError] without any effect, whatever
    the backend and the files are; or completed, when the second status
    update or a receiver of [post_sync] raised. *)
Theorem failed_sync_blocks_next_sync env self w e self' w' :
  ready_for_sync self = true ->
  sync env self w = (Raise e, self', w') ->
  (self' = self /\ receivers env (pre_sync (pk self)) = Some e)
  \/ (self' = set_status SYNCING self
      /\ forall env2 w2,
           sync env2 self' w2 =
           (Raise (SyncError
                     "Cannot initiate sync; data source not ready/enabled"),
            self', w2))
  \/ (status self' = COMPLETED
      /\ (db_error env Update_completed = Some e
          \/ receivers env (post_sync (pk self)) = Some e)).
Proof.
  intros Hr H. rewrite sync_unfold in H.
  pose proof (sync_ready_outcome env self w Hr) as Ho.
  destruct (sync_staged env self w) as [[[st|e1] s1] w1]; cbn in H;
    [discriminate|].
  injection H as <- <- <-.
  assert (Hblocked : forall env2 w2,
            sync env2 (set_status SYNCING self) w2 =
            (Raise (SyncError
                      "Cannot initiate sync; data source not ready/enabled"),
             set_status SYNCING self, w2)).
  { intros env2 w2. rewrite sync_unfold, sync_staged_not_ready; [reflexivity|].
    unfold ready_for_sync. cbn. apply andb_false_r. }
  destruct Ho as [(-> & _ & Hx) | [(-> & _ & _) | [(-> & _ & _)
    | [(w2 & -> & _ & _ & Hx) | (w2 & -> & _ & _ & Hx)]]]]; auto.
Qed.

(** X6: a run that returns leaves the instance completed and ready for the
    next run, its [last_synced] the last clock reading of the run, the
    stored row with the same status and stamp, and exactly the two signals
    sent, [pre_sync] before [post_sync]. *)
Theorem sync_return_completes env self w self' w' :
  sync env self w = (Return tt, self', w') ->
  status self' = COMPLETED
  /\ ready_for_sync self' = true
  /\ (exists n, ticks w' = S n /\ last_synced self' = Some (clock env n))
  /\ events w' = events w ++ [pre_sync (pk self); post_sync (pk self)]
  /\ forall row, sources w' !! pk self = Some row ->
       status row = COMPLETED /\ last_synced row = last_synced self'.
Proof.
  intros H. apply sync_returns_staged in H as (staged & H).
  pose proof (sync_returns_body _ _ _ _ _ _ H) as (Hr & _).
  pose proof (sync_ready_outcome env self w Hr) as Ho. rewrite H in Ho.
  destruct Ho as (w1 & -> & Hsrc & Hev & _ & Ht).
  split; [reflexivity|]. split.
  - apply ready_for_sync_spec in Hr as (Hen & _).
    unfold ready_for_sync. cbn. rewrite Hen. reflexivity.
  - split; [exists (ticks w1); auto|]. split; [exact Hev|].
    intros row. rewrite Hsrc, !lookup_alter, !decide_True by reflexivity.
    destruct (sources w !! pk self) as [row0|]; [|discriminate].
    cbn. intros [= <-]. auto.
Qed.

Lemma mid_other_source env root self w w0 upd del w1 k row :
  refresh_known env root (datafiles self w) w0 = (Return (upd, del), w1) ->
  DataFile.source row <> pk self ->
  (mid_table upd del (files w) !! k = Some row <-> files w !! k = Some row)
  /\ (bulk_update upd (files w) !! k = Some row <-> files w !! k = Some row).
Proof.
  intros Hk Hne.
  assert (Hmid : mid_table upd del (files w) !! k = Some row
                 <-> files w !! k = Some row).
  { pose proof (mid_table_lookup _ _ _ _ _ _ _ _ k Hk) as Hm.
    destruct (files w !! k) as [row0|] eqn:Hl0.
    - unfold mid_row in Hm.
      destruct (decide (DataFile.source row0 = pk self)) as [Heq|Hneq].
      + split.
        * intros Hl. rewrite Hl in Hm.
          destruct (open_rb env (file_path root row0)) as [e2|c].
          -- destruct Hm; discriminate.
          -- destruct (String.eqb _ _).
             ++ congruence.
             ++ destruct Hm as (t & [= ->]). cbn in Hne. congruence.
        * intros [= <-]. congruence.
      + rewrite Hm. reflexivity.
    - rewrite Hm. split; discriminate. }
  split; [exact Hmid|].
  rewrite (upd_table_lookup _ _ _ _ _ _ _ _ k Hk).
  destruct (decide (Some k ∈ del)); [reflexivity | exact Hmid].
Qed.

(** X7: a run that raises never touches the rows of other sources, in
    either table; and no [DataFile] row changes at all when the source is
    not ready, when a receiver of [pre_sync] raises, when the first status
    update fails or when the backend's fetch raises. *)
Theorem failed_sync_frame env self w e self' w' :
  sync env self w = (Raise e, self', w') ->
  (forall k row, DataFile.source row <> pk self ->
     (files w' !! k = Some row <-> files w !! k = Some row))
  /\ (forall k, k <> pk self -> sources w' !! k = sources w !! k)
  /\ (ready_for_sync self = false
      \/ is_Some (receivers env (pre_sync (pk self)))
      \/ is_Some (db_error env Update_status)
      \/ (exists e0, get_backend env self = inl e0) ->
      files w' = files w).
Proof.
  intros H. rewrite sync_unfold in H.
  destruct (ready_for_sync self) eqn:Hr.
  2:{ rewrite (sync_staged_not_ready _ _ _ Hr) in H. cbn in H.
      injection H as <- <- <-. repeat split; auto. }
  rewrite (sync_staged_ready _ _ _ Hr) in H.
  destruct (receivers env (pre_sync (pk self))) as [e1|].
  { cbn in H. injection H as <- <- <-. repeat split; auto. }
  destruct (db_error env Update_status) as [e1|].
  { cbn in H. injection H as <- <- <-. repeat split; auto. }
  assert (Halter : forall k, k <> pk self ->
            alter (set_status SYNCING) (pk self) (sources w) !! k
            = sources w !! k).
  { intros k Hk. rewrite lookup_alter, decide_False by congruence.
    reflexivity. }
  destruct (get_backend env self) as [e0|lp].
  { cbn in H. injection H as <- <- <-. cbn [started files sources].
    repeat split; auto. }
  pose proof (kse_sync_files env (set_status SYNCING self) lp (started self w))
    as [Hsrc _].
  destruct (sync_files _ _ _ _) as [[st|e1] w1] eqn:Hs; cbn [snd] in Hsrc.
  - assert (Hfr : forall k row, DataFile.source row <> pk self ->
              (files w1 !! k = Some row <-> files w !! k = Some row)).
    { intros k row Hne.
      destruct (sync_files_table _ _ _ _ _ _ Hs)
        as (walked & rows & _ & Hnew & Hins & Hmid & Hkeep & Hcases & _).
      cbn [started files] in Hmid, Hkeep, Hcases.
      pose proof Hs as Hs'. apply sync_files_returns in Hs'
        as (upd & del & w2 & _ & news & _ & _ & Hk & _ & _ & _ & Hst).
      subst st. rewrite datafiles_started in Hk.
      cbn [updated_files deleted_file_ids] in Hmid, Hkeep, Hcases.
      destruct (mid_other_source _ _ _ _ _ _ _ _ k row Hk Hne) as [Hm _].
      split.
      - intros Hl. destruct (Hcases k row Hl) as [Hm1 | (_ & Hin & _)].
        + apply Hm. exact Hm1.
        + exfalso.
          destruct (Forall2_right_witness _ _ _ _ Hins Hin)
            as (obj & Hobj & Hio).
          destruct (Forall2_right_witness _ _ _ _ Hnew Hobj) as (p & _ & Hp).
          destruct (new_row_in_sync _ _ _ _ _ _ _ Hp Hio) as (Hs0 & _).
          apply Hne. exact Hs0.
      - intros Hl. apply Hkeep, Hm. exact Hl. }
    destruct (db_error env Update_completed) as [e2|].
    + cbn in H. injection H as <- <- <-. cbn [tick files sources].
      split; [exact Hfr|]. split; [|intros [Hx | [[x Hx] | [[x Hx] | [x Hx]]]]; discriminate].
      intros k Hk. rewrite Hsrc. apply Halter. exact Hk.
    + destruct (receivers env (post_sync (pk self))); cbn in H;
        [|discriminate].
      injection H as <- <- <-. cbn [finished files sources].
      split; [exact Hfr|]. split; [|intros [Hx | [[x Hx] | [[x Hx] | [x Hx]]]]; discriminate].
      intros k Hk. rewrite lookup_alter, decide_False by congruence.
      rewrite Hsrc. apply Halter. exact Hk.
  - cbn in H. injection H as <- <- <-.
    split; [|split; [|intros [Hx | [[x Hx] | [[x Hx] | [x Hx]]]]; discriminate]].
    + apply sync_files_raises in Hs
        as [Hf | (upd & del & w2 & Hk & [Hf | Hf])];
        rewrite Hf; cbn [started files]; [tauto | |];
        rewrite datafiles_started in Hk; intros k row Hne;
        apply (mid_other_source _ _ _ _ _ _ _ _ k row Hk Hne).
    + intros k Hk. rewrite Hsrc. apply Halter. exact Hk.
Qed.

End SyncStatus.

Section RefreshAgain.
Import DataFile DataFileMethods.

(** X8: a refresh that returns leaves an instance on which a second refresh
    from the same root finds nothing modified and changes nothing. *)
Theorem refresh_from_disk_settles env self root w self' modified w' :
  refresh_from_disk env self root w = (Return (self', modified), w') ->
  refresh_from_disk env self' root w' = (Return (self', false), w').
Proof.
  rewrite !refresh_from_disk_eq.
  destruct (open_rb env (file_path root self)) as [e|c] eqn:Ho; [discriminate|].
  destruct (String.eqb (Sha256.hexdigest c) (hash self)) eqn:He.
  - intros [= <- <- <-]. rewrite Ho, He. reflexivity.
  - intros [= <- <- <-].
    change (file_path root (refreshed env root (clock env (ticks w)) c self))
      with (file_path root self).
    rewrite Ho. cbn [refreshed hash set_file_attrs].
    rewrite String.eqb_refl. reflexivity.
Qed.

End RefreshAgain.

(** ** The walk and the ignore rules *)

Section WalkResult.
Import DataSource DataSourceMethods Py.

Lemma add_files_spec self path names paths p :
  p ∈ add_files self path names paths <->
  p ∈ paths
  \/ exists file_name, file_name ∈ names /\ _ignore self file_name = false
                       /\ p = os_path_join path file_name.
Proof.
  unfold add_files. revert paths.
  induction names as [|n names IH]; intros paths; cbn [foldl].
  - split; [auto|]. intros [H | (f & Hf & _)]; [exact H|].
    apply elem_of_nil in Hf. contradiction.
  - rewrite IH. destruct (_ignore self n) eqn:E.
    + split; (intros [H | (f & Hf & Hi & Hp)]; [left; exact H|]).
      * right. exists f. split; [right; exact Hf | auto].
      * apply elem_of_cons in Hf as [-> | Hf]; [congruence|].
        right. exists f. auto.
    + rewrite elem_of_union, elem_of_singleton. split.
      * intros [[H | ->] | (f & Hf & Hi & Hp)]; [left; exact H | |].
        -- right. exists n. split; [left | auto].
        -- right. exists f. split; [right; exact Hf | auto].
      * intros [H | (f & Hf & Hi & Hp)]; [auto|].
        apply elem_of_cons in Hf as [-> | Hf]; [auto|].
        right. exists f. auto.
Qed.

Lemma walk_loop_spec self root yielded paths out :
  walk_loop self root yielded paths = Return out ->
  forall p, p ∈ out <->
            p ∈ paths
            \/ exists entry, entry ∈ yielded /\ walk_entry self root entry p.
Proof.
  revert paths.
  induction yielded as [|[[path dirs] names] rest IH]; intros paths H p.
  - cbn in H. injection H as <-. split; [auto|].
    intros [H | (e & He & _)]; [exact H|].
    apply elem_of_nil in He. contradiction.
  - cbn [walk_loop] in H.
    destruct (split path root) as [pieces|] eqn:Hs; [|discriminate].
    destruct (pieces !! 1%nat) as [piece|] eqn:Hp; [|discriminate].
    destruct (startswith (lstrip "/" piece) ".") eqn:Hd.
    + rewrite (IH _ H p). split.
      * intros [Hin | (e & He & Hw)]; [auto|].
        right. exists e. split; [right; exact He | exact Hw].
      * intros [Hin | (e & He & Hw)]; [auto|].
        apply elem_of_cons in He as [-> | He].
        -- destruct Hw as (ps & pc & f & Hs' & Hp' & Hd' & _).
           cbn [fst] in Hs'. congruence.
        -- right. exists e. auto.
    + rewrite (IH _ H p), add_files_spec. split.
      * intros [[Hin | (f & Hf & Hi & ->)] | (e & He & Hw)]; [auto | |].
        -- right. exists (path, dirs, names). split; [left|].
           exists pieces, piece, f. split_and!; auto.
        -- right. exists e. split; [right; exact He | exact Hw].
      * intros [Hin | (e & He & Hw)]; [auto|].
        apply elem_of_cons in He as [-> | He].
        -- destruct Hw as (ps & pc & f & Hs' & Hp' & _ & Hf & Hi & ->).
           cbn [fst snd] in Hs', Hf.
           assert (ps = pieces) by congruence. subst ps.
           assert (pc = piece) by congruence. subst pc.
           left. right. exists f. split_and!; auto.
        -- right. exists e. auto.
Qed.

(** X9: the set the walk returns holds exactly the paths joined from a
    yielded directory, made relative to the root, that does not start with
    a dot and one of its file names that is not ignored; so it holds no
    ignored name and nothing from a directory whose relative path starts
    with a dot. *)
Theorem walk_returns_exactly env self root walked :
  _walk env self root = Return walked ->
  forall p, p ∈ walked <->
            exists entry, entry ∈ os_walk env root
                          /\ walk_entry self root entry p.
Proof.
  intros H p. rewrite (walk_loop_spec _ _ _ _ _ H p). split.
  - intros [Hin | Hw]; [|exact Hw]. apply elem_of_empty in Hin. contradiction.
  - auto.
Qed.

Lemma split_scan_nonempty sep s skip cur : split_scan sep s skip cur <> [].
Proof.
  revert skip cur. induction s as [|a s IH]; intros skip cur; [discriminate|].
  cbn [split_scan]. destruct skip as [|k]; [|apply IH].
  destruct (String.prefix sep (String a s)); [discriminate | apply IH].
Qed.

Lemma split_scan_occurs sep s cur :
  sep <> EmptyString -> occurs sep s = true ->
  exists a b rest, split_scan sep s O cur = a :: b :: rest.
Proof.
  intros Hne. revert cur. induction s as [|c s IH]; intros cur H.
  - destruct sep; [contradiction | discriminate].
  - cbn [split_scan]. cbn [occurs] in H.
    destruct (String.prefix sep (String c s)) eqn:Hp.
    + pose proof (split_scan_nonempty sep s (String.length sep - 1) EmptyString).
      destruct (split_scan sep s (String.length sep - 1) EmptyString)
        as [|b rest]; [contradiction|].
      exists cur, b, rest. reflexivity.
    + cbn in H. apply IH. exact H.
Qed.

Lemma walk_loop_returns_iff self root yielded paths :
  (exists out, walk_loop self root yielded paths = Return out) <->
  yielded = []
  \/ (root <> EmptyString
      /\ Forall (fun entry => occurs root entry.1.1 = true) yielded).
Proof.
  revert paths.
  induction yielded as [|[[path dirs] names] rest IH]; intros paths.
  - split; [auto|]. intros _. exists paths. reflexivity.
  - cbn [walk_loop]. split.
    + intros (out & H). right.
      destruct (split path root) as [pieces|] eqn:Hs; [|discriminate].
      assert (Hne : root <> EmptyString).
      { intros ->. discriminate. }
      destruct (pieces !! 1%nat) as [piece|] eqn:Hp; [|discriminate].
      assert (Ho : occurs root path = true).
      { destruct (occurs root path) eqn:Ho; [reflexivity|].
        unfold split in Hs. destruct root; [contradiction|].
        rewrite (split_scan_no_occurrence _ _ _ Ho) in Hs.
        injection Hs as <-. discriminate. }
      split; [exact Hne|]. constructor; [exact Ho|].
      assert (Hrest : exists out', walk_loop self root rest
                 (if startswith (lstrip "/" piece) "." then paths
                  else add_files self (lstrip "/" piece) names paths)
               = Return out').
      { exists out. destruct (startswith _ _); exact H. }
      apply IH in Hrest as [-> | [_ Hf]]; [constructor | exact Hf].
    + intros [H | [Hne Hf]]; [discriminate|].
      inversion Hf as [|? ? Ho Hf']; subst. cbn [fst] in Ho.
      assert (Hs : exists a b r, split path root = Some (a :: b :: r)).
      { unfold split. destruct root as [|c root]; [contradiction|].
        destruct (split_scan_occurs (String c root) path EmptyString Hne Ho)
          as (a & b & r & E).
        exists a, b, r. rewrite E. reflexivity. }
      destruct Hs as (a & b & r & ->). cbn [lookup list_lookup].
      destruct (startswith (lstrip "/" b) "."); apply IH; right; auto.
Qed.

Lemma walk_loop_index_error self root yielded paths :
  root <> EmptyString ->
  Exists (fun entry => occurs root entry.1.1 = false) yielded ->
  walk_loop self root yielded paths = Raise IndexError.
Proof.
  intros Hne. revert paths.
  induction yielded as [|[[path dirs] names] rest IH]; intros paths He.
  - inversion He.
  - cbn [walk_loop]. destruct (occurs root path) eqn:Ho.
    + assert (Hrest : Exists (fun entry => occurs root entry.1.1 = false) rest).
      { inversion He as [? ? Hx | ? ? Hx]; subst; [|exact Hx].
        cbn [fst] in Hx. congruence. }
      unfold split. destruct root as [|c root]; [contradiction|].
      destruct (split_scan_occurs (String c root) path EmptyString Hne Ho)
        as (a & b & r & ->).
      cbn [lookup list_lookup].
      destruct (startswith (lstrip "/" b) "."); apply IH; exact Hrest.
    + unfold split. destruct root as [|c root]; [contradiction|].
      rewrite (split_scan_no_occurrence _ _ _ Ho). reflexivity.
Qed.

(** X10: the walk returns a set exactly when [os.walk] yields nothing, or
    the root is not the empty string and occurs in the path of every
    directory yielded.  Otherwise splitting a path at the root raises:
    [ValueError] when the root is the empty string, and [IndexError] when
    the root is not empty and does not occur in one of the paths. *)
Theorem walk_returns_iff env self root :
  ((exists walked, _walk env self root = Return walked) <->
   os_walk env root = []
   \/ (root <> EmptyString
       /\ Forall (fun entry => occurs root entry.1.1 = true)
                 (os_walk env root)))
  /\ (os_walk env root <> [] -> root = EmptyString ->
      _walk env self root = Raise ValueError)
  /\ (root <> EmptyString ->
      Exists (fun entry => occurs root entry.1.1 = false) (os_walk env root) ->
      _walk env self root = Raise IndexError).
Proof.
  split; [apply walk_loop_returns_iff|]. split.
  - intros Hne ->. unfold _walk.
    destruct (os_walk env EmptyString) as [|[[path dirs] names] rest];
      [contradiction | reflexivity].
  - intros Hne He. apply walk_loop_index_error; assumption.
Qed.

End WalkResult.

Section PlainRules.
Import DataSource DataSourceMethods Py Fnmatch.

Lemma splitlines_scan_plain rule rest cur :
  plain_rule rule = true ->
  splitlines_scan (rule +:+ rest) cur false
  = splitlines_scan rest (cur +:+ rule) false.
Proof.
  revert cur. induction rule as [|c rule IH]; intros cur H.
  - rewrite append_nil_r. reflexivity.
  - cbn [plain_rule] in H. apply andb_true_iff in H as [H Hr].
    apply andb_true_iff in H as [_ Hl]. apply negb_true_iff in Hl.
    change (String c rule +:+ rest) with (String c (rule +:+ rest)).
    cbn [splitlines_scan andb]. rewrite Hl, (IH _ Hr). unfold snoc.
    rewrite append_assoc. reflexivity.
Qed.

Lemma splitlines_join_lines rules :
  Forall (fun rule => plain_rule rule = true /\ rule <> EmptyString) rules ->
  splitlines (join_lines rules) = rules.
Proof.
  unfold splitlines.
  induction 1 as [|rule rules [Hp Hne] Hf IH]; [reflexivity|].
  destruct rules as [|rule2 rules].
  - cbn [join_lines]. rewrite <- (append_nil_r rule) at 1.
    rewrite (splitlines_scan_plain _ _ _ Hp). cbn.
    destruct rule; [contradiction | reflexivity].
  - change (join_lines (rule :: rule2 :: rules))
      with (rule +:+ String "010" (join_lines (rule2 :: rules))).
    rewrite (splitlines_scan_plain _ _ _ Hp).
    cbn [splitlines_scan andb]. change (is_linebreak "010") with true.
    change (is_cr "010") with false. cbv iota.
    rewrite IH. reflexivity.
Qed.

Lemma plain_rule_matches rule name :
  plain_rule rule = true -> fnmatchcase name rule = String.eqb name rule.
Proof.
  unfold fnmatchcase. revert name.
  induction rule as [|c rule IH]; intros name H.
  - destruct name; reflexivity.
  - cbn [plain_rule] in H. apply andb_true_iff in H as [H Hr].
    apply andb_true_iff in H as [Hg _]. apply negb_true_iff in Hg.
    unfold is_glob_char in Hg. apply orb_false_iff in Hg as [Hg H3].
    apply orb_false_iff in Hg as [H1 H2].
    cbn [translate]. rewrite H1, H2, H3. cbn [matches].
    destruct name as [|a name]; [reflexivity|].
    rewrite (IH _ Hr). cbn [String.eqb].
    destruct (Ascii.eqb a c); reflexivity.
Qed.

(** X11: when every ignore rule is a non-empty line without [*], [?] and
    [[], a file name is ignored exactly when it starts with a dot or is one
    of the rules, character for character. *)
Theorem plain_rules_ignore_by_name self rules filename :
  Forall (fun rule => plain_rule rule = true /\ rule <> EmptyString) rules ->
  ignore_rules self = join_lines rules ->
  _ignore self filename = true <->
  startswith filename "." = true \/ filename ∈ rules.
Proof.
  intros Hf Hr. unfold _ignore. rewrite Hr, (splitlines_join_lines _ Hf).
  destruct (startswith filename ".") eqn:Hd; [tauto|].
  rewrite existsb_exists. split.
  - intros (rule & Hin & Hm). right.
    apply list_elem_of_In in Hin.
    rewrite Forall_forall in Hf. destruct (Hf _ Hin) as [Hp _].
    rewrite (plain_rule_matches _ _ Hp) in Hm.
    apply String.eqb_eq in Hm. subst. exact Hin.
  - intros [H | Hin]; [discriminate|].
    exists filename. split; [apply list_elem_of_In; exact Hin|].
    rewrite Forall_forall in Hf. destruct (Hf _ Hin) as [Hp _].
    rewrite (plain_rule_matches _ _ Hp). apply String.eqb_refl.
Qed.

End PlainRules.

Section QueuedSource.
Import DataSource DataSourceMethods.
Context {Request User JobResult : Type}.
Variable request_user : Request -> User.
Variable enqueue_job : string -> string -> User -> M JobResult.

(** X12: whatever [JobResult.enqueue_job] does, [enqueue_sync_job] leaves
    the instance queued and otherwise as it was, and a call of [sync] on
    that instance raises [SyncError] without any effect. *)
Theorem queued_instance_refuses_sync self request w env w2 :
  let self1 := (enqueue_sync_job request_user enqueue_job self request w).1.2 in
  self1 = set_status QUEUED self
  /\ sync env self1 w2 =
     (Raise (SyncError "Cannot initiate sync; data source not ready/enabled"),
      self1, w2).
Proof.
  unfold enqueue_sync_job.
  destruct (enqueue_job _ _ _ w) as [r w1]. cbn [fst snd].
  split; [reflexivity|].
  rewrite sync_unfold, sync_staged_not_ready; [reflexivity|].
  unfold ready_for_sync. cbn. apply andb_false_r.
Qed.

End QueuedSource.

(** ** The backend parameters of [DataSourceForm] *)

Section FormParameters.
Import PyDict DataSourceForm.

Lemma dict_get_set {V} (d : list (string * V)) k v k' :
  dict_get (dict_set d k v) k'
  = if String.eqb k k' then Some v else dict_get d k'.
Proof.
  induction d as [|[k0 v0] d IH]; cbn [dict_set dict_get]; [reflexivity|].
  destruct (String.eqb k0 k) eqn:E; cbn [dict_get].
  - apply String.eqb_eq in E. subst k0.
    destruct (String.eqb k k'); reflexivity.
  - rewrite IH. destruct (String.eqb k0 k') eqn:E'; [|reflexivity].
    apply String.eqb_eq in E'. subst k0. rewrite String.eqb_sym, E.
    reflexivity.
Qed.

Lemma dict_set_fresh {V} (d : list (string * V)) k v :
  k ∉ d.*1 -> dict_set d k v = d ++ [(k, v)].
Proof.
  induction d as [|[k0 v0] d IH]; intros H; [reflexivity|].
  cbn [dict_set]. rewrite fmap_cons, not_elem_of_cons in H.
  destruct H as [Hne H]. cbn [fst] in Hne.
  destruct (String.eqb k0 k) eqn:E.
  - apply String.eqb_eq in E. congruence.
  - rewrite (IH H). reflexivity.
Qed.

Lemma backend_name_prefix name :
  Py.startswith ("backend_" +:+ name) "backend_" = true.
Proof. apply prefix_self_app. Qed.

Lemma backend_name_slice name : slice_from 8 ("backend_" +:+ name) = name.
Proof. reflexivity. Qed.

Lemma backend_name_inj a b : "backend_" +:+ a = "backend_" +:+ b -> a = b.
Proof.
  intros H. rewrite <- (backend_name_slice a), <- (backend_name_slice b), H.
  reflexivity.
Qed.

Lemma init_loop_names ds params flds acc :
  (foldl (add_backend_field ds) (flds, acc) params).2
  = acc ++ ((fun p => "backend_" +:+ p) <$> params.*1).
Proof.
  revert flds acc. induction params as [|[p f] params IH]; intros flds acc.
  - cbn. rewrite app_nil_r. reflexivity.
  - cbn [foldl]. unfold add_backend_field at 2. cbn [fst snd].
    rewrite IH, <- app_assoc. reflexivity.
Qed.

Lemma init_loop_get_other ds params flds acc name :
  (forall p, p ∈ params.*1 -> name <> "backend_" +:+ p) ->
  dict_get (foldl (add_backend_field ds) (flds, acc) params).1 name
  = dict_get flds name.
Proof.
  revert flds acc. induction params as [|[p f] params IH]; intros flds acc H;
    [reflexivity|].
  cbn [foldl]. unfold add_backend_field at 2. cbn [fst snd].
  rewrite IH by (intros q Hq; apply H; right; exact Hq).
  rewrite dict_get_set.
  destruct (String.eqb ("backend_" +:+ p) name) eqn:E; [|reflexivity].
  apply String.eqb_eq in E. exfalso. apply (H p); [left | congruence].
Qed.

Lemma init_loop_get ds params flds acc p f :
  NoDup params.*1 -> (p, f) ∈ params ->
  dict_get (foldl (add_backend_field ds) (flds, acc) params).1
           ("backend_" +:+ p)
  = Some (backend_field ds p f).
Proof.
  revert flds acc.
  induction params as [|[q g] params IH]; intros flds acc Hnd Hin.
  - apply elem_of_nil in Hin. contradiction.
  - rewrite fmap_cons in Hnd. apply NoDup_cons in Hnd as [Hq Hnd].
    cbn [fst] in Hq. cbn [foldl]. unfold add_backend_field at 2.
    cbn [fst snd].
    apply elem_of_cons in Hin as [Heq | Hin].
    + injection Heq as <- <-. rewrite init_loop_get_other.
      * rewrite dict_get_set, String.eqb_refl. reflexivity.
      * intros r Hr Heq. apply backend_name_inj in Heq. congruence.
    + apply IH; assumption.
Qed.

Lemma init_loop_keys ds params flds acc :
  NoDup params.*1 ->
  (forall p, p ∈ params.*1 -> "backend_" +:+ p ∉ flds.*1) ->
  (foldl (add_backend_field ds) (flds, acc) params).1.*1
  = flds.*1 ++ ((fun p => "backend_" +:+ p) <$> params.*1).
Proof.
  revert flds acc.
  induction params as [|[q g] params IH]; intros flds acc Hnd Hfresh.
  - cbn. rewrite app_nil_r. reflexivity.
  - rewrite fmap_cons in Hnd. apply NoDup_cons in Hnd as [Hq Hnd].
    cbn [fst] in Hq. cbn [foldl]. unfold add_backend_field at 2.
    cbn [fst snd].
    rewrite (dict_set_fresh flds) by (apply Hfresh; left).
    rewrite IH; [|exact Hnd|].
    + rewrite fmap_app, <- app_assoc. reflexivity.
    + intros p Hp. rewrite fmap_app, elem_of_app. intros [Hin | Hin].
      * apply (Hfresh p); [right; exact Hp | exact Hin].
      * cbn in Hin. apply list_elem_of_singleton in Hin.
        apply backend_name_inj in Hin. congruence.
Qed.

Lemma collect_skips cleaned names rest acc :
  Forall (fun name => Py.startswith name "backend_" = false) names ->
  collect_parameters cleaned (names ++ rest) acc
  = collect_parameters cleaned rest acc.
Proof.
  induction 1 as [|name names Hn _ IH]; [reflexivity|].
  cbn [app collect_parameters]. rewrite Hn. exact IH.
Qed.

Lemma collect_backend cleaned names acc :
  NoDup names ->
  (forall name, name ∈ names -> name ∉ acc.*1) ->
  (forall name, name ∈ names -> is_Some (cleaned !! ("backend_" +:+ name))) ->
  exists items,
    collect_parameters (Some cleaned) ((fun p => "backend_" +:+ p) <$> names)
      acc
    = Return (acc ++ items)
    /\ Forall2 (fun name item =>
                  item.1 = name
                  /\ cleaned !! ("backend_" +:+ name) = Some item.2)
               names items.
Proof.
  revert acc. induction names as [|name names IH]; intros acc Hnd Hfresh Hval.
  - exists []. rewrite app_nil_r. split; [reflexivity | constructor].
  - apply NoDup_cons in Hnd as [Hn Hnd].
    destruct (Hval name) as [value Hv]; [left|].
    rewrite fmap_cons. cbn [collect_parameters].
    rewrite backend_name_prefix, Hv, backend_name_slice.
    rewrite dict_set_fresh by (apply Hfresh; left).
    destruct (IH (acc ++ [(name, value)]) Hnd) as (items & Hc & Hf).
    + intros n Hin. rewrite fmap_app, elem_of_app. intros [H | H].
      * apply (Hfresh n); [right; exact Hin | exact H].
      * cbn in H. apply list_elem_of_singleton in H. congruence.
    + intros n Hin. apply Hval. right. exact Hin.
    + exists ((name, value) :: items). rewrite Hc, <- app_assoc.
      split; [reflexivity|]. constructor; [auto | exact Hf].
Qed.

Lemma init_returns backend_classes form0 form :
  __init__ backend_classes form0 = Return form ->
  exists ty backend,
    chosen_type backend_classes form0 = Return (Some ty)
    /\ backend_classes !! ty = Some backend
    /\ form = Build (is_bound form0) (data form0) (initial form0)
                (foldl (add_backend_field (instance form0))
                       (fields form0, []) (parameters backend)).1
                (instance form0)
                (foldl (add_backend_field (instance form0))
                       (fields form0, []) (parameters backend)).2
                (cleaned_data form0).
Proof.
  unfold __init__.
  destruct (chosen_type backend_classes form0) as [[ty|]|e];
    [|discriminate..].
  cbn [mbind option_bind].
  destruct (backend_classes !! ty) as [backend|] eqn:Hb; [|discriminate].
  intros [= <-]. exists ty, backend. auto.
Qed.

(** X13: on a form built by [__init__] over fields none of which is named
    [backend_...], [save] hands [super().save] an instance whose
    parameters are exactly the parameters of the chosen backend, in their
    order, each with the cleaned value of its field [backend_<name>];
    whatever else the instance had stored as parameters is gone. *)
Theorem save_stores_backend_parameters {A} backend_classes form0 form
    (super_save : DataSourceForm.t -> M A) cleaned :
  __init__ backend_classes form0 = Return form ->
  Forall (fun name => Py.startswith name "backend_" = false)
         (fields form0).*1 ->
  (forall ty backend, backend_classes !! ty = Some backend ->
                      NoDup (parameters backend).*1) ->
  (forall name, name ∈ backend_fields form -> is_Some (cleaned !! name)) ->
  exists ty backend items,
    chosen_type backend_classes form0 = Return (Some ty)
    /\ backend_classes !! ty = Some backend
    /\ backend_fields form
       = (fun p => "backend_" +:+ p) <$> (parameters backend).*1
    /\ Forall2 (fun name item =>
                  item.1 = name
                  /\ cleaned !! ("backend_" +:+ name) = Some item.2)
               (parameters backend).*1 items
    /\ save super_save (set_cleaned_data cleaned form)
       = super_save (set_instance
                       (set_parameters (Some items) (instance form0))
                       (set_cleaned_data cleaned form)).
Proof.
  intros Hinit Hbase Hdict Hval.
  apply init_returns in Hinit as (ty & backend & Hty & Hb & ->).
  pose proof (Hdict _ _ Hb) as Hnd. cbn [backend_fields] in Hval.
  rewrite init_loop_names in Hval. cbn [app] in Hval.
  exists ty, backend.
  destruct (collect_backend cleaned (parameters backend).*1 [] Hnd)
    as (items & Hc & Hf).
  { intros name _ Hin. apply elem_of_nil in Hin. contradiction. }
  { intros name Hin. apply Hval, list_elem_of_fmap. exists name. auto. }
  exists items. split; [exact Hty|]. split; [exact Hb|].
  split; [cbn [backend_fields]; apply init_loop_names|].
  split; [exact Hf|].
  unfold save. cbn [set_cleaned_data cleaned_data fields instance].
  rewrite init_loop_keys; [|exact Hnd|].
  - rewrite collect_skips by exact Hbase. rewrite Hc. reflexivity.
  - intros p _ Hin. rewrite Forall_forall in Hbase.
    pose proof (backend_name_prefix p) as Hp.
    rewrite (Hbase _ Hin) in Hp. discriminate.
Qed.

(** X14: [__init__] gives the form one field [backend_<name>] for each
    parameter of the chosen backend.  When the instance has stored
    parameters, the field shows the stored value of that name, or nothing
    when there is none; otherwise it is the backend's field as it is.
    Fields under other names are as they were. *)
Theorem init_adds_backend_fields backend_classes form0 form :
  __init__ backend_classes form0 = Return form ->
  (forall ty backend, backend_classes !! ty = Some backend ->
                      NoDup (parameters backend).*1) ->
  exists ty backend,
    chosen_type backend_classes form0 = Return (Some ty)
    /\ backend_classes !! ty = Some backend
    /\ instance form = instance form0
    /\ (forall name form_field,
          (name, form_field) ∈ parameters backend ->
          dict_get (fields form) ("backend_" +:+ name)
          = Some match DataSource.parameters (instance form0) with
                 | Some (item :: stored) =>
                     FormField.Build (dict_get (item :: stored) name)
                                     (FormField.label form_field)
                 | _ => form_field
                 end)
    /\ (forall name,
          (forall p, p ∈ (parameters backend).*1 ->
                     name <> "backend_" +:+ p) ->
          dict_get (fields form) name = dict_get (fields form0) name).
Proof.
  intros Hinit Hdict.
  apply init_returns in Hinit as (ty & backend & Hty & Hb & ->).
  exists ty, backend. split; [exact Hty|]. split; [exact Hb|].
  split; [reflexivity|]. cbn [fields]. split.
  - intros name f Hin.
    rewrite (init_loop_get _ _ _ _ _ _ (Hdict _ _ Hb) Hin).
    unfold backend_field, has_parameters.
    destruct (DataSource.parameters (instance form0)) as [[|item stored]|];
      reflexivity.
  - intros name H. apply init_loop_get_other. exact H.
Qed.

(** X15: when the form has a field named [backend_...], [save] raises
    before [super().save] is called, and nothing is stored, in two cases:
    [AttributeError] when the form has not been validated, so that it has
    no [cleaned_data]; and [KeyError] when it has been validated and that
    field has no cleaned value. *)
Theorem save_raises_without_value {A} (super_save : DataSourceForm.t -> M A)
    form name w :
  name ∈ (fields form).*1 ->
  Py.startswith name "backend_" = true ->
  (cleaned_data form = None ->
   save super_save form w = (Raise (OtherError "AttributeError"), w))
  /\ (forall cleaned,
        cleaned_data form = Some cleaned -> cleaned !! name = None ->
        save super_save form w = (Raise (OtherError "KeyError"), w)).
Proof.
  intros Hin Hp. unfold save. split.
  - intros ->.
    assert (Hc : forall acc,
      collect_parameters None (fields form).*1 acc
      = Raise (OtherError "AttributeError")).
    { induction ((fields form).*1) as [|n names IH]; intros acc.
      - apply elem_of_nil in Hin. contradiction.
      - cbn [collect_parameters].
        destruct (decide (n = name)) as [->|Hne]; [rewrite Hp; reflexivity|].
        apply elem_of_cons in Hin as [Heq | Hin]; [congruence|].
        destruct (Py.startswith n "backend_"); [reflexivity|].
        apply IH. exact Hin. }
    rewrite Hc. reflexivity.
  - intros cleaned -> Hv.
    assert (Hc : forall acc,
      collect_parameters (Some cleaned) (fields form).*1 acc
      = Raise (OtherError "KeyError")).
    { induction ((fields form).*1) as [|n names IH]; intros acc.
      - apply elem_of_nil in Hin. contradiction.
      - cbn [collect_parameters].
        destruct (decide (n = name)) as [->|Hne].
        + rewrite Hp, Hv. reflexivity.
        + apply elem_of_cons in Hin as [Heq | Hin]; [congruence|].
          destruct (Py.startswith n "backend_"); [|apply IH; exact Hin].
          destruct (cleaned !! n); [apply IH; exact Hin | reflexivity]. }
    rewrite Hc. reflexivity.
Qed.

End FormParameters.

(** ** Limits on what a run stores *)

Section SyncLimits.
Import DataSource DataFileMethods DataSourceMethods.

(** X16: a run returns only if every walked path that was not known names
    a file that opens, with a size reported by [os.path.getsize] between 0
    and 2147483647, under a relative path of at most 1000 characters, and
    the source itself is a stored row; a new file beyond these limits makes
    the run raise. *)
Theorem sync_new_files_within_limits env self w self' w' :
  sync env self w = (Return tt, self', w') ->
  exists local_path walked,
    get_backend env self = inr local_path
    /\ _walk env self local_path = Return walked
    /\ forall p, p ∈ walked -> p ∉ known_paths self w ->
         (exists content sz,
            open_rb env (Py.os_path_join local_path p) = inr content
            /\ getsize env (Py.os_path_join local_path p) = inr sz
            /\ 0 <= sz <= 2147483647)
         /\ (String.length p <= 1000)%nat
         /\ is_Some (sources w !! pk self).
Proof.
  intros H. apply sync_returns_staged in H as (staged & H).
  apply sync_returns_body in H as (Hr & lp & wb & Hb & Hs & -> & ->).
  destruct (sync_files_table _ _ _ _ _ _ Hs)
    as (walked & rows & Hw & Hnew & _).
  rewrite walk_status in Hw. rewrite known_paths_started in Hnew.
  exists lp, walked. split; [exact Hb|]. split; [exact Hw|].
  intros p Hp Hk.
  assert (Hin : p ∈ elements (walked ∖ known_paths self w))
    by (apply elem_of_elements, elem_of_difference; auto).
  destruct (Forall2_left_witness _ _ _ _ Hnew Hin)
    as (df & _ & c & t & Ho & -> & Hcl & Hse & _).
  unfold clean_fields in Hcl. cbn in Hcl.
  apply andb_true_iff in Hcl as [Hcl Hsz].
  apply andb_true_iff in Hcl as [Hpath _].
  apply andb_true_iff in Hsz as [Hsz0 Hsz].
  apply Z.leb_le in Hsz, Hsz0.
  split.
  { destruct (stat_after_open env _ _ Ho) as [sz Hg].
    exists c, sz. split; [exact Ho|]. split; [exact Hg|].
    change (stat_size env (Py.os_path_join lp p) <= positive_integer_max)
      in Hsz.
    change (0 <= stat_size env (Py.os_path_join lp p)) in Hsz0.
    unfold stat_size in Hsz, Hsz0. rewrite Hg in Hsz, Hsz0.
    unfold positive_integer_max in Hsz. lia. }
  split.
  - apply orb_true_iff in Hpath as [He | Hm].
    + destruct p; [cbn; lia | discriminate].
    + apply Nat.leb_le in Hm. exact Hm.
  - unfold source_exists in Hse. apply bool_decide_eq_true in Hse.
    cbn in Hse. rewrite lookup_alter, decide_True in Hse by reflexivity.
    apply fmap_is_Some in Hse. exact Hse.
Qed.


End SyncLimits.

Section FormFieldsets.
Import PyDict DataSourceForm.

(** X18: on a form built by [__init__], [fieldsets] is the group of the
    source's own fields, followed, when the chosen backend has parameters,
    by the group [Backend] of one field [backend_<name>] for each of them,
    in their order. *)
Theorem fieldsets_after_init backend_classes form0 form :
  __init__ backend_classes form0 = Return form ->
  exists ty backend,
    chosen_type backend_classes form0 = Return (Some ty)
    /\ backend_classes !! ty = Some backend
    /\ fieldsets form =
       ("Source", ["name"; "type"; "source_url"; "enabled"; "description";
                   "tags"; "ignore_rules"])
       :: match parameters backend with
          | [] => []
          | _ => [("Backend",
                   (fun p => "backend_" +:+ p) <$> (parameters backend).*1)]
          end.
Proof.
  intros Hinit.
  apply init_returns in Hinit as (ty & backend & Hty & Hb & ->).
  exists ty, backend. split; [exact Hty|]. split; [exact Hb|].
  unfold fieldsets. cbn [backend_fields]. rewrite init_loop_names.
  destruct (parameters backend) as [|[p f] params]; reflexivity.
Qed.

End FormFieldsets.

(** ** Instances of the properties above *)

Section MoreInstances.
Import DataSource DataFileMethods DataSourceMethods Example.

Lemma down_run_raises :
  sync down_env gone_source gone_world
  = (Raise (OtherError "ConnectionError"), down_run.1.2, down_run.2).
Proof. vm_compute. reflexivity. Qed.

Lemma known_a_stored : files ex_world !! 8 = Some known_a.
Proof. vm_compute. reflexivity. Qed.

Lemma known_a_refreshed :
  refresh_from_disk ex_env known_a root ex_world
  = (Return (refreshed_a, true), tick ex_world).
Proof. vm_compute. reflexivity. Qed.

Lemma ex_walk_returns :
  _walk ex_env ex_source root = Return {[ "a.txt"; "sub/.hidden/c.txt" ]}.
Proof. vm_compute. reflexivity. Qed.

Lemma plain_rules_plain :
  Forall (fun rule => plain_rule rule = true /\ rule <> EmptyString)
         plain_rules.
Proof. repeat constructor; discriminate. Qed.

Lemma ex_form_built : DataSourceForm.__init__ ex_backends ex_form0 = Return ex_form.
Proof. vm_compute. reflexivity. Qed.

Lemma base_fields_names :
  Forall (fun name => Py.startswith name "backend_" = false)
         (DataSourceForm.fields ex_form0).*1.
Proof. repeat constructor. Qed.

Lemma ex_backends_keys ty backend :
  ex_backends !! ty = Some backend ->
  NoDup (DataSourceForm.parameters backend).*1.
Proof.
  unfold ex_backends. rewrite lookup_insert_Some, lookup_singleton_Some.
  intros [[_ <-] | [_ [_ <-]]]; apply (bool_decide_unpack _);
    vm_compute; exact I.
Qed.

Lemma ex_cleaned_values name :
  name ∈ DataSourceForm.backend_fields ex_form -> is_Some (ex_cleaned !! name).
Proof.
  change (DataSourceForm.backend_fields ex_form)
    with ["backend_username"; "backend_password"; "backend_branch"].
  rewrite !elem_of_cons.
  intros [-> | [-> | [-> | H]]];
    [vm_compute; eauto .. | apply elem_of_nil in H; contradiction].
Qed.

Lemma sync_rows_agree_with_disk_witness :
  sync ex_env ex_source ex_world = (Return tt, ex_self1, ex_world1)
  /\ exists local_path,
       get_backend ex_env ex_source = inr local_path
       /\ forall k row,
            files ex_world1 !! k = Some row ->
            DataFile.source row = pk ex_source ->
            exists content,
              open_rb ex_env (file_path local_path row) = inr content
              /\ DataFile.hash row = Sha256.hexdigest content.
Proof.
  split; [exact ex_sync_returns|].
  exact (sync_rows_agree_with_disk ex_env ex_source ex_world ex_self1
           ex_world1 ex_sync_returns).
Defined.

Lemma sync_known_paths_after_witness :
  sync ex_env ex_source ex_world = (Return tt, ex_self1, ex_world1)
  /\ exists local_path walked,
       get_backend ex_env ex_source = inr local_path
       /\ _walk ex_env ex_source local_path = Return walked
       /\ forall p,
            p ∈ known_paths ex_source ex_world1 <->
            (p ∈ known_paths ex_source ex_world
             /\ open_rb ex_env (Py.os_path_join local_path p)
                <> inl FileNotFoundError)
            \/ (p ∈ walked /\ p ∉ known_paths ex_source ex_world).
Proof.
  split; [exact ex_sync_returns|].
  exact (sync_known_paths_after ex_env ex_source ex_world ex_self1 ex_world1
           ex_sync_returns).
Defined.

Lemma sync_effect_on_known_row_witness :
  sync ex_env ex_source ex_world = (Return tt, ex_self1, ex_world1)
  /\ get_backend ex_env ex_source = inr root
  /\ files ex_world !! 8 = Some known_a
  /\ DataFile.source known_a = pk ex_source
  /\ match open_rb ex_env (file_path root known_a) with
     | inr content =>
         if String.eqb (Sha256.hexdigest content) (DataFile.hash known_a)
         then files ex_world1 !! 8 = Some known_a
         else exists stamp,
                files ex_world1 !! 8 = Some (refreshed ex_env root stamp content known_a)
     | inl _ =>
         forall k' row',
           files ex_world1 !! k' = Some row' ->
           DataFile.source row' = pk ex_source ->
           DataFile.path row' <> DataFile.path known_a
     end.
Proof.
  split; [exact ex_sync_returns|]. split; [reflexivity|].
  split; [exact known_a_stored|]. split; [reflexivity|].
  exact (sync_effect_on_known_row ex_env ex_source ex_world ex_self1 ex_world1
           root 8 known_a ex_sync_returns eq_refl known_a_stored eq_refl).
Defined.

Lemma sync_stages_each_row_once_witness :
  sync_staged ex_env ex_source ex_world = (Return ex_staged, ex_self1, ex_world1)
  /\ exists local_path,
       get_backend ex_env ex_source = inr local_path
       /\ deleted_file_ids ex_staged =
          DataFile.pk <$> filter (fun df => is_missing ex_env local_path df = true)
                                 (datafiles ex_source ex_world)
       /\ DataFile.pk <$> updated_files ex_staged =
          DataFile.pk <$> filter (fun df => is_stale ex_env local_path df = true)
                                 (datafiles ex_source ex_world)
       /\ NoDup (deleted_file_ids ex_staged)
       /\ NoDup (DataFile.pk <$> updated_files ex_staged)
       /\ forall id, id ∈ deleted_file_ids ex_staged ->
                     id ∉ DataFile.pk <$> updated_files ex_staged.
Proof.
  split; [exact ex_run_returns|].
  exact (sync_stages_each_row_once ex_env ex_source ex_world ex_staged
           ex_self1 ex_world1 ex_run_returns).
Defined.

Lemma noisy_run_raises :
  sync noisy_env ex_source ex_world
  = (Raise (OtherError "ReceiverError"), noisy_run.1.2, noisy_run.2).
Proof. vm_compute. reflexivity. Qed.

Lemma failed_sync_blocks_next_sync_witness :
  (ready_for_sync gone_source = true
   /\ sync down_env gone_source gone_world
      = (Raise (OtherError "ConnectionError"), down_run.1.2, down_run.2)
   /\ ((down_run.1.2 = gone_source
        /\ receivers down_env (pre_sync (pk gone_source))
           = Some (OtherError "ConnectionError"))
       \/ (down_run.1.2 = set_status SYNCING gone_source
           /\ forall env2 w2,
                sync env2 down_run.1.2 w2 =
                (Raise (SyncError
                          "Cannot initiate sync; data source not ready/enabled"),
                 down_run.1.2, w2))
       \/ (status down_run.1.2 = COMPLETED
           /\ (db_error down_env Update_completed
               = Some (OtherError "ConnectionError")
               \/ receivers down_env (post_sync (pk gone_source))
                  = Some (OtherError "ConnectionError")))))
  /\ (ready_for_sync ex_source = true
      /\ sync noisy_env ex_source ex_world
         = (Raise (OtherError "ReceiverError"), noisy_run.1.2, noisy_run.2)
      /\ noisy_run.1.2 = ex_source
      /\ ((noisy_run.1.2 = ex_source
           /\ receivers noisy_env (pre_sync (pk ex_source))
              = Some (OtherError "ReceiverError"))
          \/ (noisy_run.1.2 = set_status SYNCING ex_source
              /\ forall env2 w2,
                   sync env2 noisy_run.1.2 w2 =
                   (Raise (SyncError
                             "Cannot initiate sync; data source not ready/enabled"),
                    noisy_run.1.2, w2))
          \/ (status noisy_run.1.2 = COMPLETED
              /\ (db_error noisy_env Update_completed
                  = Some (OtherError "ReceiverError")
                  \/ receivers noisy_env (post_sync (pk ex_source))
                     = Some (OtherError "ReceiverError"))))).
Proof.
  split.
  - split; [reflexivity|]. split; [exact down_run_raises|].
    exact (failed_sync_blocks_next_sync down_env gone_source gone_world _ _ _
             eq_refl down_run_raises).
  - split; [reflexivity|]. split; [exact noisy_run_raises|].
    split; [vm_compute; reflexivity|].
    exact (failed_sync_blocks_next_sync noisy_env ex_source ex_world _ _ _
             eq_refl noisy_run_raises).
Defined.

Lemma sync_return_completes_witness :
  sync ex_env ex_source ex_world = (Return tt, ex_self1, ex_world1)
  /\ status ex_self1 = COMPLETED
  /\ ready_for_sync ex_self1 = true
  /\ (exists n, ticks ex_world1 = S n
                /\ last_synced ex_self1 = Some (clock ex_env n))
  /\ events ex_world1
     = events ex_world ++ [pre_sync (pk ex_source); post_sync (pk ex_source)]
  /\ forall row, sources ex_world1 !! pk ex_source = Some row ->
       status row = COMPLETED /\ last_synced row = last_synced ex_self1.
Proof.
  split; [exact ex_sync_returns|].
  exact (sync_return_completes ex_env ex_source ex_world ex_self1 ex_world1
           ex_sync_returns).
Defined.

Lemma failed_sync_frame_witness :
  sync link_env gone_source two_world
  = (Raise FileNotFoundError, two_run.1.2, two_run.2)
  /\ files two_world !! 7 = Some (stale_row 7 "gone.txt")
  /\ files two_run.2 !! 7 = None
  /\ DataFile.source other_row <> pk gone_source
  /\ files two_world !! 9 = Some other_row
  /\ files two_run.2 !! 9 = Some other_row.
Proof.
  assert (H1 : sync link_env gone_source two_world
               = (Raise FileNotFoundError, two_run.1.2, two_run.2))
    by (vm_compute; reflexivity).
  assert (H2 : DataFile.source other_row <> pk gone_source)
    by (vm_compute; discriminate).
  assert (H3 : files two_world !! 9 = Some other_row)
    by (vm_compute; reflexivity).
  split; [exact H1|]. split; [vm_compute; reflexivity|].
  split; [vm_compute; reflexivity|]. split; [exact H2|].
  split; [exact H3|].
  exact (proj2 (proj1 (failed_sync_frame link_env gone_source two_world _ _ _
                         H1) 9 other_row H2) H3).
Defined.

Lemma refresh_from_disk_settles_witness :
  refresh_from_disk ex_env known_a root ex_world
  = (Return (refreshed_a, true), tick ex_world)
  /\ refresh_from_disk ex_env refreshed_a root (tick ex_world)
     = (Return (refreshed_a, false), tick ex_world).
Proof.
  split; [exact known_a_refreshed|].
  exact (refresh_from_disk_settles ex_env known_a root ex_world refreshed_a
           true (tick ex_world) known_a_refreshed).
Defined.

Lemma walk_returns_exactly_witness :
  _walk ex_env ex_source root = Return {[ "a.txt"; "sub/.hidden/c.txt" ]}
  /\ forall p, p ∈ ({[ "a.txt"; "sub/.hidden/c.txt" ]} : gset string) <->
               exists entry, entry ∈ os_walk ex_env root
                             /\ walk_entry ex_source root entry p.
Proof.
  split; [exact ex_walk_returns|].
  exact (walk_returns_exactly ex_env ex_source root _ ex_walk_returns).
Defined.

Lemma plain_rules_ignore_by_name_witness :
  Forall (fun rule => plain_rule rule = true /\ rule <> EmptyString)
         plain_rules
  /\ ignore_rules plain_source = join_lines plain_rules
  /\ (_ignore plain_source "LICENSE" = true <->
      Py.startswith "LICENSE" "." = true \/ "LICENSE" ∈ plain_rules).
Proof.
  split; [exact plain_rules_plain|]. split; [reflexivity|].
  exact (plain_rules_ignore_by_name plain_source plain_rules "LICENSE"
           plain_rules_plain eq_refl).
Defined.

Lemma save_stores_backend_parameters_witness :
  DataSourceForm.__init__ ex_backends ex_form0 = Return ex_form
  /\ Forall (fun name => Py.startswith name "backend_" = false)
            (DataSourceForm.fields ex_form0).*1
  /\ (forall ty backend, ex_backends !! ty = Some backend ->
                         NoDup (DataSourceForm.parameters backend).*1)
  /\ (forall name, name ∈ DataSourceForm.backend_fields ex_form ->
                   is_Some (ex_cleaned !! name))
  /\ exists ty backend items,
       DataSourceForm.chosen_type ex_backends ex_form0 = Return (Some ty)
       /\ ex_backends !! ty = Some backend
       /\ DataSourceForm.backend_fields ex_form
          = (fun p => "backend_" +:+ p) <$> (DataSourceForm.parameters backend).*1
       /\ Forall2 (fun name item =>
                     item.1 = name
                     /\ ex_cleaned !! ("backend_" +:+ name) = Some item.2)
                  (DataSourceForm.parameters backend).*1 items
       /\ DataSourceForm.save return_instance
            (DataSourceForm.set_cleaned_data ex_cleaned ex_form)
          = return_instance
              (DataSourceForm.set_instance
                 (DataSourceForm.set_parameters (Some items)
                    (DataSourceForm.instance ex_form0))
                 (DataSourceForm.set_cleaned_data ex_cleaned ex_form)).
Proof.
  split; [exact ex_form_built|]. split; [exact base_fields_names|].
  split; [exact ex_backends_keys|]. split; [exact ex_cleaned_values|].
  exact (save_stores_backend_parameters ex_backends ex_form0 ex_form
           return_instance ex_cleaned ex_form_built base_fields_names
           ex_backends_keys ex_cleaned_values).
Defined.

Lemma init_adds_backend_fields_witness :
  DataSourceForm.__init__ ex_backends ex_form0 = Return ex_form
  /\ (forall ty backend, ex_backends !! ty = Some backend ->
                         NoDup (DataSourceForm.parameters backend).*1)
  /\ exists ty backend,
       DataSourceForm.chosen_type ex_backends ex_form0 = Return (Some ty)
       /\ ex_backends !! ty = Some backend
       /\ DataSourceForm.instance ex_form = DataSourceForm.instance ex_form0
       /\ (forall name form_field,
             (name, form_field) ∈ DataSourceForm.parameters backend ->
             PyDict.dict_get (DataSourceForm.fields ex_form)
                             ("backend_" +:+ name)
             = Some match DataSource.parameters
                          (DataSourceForm.instance ex_form0) with
                    | Some (item :: stored) =>
                        FormField.Build
                          (PyDict.dict_get (item :: stored) name)
                          (FormField.label form_field)
                    | _ => form_field
                    end)
       /\ (forall name,
             (forall p, p ∈ (DataSourceForm.parameters backend).*1 ->
                        name <> "backend_" +:+ p) ->
             PyDict.dict_get (DataSourceForm.fields ex_form) name
             = PyDict.dict_get (DataSourceForm.fields ex_form0) name).
Proof.
  split; [exact ex_form_built|]. split; [exact ex_backends_keys|].
  exact (init_adds_backend_fields ex_backends ex_form0 ex_form
           ex_form_built ex_backends_keys).
Defined.

Lemma save_raises_without_value_witness :
  "backend_branch" ∈ (DataSourceForm.fields ex_form).*1
  /\ Py.startswith "backend_branch" "backend_" = true
  /\ DataSourceForm.cleaned_data ex_form = None
  /\ DataSourceForm.save return_instance ex_form fresh_world
     = (Raise (OtherError "AttributeError"), fresh_world)
  /\ partial_cleaned !! "backend_branch" = None
  /\ DataSourceForm.save return_instance
       (DataSourceForm.set_cleaned_data partial_cleaned ex_form) fresh_world
     = (Raise (OtherError "KeyError"), fresh_world).
Proof.
  assert (H1 : "backend_branch" ∈ (DataSourceForm.fields ex_form).*1).
  { change ((DataSourceForm.fields ex_form).*1)
      with ["name"; "type"; "source_url"; "enabled"; "description";
            "comments"; "ignore_rules"; "tags"; "backend_username";
            "backend_password"; "backend_branch"].
    set_solver. }
  assert (H3 : partial_cleaned !! "backend_branch" = None)
    by (vm_compute; reflexivity).
  split; [exact H1|]. split; [reflexivity|]. split; [reflexivity|].
  split.
  { exact (proj1 (save_raises_without_value return_instance ex_form
                    "backend_branch" fresh_world H1 eq_refl) eq_refl). }
  split; [exact H3|].
  exact (proj2 (save_raises_without_value return_instance
                  (DataSourceForm.set_cleaned_data partial_cleaned ex_form)
                  "backend_branch" fresh_world H1 eq_refl)
           partial_cleaned eq_refl H3).
Defined.

Lemma sync_new_files_within_limits_witness :
  sync ex_env ex_source ex_world = (Return tt, ex_self1, ex_world1)
  /\ exists local_path walked,
       get_backend ex_env ex_source = inr local_path
       /\ _walk ex_env ex_source local_path = Return walked
       /\ forall p, p ∈ walked -> p ∉ known_paths ex_source ex_world ->
            (exists content sz,
               open_rb ex_env (Py.os_path_join local_path p) = inr content
               /\ getsize ex_env (Py.os_path_join local_path p) = inr sz
               /\ 0 <= sz <= 2147483647)
            /\ (String.length p <= 1000)%nat
            /\ is_Some (sources ex_world !! pk ex_source).
Proof.
  split; [exact ex_sync_returns|].
  exact (sync_new_files_within_limits ex_env ex_source ex_world ex_self1
           ex_world1 ex_sync_returns).
Defined.


Lemma fieldsets_after_init_witness :
  DataSourceForm.__init__ ex_backends ex_form0 = Return ex_form
  /\ exists ty backend,
       DataSourceForm.chosen_type ex_backends ex_form0 = Return (Some ty)
       /\ ex_backends !! ty = Some backend
       /\ DataSourceForm.fieldsets ex_form =
          ("Source", ["name"; "type"; "source_url"; "enabled"; "description";
                      "tags"; "ignore_rules"])
          :: match DataSourceForm.parameters backend with
             | [] => []
             | _ => [("Backend",
                      (fun p => "backend_" +:+ p)
                        <$> (DataSourceForm.parameters backend).*1)]
             end.
Proof.
  split; [exact ex_form_built|].
  exact (fieldsets_after_init ex_backends ex_form0 ex_form ex_form_built).
Defined.

End MoreInstances.
